(** * steamsync: the shortcut synchronisation engine

    A shallow embedding of [steamsync.py] (the driver of the steamsync
    tool) and the properties of its merge into Steam's [shortcuts.vdf].

    Layout of the development:
    - [Py]: the Python built-ins the driver relies on ([int], [str],
      [str.strip], [str.split], [str.isdigit], truthiness, list indexing
      with negative indices, insertion-ordered dictionaries);
    - the data model ([value], [GameDefinition], [SteamAccount]);
    - the world the program runs in (files, console, clock) and a small
      state-and-exception monad over it;
    - the functions of [steamsync.py], in source order;
    - the theorems.

    Strings are byte strings: characters outside ASCII are sequences of
    bytes that are neither digits nor white space for the built-ins below. *)

From Stdlib Require Import ZArith String Ascii List Lia Bool.
From Stdlib Require Import DecimalString DecimalZ DecimalPos DecimalN.
From stdpp Require Import base option list strings gmap.

Local Open Scope Z_scope.
Local Open Scope string_scope.

(* ===================================================================== *)
(** ** Python built-ins *)
(* ===================================================================== *)

Module Py.

(** Exceptions the driver can raise. *)
Inductive exn : Type :=
| ValueError
| KeyError
| TypeError
| AttributeError
| IndexError
| StopIteration
| EOFError
| OSError
| FileNotFoundError
| CodecError.

(** Strings are sequences of 8-bit characters here, where the
    interpreter's are sequences of Unicode code points. The built-ins
    below are the interpreter's on ASCII text ([isascii]); beyond it the
    interpreter also knows the white space and the digits of Unicode
    ([strip], [isdigit], [int]) and counts characters where bytes are
    counted here ([rjust], [ljust]). *)

(** [s.isascii()]: every character is below 128. *)
Fixpoint isascii (s : string) : bool :=
  match s with
  | EmptyString => true
  | String c r => (nat_of_ascii c <? 128)%nat && isascii r
  end.

(** [Py_ISSPACE]: the white space [int] skips around an ASCII literal. *)
Definition is_c_space (c : ascii) : bool :=
  let n := nat_of_ascii c in
  ((9 <=? n) && (n <=? 13))%nat || (n =? 32)%nat.

(** [str.isspace] on one ASCII character: what [str.strip] removes. *)
Definition is_space (c : ascii) : bool :=
  let n := nat_of_ascii c in
  ((9 <=? n) && (n <=? 13))%nat || ((28 <=? n) && (n <=? 32))%nat.

Fixpoint lstrip_with (sp : ascii -> bool) (s : string) : string :=
  match s with
  | String c r => if sp c then lstrip_with sp r else s
  | EmptyString => EmptyString
  end.

(** Removes trailing characters: the result keeps a character when it is
    not white space or when something is kept after it. *)
Fixpoint rstrip_with (sp : ascii -> bool) (s : string) : string :=
  match s with
  | String c r =>
      match rstrip_with sp r with
      | EmptyString => if sp c then EmptyString else String c EmptyString
      | r' => String c r'
      end
  | EmptyString => EmptyString
  end.

(** [s.strip()], for ASCII text. *)
Definition strip (s : string) : string :=
  rstrip_with is_space (lstrip_with is_space s).

(** [s.split(",")]: always at least one field. *)
Fixpoint split_on (sep : ascii) (s : string) : list string :=
  match s with
  | EmptyString => [EmptyString]
  | String c r =>
      if Ascii.eqb c sep then EmptyString :: split_on sep r
      else match split_on sep r with
           | f :: fs => String c f :: fs
           | [] => [String c EmptyString]
           end
  end.

Definition digit_of_ascii (c : ascii) : option Z :=
  let n := nat_of_ascii c in
  if ((48 <=? n) && (n <=? 57))%nat then Some (Z.of_nat n - 48) else None.

(** [s.isdigit()], for ASCII text: non-empty and made of digits. *)
Fixpoint all_digits (s : string) : bool :=
  match s with
  | EmptyString => true
  | String c r => match digit_of_ascii c with
                  | Some _ => all_digits r
                  | None => false
                  end
  end.

Definition isdigit (s : string) : bool :=
  match s with
  | EmptyString => false
  | _ => all_digits s
  end.

(** The digits of a decimal literal: single underscores are allowed
    between digits, nowhere else. *)
Inductive lit_state : Type := AtStart | AfterDigit | AfterUnderscore.

Fixpoint parse_digits (st : lit_state) (acc : Z) (s : string) : option Z :=
  match s with
  | EmptyString =>
      match st with
      | AfterDigit => Some acc
      | _ => None
      end
  | String c r =>
      match digit_of_ascii c with
      | Some d => parse_digits AfterDigit (10 * acc + d) r
      | None =>
          if Ascii.eqb c "_" then
            match st with
            | AfterDigit => parse_digits AfterUnderscore acc r
            | _ => None
            end
          else None
      end
  end.

(** [sys.get_int_max_str_digits()] as the interpreter starts: [int]
    raises [ValueError] for a literal with more digits. *)
Definition int_max_str_digits : nat := 4300.

(** [int(s)] for a string of ASCII text, base 10: [None] stands for
    [ValueError]. The interpreter's cap on the number of digits is not
    part of the model: the literal is taken to have at most
    [int_max_str_digits] digits. *)
Definition int (s : string) : option Z :=
  let body := rstrip_with is_c_space (lstrip_with is_c_space s) in
  match body with
  | String "+" r => parse_digits AtStart 0 r
  | String "-" r => Z.opp <$> parse_digits AtStart 0 r
  | _ => parse_digits AtStart 0 body
  end.

(** [str(n)] for an integer. *)
Definition str (n : Z) : string :=
  NilZero.string_of_int (Z.to_int n).

(** Helpers for [str.format] with a fill and a width, for ASCII text:
    ["{: >w}"] pads on the left, ["{: <w}"] on the right; neither cuts. *)
Fixpoint spaces (n : nat) : string :=
  match n with
  | O => EmptyString
  | S n' => String " " (spaces n')
  end.

Definition rjust (w : nat) (s : string) : string :=
  spaces (w - String.length s) ++ s.

Definition ljust (w : nat) (s : string) : string :=
  s ++ spaces (w - String.length s).

(** [s[:n]] *)
Definition take_prefix (n : nat) (s : string) : string :=
  String.substring 0 n s.

(** ["=" * n] *)
Fixpoint repeat_char (c : ascii) (n : nat) : string :=
  match n with
  | O => EmptyString
  | S n' => String c (repeat_char c n')
  end.

(** [xs[i]] for a list: a negative index counts from the end; outside
    [-len, len) it is [IndexError] ([None] here). *)
Definition list_getitem {A : Type} (xs : list A) (i : Z) : option A :=
  let n := Z.of_nat (List.length xs) in
  if ((0 <=? i) && (i <? n))%Z then xs !! Z.to_nat i
  else if ((- n <=? i) && (i <? 0))%Z then xs !! Z.to_nat (n + i)
  else None.

(** Insertion-ordered dictionaries with string keys. *)
Section Dict.
Context {V : Type}.

(** [d.get(k)] *)
Fixpoint dict_get (k : string) (d : list (string * V)) : option V :=
  match d with
  | [] => None
  | (k', v) :: r => if String.eqb k k' then Some v else dict_get k r
  end.

(** [d[k] = v]: an existing key keeps its place, a new key goes last. *)
Fixpoint dict_set (k : string) (v : V) (d : list (string * V))
  : list (string * V) :=
  match d with
  | [] => [(k, v)]
  | (k', v') :: r =>
      if String.eqb k k' then (k', v) :: r
      else (k', v') :: dict_set k v r
  end.

Definition dict_keys (d : list (string * V)) : list string := d.*1.

(** What a dictionary object guarantees: no key twice. *)
Definition dict_wf (d : list (string * V)) : Prop := NoDup (dict_keys d).
End Dict.

End Py.

(* ===================================================================== *)
(** ** Data model *)
(* ===================================================================== *)

#[local] Set Warnings "-register-all".

(** What the binary VDF codec hands back: text, integers, 32-bit floats
    (kept as their bit pattern) and nested insertion-ordered maps. *)
Inductive value : Type :=
| VStr (s : string)
| VInt (n : Z)
| VFloat (bits : Z)
| VDict (d : list (string * value)).

(** Python truthiness of a value; an absent value ([None]) is falsy. *)
Definition truthy (v : value) : bool :=
  match v with
  | VStr s => negb (String.eqb s EmptyString)
  | VInt n => negb (n =? 0)%Z
  | VFloat bits => negb (Z.land bits 2147483647 =? 0)%Z
  | VDict d => match d with [] => false | _ => true end
  end.

Definition truthy_opt (o : option value) : bool :=
  match o with
  | Some v => truthy v
  | None => false
  end.

(** Only dictionaries are unhashable among the values of the codec. *)
Definition hashable (v : value) : bool :=
  match v with
  | VDict _ => false
  | _ => true
  end.

(** Modelled from the spec: the class [defs.GameDefinition] is not part
    of the sources at hand. The record has the seven constructor
    arguments in the order [egs_collect_games] passes them (the spec's
    GameRecord fields) and the [icon] attribute [to_shortcut] reads. *)
Record GameDefinition : Type := mkGame {
  executable_path : string;
  display_name : string;
  app_name : string;
  install_folder : string;
  launch_arguments : string;
  uri : option string;
  storetag : string;
  icon : string;
}.

(** Modelled from the spec: [steameditor.SteamAccount] is not part of the
    sources at hand; an account has an id and a user name. *)
Record SteamAccount : Type := mkAccount {
  steamid : string;
  username : string;
}.

(** The part of [steameditor.SteamDatabase] the driver reads. *)
Record SteamDatabase : Type := mkSteamDatabase {
  _steam_path : string;
}.

(** The parsed command line, as [parse_arguments] returns it (the three
    options that only steer the collectors are left out). *)
Record Args : Type := mkArgs {
  steam_path : string;
  all : bool;
  replace_existing : bool;
  live_dangerously : bool;
  arg_steamid : string;
  use_uri : bool;
  download_art : bool;
  download_art_all_shortcuts : bool;
}.

(** File-system requests that change the disk. [open(path, "wb")] and
    the write to the file it opened are two requests: the first creates
    the file or cuts it to nothing, the second fills it. *)
Inductive fs_op : Type :=
| OpRemove (path : string)
| OpRename (src dst : string)
| OpCreate (path : string)
| OpWrite (path : string).

(** The collaborators of the driver: the VDF codec, path arithmetic, the
    artwork cache of [steameditor], account enumeration, and the operating
    system's right to refuse a request. *)
Class Collaborators : Type := {
  file_bytes : Type;
  (** what a file holds once [open(path, "wb")] has created it or cut it
      to nothing: no bytes *)
  empty_bytes : file_bytes;
  (** [vdf.binary_load]; [None] when the codec raises *)
  binary_load : file_bytes -> option value;
  (** [vdf.binary_dumps]; [None] when the codec raises *)
  binary_dumps : value -> option file_bytes;
  (** [os.path.join] *)
  os_path_join : list string -> string;
  (** [str(Path(p).parent)] *)
  path_parent : string -> string;
  art_state : Type;
  (** [steamdb.download_art(user, game, should_replace_existing=False)] *)
  download_art_for : SteamAccount -> GameDefinition -> art_state -> bool * art_state;
  (** building the temporary definition of an existing shortcut from its
      executable, its [appname] (possibly absent) and its folder, then
      [steamdb.download_art] on it *)
  download_art_existing :
    SteamAccount -> string -> option value -> string -> art_state -> bool * art_state;
  (** [steamdb.download_art_multiple(user, games, should_replace_existing=False)] *)
  download_art_multiple :
    SteamAccount -> list GameDefinition -> art_state -> Z * art_state;
  (** [user.get_grid_folder(steam_path)] *)
  get_grid_folder : SteamAccount -> string -> string;
  (** [SteamDatabase(...)] followed by [enumerate_steam_accounts()];
      [inl text] is a [FileNotFoundError] with that text *)
  enumerate_steam_accounts : string -> string + list SteamAccount;
  (** whether the operating system refuses a request in a given disk state *)
  fs_refuses : fs_op -> gmap string file_bytes -> bool;
}.

(* ===================================================================== *)
(** ** The world and the monad of effects *)
(* ===================================================================== *)

Section World.
Context `{Collaborators}.

(** What the program does to the outside, in order. *)
Inductive event : Type :=
| Printed (line : string)
| PrintedRepr (v : value)
| Prompted (text : string)
| FsRemove (path : string)
| FsRename (src dst : string)
| FsCreate (path : string)
| FsWrite (path : string) (content : file_bytes).

Record world : Type := mkWorld {
  files : gmap string file_bytes;
  art : art_state;
  (** what [time.strftime("%Y%m%d-%H%M%S")] answers *)
  clock : string;
  (** the lines still to be read from the console *)
  stdin : list string;
  trace : list event;
}.

(** How a computation ends: with a value, with an exception, or not
    within the number of loop rounds it was given. *)
Inductive outcome (A : Type) : Type :=
| Ret (a : A)
| Raise (e : Py.exn)
| Spin.

#[global] Arguments Ret {A} a.
#[global] Arguments Raise {A} e.
#[global] Arguments Spin {A}.

Definition M (A : Type) : Type := world -> outcome A * world.

Definition ret {A : Type} (a : A) : M A := fun w => (Ret a, w).

Definition raise {A : Type} (e : Py.exn) : M A := fun w => (Raise e, w).

Definition bind {A B : Type} (m : M A) (k : A -> M B) : M B :=
  fun w =>
    match m w with
    | (Ret a, w') => k a w'
    | (Raise e, w') => (Raise e, w')
    | (Spin, w') => (Spin, w')
    end.

Definition set_files (fs : gmap string file_bytes) (w : world) : world :=
  mkWorld fs (art w) (clock w) (stdin w) (trace w).

(** The world after some more events. *)
Definition log (evs : list event) (w : world) : world :=
  mkWorld (files w) (art w) (clock w) (stdin w) (trace w ++ evs).

Definition emit (e : event) : M unit := fun w => (Ret tt, log [e] w).

(** [print(s)] *)
Definition print (s : string) : M unit := emit (Printed s).

(** [input(prompt)]: end of input raises [EOFError]. *)
Definition input (prompt : string) : M string :=
  fun w =>
    let w1 := log [Prompted prompt] w in
    match stdin w with
    | line :: rest =>
        (Ret line, mkWorld (files w1) (art w1) (clock w1) rest (trace w1))
    | [] => (Raise Py.EOFError, w1)
    end.

(** Lifting an optional result: [None] raises [e]. *)
Definition or_raise {A : Type} (e : Py.exn) (o : option A) : M A :=
  match o with
  | Some a => ret a
  | None => raise e
  end.

(** [os.path.exists(p)] *)
Definition path_exists (p : string) : M bool :=
  fun w => (Ret (bool_decide (is_Some (files w !! p))), w).

(** [open(p, "rb")] and reading it whole. *)
Definition read_file (p : string) : M file_bytes :=
  fun w =>
    match files w !! p with
    | Some b => (Ret b, w)
    | None => (Raise Py.FileNotFoundError, w)
    end.

(** [os.remove(p)] *)
Definition os_remove (p : string) : M unit :=
  fun w =>
    if fs_refuses (OpRemove p) (files w) then (Raise Py.OSError, w)
    else match files w !! p with
         | Some _ =>
             (Ret tt, log [FsRemove p] (set_files (delete p (files w)) w))
         | None => (Raise Py.FileNotFoundError, w)
         end.

(** [os.rename(src, dst)] *)
Definition os_rename (src dst : string) : M unit :=
  fun w =>
    if fs_refuses (OpRename src dst) (files w) then (Raise Py.OSError, w)
    else match files w !! src with
         | Some b =>
             (Ret tt, log [FsRename src dst]
                        (set_files (<[dst := b]> (delete src (files w))) w))
         | None => (Raise Py.FileNotFoundError, w)
         end.

(** [with open(p, "wb") as f: f.write(b)]. A refused [open] leaves the
    disk as it was; once the file is open it exists and is empty, and a
    refused write leaves it so. *)
Definition write_file (p : string) (b : file_bytes) : M unit :=
  fun w =>
    if fs_refuses (OpCreate p) (files w) then (Raise Py.OSError, w)
    else
      let w1 := log [FsCreate p] (set_files (<[p := empty_bytes]> (files w)) w) in
      if fs_refuses (OpWrite p) (files w1) then (Raise Py.OSError, w1)
      else (Ret tt, log [FsWrite p b] (set_files (<[p := b]> (files w1)) w1)).

(** [time.strftime("%Y%m%d-%H%M%S")] *)
Definition strftime : M string := fun w => (Ret (clock w), w).

(** Running a collaborator that owns the artwork cache. *)
Definition with_art {A : Type} (f : art_state -> A * art_state) : M A :=
  fun w =>
    let '(a, s) := f (art w) in
    (Ret a, mkWorld (files w) s (clock w) (stdin w) (trace w)).

End World.

Notation "x <- m ;; k" := (bind m (fun x => k))
  (at level 20, m at level 99, k at level 200, only parsing).
Notation "' pat <- m ;; k" := (bind m (fun x => match x with pat => k end))
  (at level 20, pat pattern, m at level 99, k at level 200, only parsing).
Notation "m ;;; k" := (bind m (fun _ => k))
  (at level 100, k at level 200, right associativity, only parsing).

(* ===================================================================== *)
(** ** The driver, in source order *)
(* ===================================================================== *)

Section Driver.
Context `{Collaborators}.

Definition nl : string := String (ascii_of_nat 10) EmptyString.

(** The row format of [print_games]:
    ["{: >3} | {: <25} | {: <10} | {: <45} | {: <25}"]. *)
Definition games_row (c1 c2 c3 c4 c5 : string) : string :=
  Py.rjust 3 c1 ++ " | " ++ Py.ljust 25 c2 ++ " | " ++ Py.ljust 10 c3 ++ " | "
  ++ Py.ljust 45 c4 ++ " | " ++ Py.ljust 25 c5.

Fixpoint print_games_rows (i : Z) (games : list GameDefinition) : M unit :=
  match games with
  | [] => ret tt
  | game :: rest =>
      print (games_row (Py.str i) (Py.take_prefix 25 (display_name game))
               (storetag game) (Py.take_prefix 45 (app_name game))
               (executable_path game ++ " " ++ launch_arguments game)) ;;;
      print_games_rows (i + 1) rest
  end.

Definition print_games (games : list GameDefinition) : M unit :=
  print (games_row "Num" "Game Name" "Source" "App ID" "Executable") ;;;
  print (Py.repeat_char "=" (3 + 25 + 10 + 45 + 25)) ;;;
  print_games_rows 1 games.

(** The loop of [filter_games] over the comma-separated fields. Only
    [ValueError] is caught; an index outside the table raises. *)
Fixpoint filter_games_loop (games : list GameDefinition) (selection : list string)
    (selected : list GameDefinition) : M (option (list GameDefinition)) :=
  match selection with
  | [] =>
      print ("Selected " ++ Py.str (Z.of_nat (List.length selected))
             ++ " games to install") ;;;
      ret (Some selected)
  | idx :: rest =>
      let idx := Py.strip idx in
      match Py.int idx with
      | None =>
          print ("Error: Expected number (1 for the first game) and not: '"
                 ++ idx ++ "'") ;;;
          ret None
      | Some n =>
          game <- or_raise Py.IndexError (Py.list_getitem games (n - 1)) ;;
          filter_games_loop games rest (selected ++ [game])
      end
  end.

Definition filter_games (games : list GameDefinition)
  : M (option (list GameDefinition)) :=
  print "Which games do you want to install (blank = all, or comma separated list of numbers from table)?" ;;;
  line <- input ": " ;;
  let selection := Py.strip line in
  if String.eqb selection EmptyString then ret (Some games)
  else filter_games_loop games (Py.split_on "," selection) [].

(** The row format of the account table: ["{: >3} | {: <17} | {: <25}"]. *)
Definition accounts_row (c1 c2 c3 : string) : string :=
  Py.rjust 3 c1 ++ " | " ++ Py.ljust 17 c2 ++ " | " ++ Py.ljust 25 c3.

Fixpoint print_accounts_rows (i : Z) (accounts : list SteamAccount) : M unit :=
  match accounts with
  | [] => ret tt
  | account :: rest =>
      print (accounts_row (Py.str i) (steamid account) (username account)) ;;;
      print_accounts_rows (i + 1) rest
  end.

(** Returns a steamid, or [None] when the answer was not understood. *)
Definition prompt_for_steam_account (accounts : list SteamAccount)
  : M (option string) :=
  match accounts with
  | [only] => ret (Some (steamid only))
  | _ =>
      print "Found multiple Steam accounts:" ;;;
      print (accounts_row "Num" "SteamID" "Display Name") ;;;
      print (Py.repeat_char "=" ((7 + 3) + 25 + 3 + 17 + 3)) ;;;
      print_accounts_rows 1 accounts ;;;
      first <- or_raise Py.IndexError (Py.list_getitem accounts 0) ;;
      print ("Leave empty for `" ++ username first
             ++ "`, or input a steamid, or the Num from the list") ;;;
      line <- input ": " ;;
      let choice := Py.strip line in
      if String.eqb choice EmptyString then ret (Some (steamid first))
      else if bool_decide (choice ∈ steamid <$> accounts) then ret (Some choice)
      else
        match Py.int choice with
        | Some idx =>
            if (idx <=? Z.of_nat (List.length accounts))%Z then
              account <- or_raise Py.IndexError (Py.list_getitem accounts (idx - 1)) ;;
              ret (Some (steamid account))
            else ret None
        | None =>
            print ("Error: Expected number (1 for the first user) and not: '"
                   ++ choice ++ "'") ;;;
            ret None
        end
  end.

(** [game.uri if use_uri and game.uri else game.executable_path]: an
    absent or empty URI falls back to the path. *)
Definition launch_string (game : GameDefinition) (use_uri : bool) : string :=
  match uri game with
  | Some u => if use_uri && negb (String.eqb u EmptyString) then u else executable_path game
  | None => executable_path game
  end.

Definition to_shortcut (game : GameDefinition) (use_uri : bool) : value :=
  let shortcut := launch_string game use_uri in
  VDict [
    ("appname", VStr (display_name game));
    ("Exe", VStr shortcut);
    ("StartDir", VStr (install_folder game));
    ("icon", VStr (icon game));
    ("ShortcutPath", VStr EmptyString);
    ("LaunchOptions", VStr (launch_arguments game));
    ("IsHidden", VInt 0);
    ("AllowDesktopConfig", VInt 1);
    ("AllowOverlay", VInt 1);
    ("openvr", VInt 0);
    ("Devkit", VInt 0);
    ("DevkitGameID", VStr EmptyString);
    ("LastPlayTime", VInt 0);
    ("tags", VDict [("0", VStr "steamsync"); ("1", VStr (storetag game))])
  ].

(** [v.get(key)] on a store entry; anything but a map has no [get]. *)
Definition entry_get (v : value) (key : string) : M (option value) :=
  match v with
  | VDict d => ret (Py.dict_get key d)
  | _ => raise Py.AttributeError
  end.

(** [d[key]] on a decoded document. *)
Definition getitem (v : value) (key : string) : M value :=
  match v with
  | VDict d => or_raise Py.KeyError (Py.dict_get key d)
  | _ => raise Py.TypeError
  end.

(** [v.items()] *)
Definition items (v : value) : M (list (string * value)) :=
  match v with
  | VDict d => ret d
  | _ => raise Py.AttributeError
  end.

(** [path_to_index]: the assignments [path_to_index[exe] = k], latest
    first. The driver only ever reads it with [.get(shortcut)] for a
    string, and a string key equals nothing but the same string, so the
    answer is the index of the latest assignment under that string. *)
Fixpoint path_to_index_get (shortcut : string) (path_to_index : list (value * string))
  : option string :=
  match path_to_index with
  | [] => None
  | (VStr p, k) :: rest =>
      if String.eqb shortcut p then Some k else path_to_index_get shortcut rest
  | _ :: rest => path_to_index_get shortcut rest
  end.

(** [exe not in supported_games], the keys being executable paths. *)
Definition in_supported_games (exe : value) (games : list GameDefinition) : bool :=
  match exe with
  | VStr p => bool_decide (p ∈ executable_path <$> games)
  | _ => false
  end.

Definition malformed_warning : string :=
  "Warning: Entry in shortcuts.vdf has no `Exe` field! Is this a malformed entry?".

(** The loop over [shortcuts["shortcuts"].items()] that fills
    [path_to_index] and, when asked, fetches art for foreign shortcuts. *)
Fixpoint index_existing (user : SteamAccount) (games : list GameDefinition)
    (download_art_unsupported : bool) (entries : list (string * value))
    (path_to_index : list (value * string)) (art_downloads : Z)
  : M (list (value * string) * Z) :=
  match entries with
  | [] => ret (path_to_index, art_downloads)
  | (k, v) :: rest =>
      exe0 <- entry_get v "Exe" ;;
      exe <- (if truthy_opt exe0 then ret exe0 else entry_get v "exe") ;;
      match exe with
      | Some e =>
          if truthy e then
            if hashable e then
              appname <- entry_get v "appname" ;;
              n <- (if download_art_unsupported && negb (in_supported_games e games)
                    then
                      match e with
                      | VStr p =>
                          success <- with_art (download_art_existing user p appname
                                                 (path_parent p)) ;;
                          ret (if success : bool then art_downloads + 1
                               else art_downloads)
                      | _ => raise Py.TypeError
                      end
                    else ret art_downloads) ;;
              index_existing user games download_art_unsupported rest
                ((e, k) :: path_to_index) n
            else raise Py.TypeError
          else
            print malformed_warning ;;;
            emit (PrintedRepr v) ;;;
            index_existing user games download_art_unsupported rest
              path_to_index art_downloads
      | None =>
          print malformed_warning ;;;
          emit (PrintedRepr v) ;;;
          index_existing user games download_art_unsupported rest
            path_to_index art_downloads
      end
  end.

(** [max(int(idx) for idx in all_indexes)], or [0] without indexes;
    [None] is the [ValueError] of [int]. *)
Definition find_last_index (all_indexes : list string) : option Z :=
  match all_indexes with
  | [] => Some 0
  | _ =>
      match mapM Py.int all_indexes with
      | Some (n :: ns) => Some (fold_left Z.max ns n)
      | _ => None
      end
  end.

(** The variables the merge loop updates. *)
Record merge_state : Type := mkMerge {
  shortcuts_map : list (string * value);
  last_index : Z;
  added : Z;
  game_results : list string;
}.

Definition skip_message (game : GameDefinition) : string :=
  display_name game ++ ": Not creating shortcut since it already has one".

(** [if i:] on the result of [path_to_index.get(shortcut, None)]. *)
Definition found_index (i : option string) : option string :=
  match i with
  | Some k => if String.eqb k EmptyString then None else Some k
  | None => None
  end.

(** [for game in games: ...] *)
Fixpoint merge_games (use_uri replace_existing : bool)
    (path_to_index : list (value * string)) (games : list GameDefinition)
    (st : merge_state) : M merge_state :=
  match games with
  | [] => ret st
  | game :: rest =>
      let shortcut := launch_string game use_uri in
      match found_index (path_to_index_get shortcut path_to_index) with
      | Some i =>
          if replace_existing then
            merge_games use_uri replace_existing path_to_index rest
              (mkMerge (Py.dict_set i (to_shortcut game use_uri) (shortcuts_map st))
                       (last_index st) (added st + 1) (game_results st))
          else
            let msg := skip_message game in
            print msg ;;;
            merge_games use_uri replace_existing path_to_index rest
              (mkMerge (shortcuts_map st) (last_index st) (added st)
                       (game_results st ++ [msg]))
      | None =>
          let last := last_index st + 1 in
          merge_games use_uri replace_existing path_to_index rest
            (mkMerge (Py.dict_set (Py.str last) (to_shortcut game use_uri)
                        (shortcuts_map st))
                     last (added st + 1) (game_results st))
      end
  end.

Definition shortcut_file_path_of (steamdb : SteamDatabase) (user : SteamAccount)
  : string :=
  os_path_join [_steam_path steamdb; "userdata"; steamid user; "config";
                "shortcuts.vdf"].

Definition not_found_message (shortcut_file_path : string) : string :=
  "Could not find shortcuts file at `" ++ shortcut_file_path ++ "` " ++ nl
  ++ " Make a shortcut in Steam (Library ➡ ➕ Add Game ➡ Add a Non-Steam Game...) first. Aborting.".

Definition nothing_new_message : string :=
  "No need to update `shortcuts.vdf` - nothing new to add".

Definition print_notice (use_uri : bool) : M unit :=
  if use_uri then
    print EmptyString ;;;
    print "⚠ ⚠ NOTICE: ⚠ ⚠" ;;;
    print "Using a URI instead of executable path" ;;;
    print "You may experience issues with game streaming" ;;;
    print EmptyString
  else
    print EmptyString ;;;
    print "⚠ ⚠ NOTICE: ⚠ ⚠" ;;;
    print "Using the path to the executable instead of the Epic Games Launcher URI" ;;;
    print "You may experience issues with online games (eg GTAV!)" ;;;
    print EmptyString.

(** Lines 447-464: back up or remove, then encode and write. *)
Definition commit (shortcut_file_path : string) (skip_backup : bool)
    (shortcuts : value) : M unit :=
  (if skip_backup then
     print "Not backing up `shortcuts.vdf` since you enjoy danger" ;;;
     os_remove shortcut_file_path
   else
     timestamp <- strftime ;;
     let new_filename := shortcut_file_path ++ "-" ++ timestamp ++ ".bak" in
     print ("Backing up `shortcuts.vdf` to `" ++ new_filename ++ "`") ;;;
     os_rename shortcut_file_path new_filename) ;;;
  new_bytes <- or_raise Py.CodecError (binary_dumps shortcuts) ;;
  write_file shortcut_file_path new_bytes ;;;
  print "Updated `shortcuts.vdf` successfully!" ;;;
  print EmptyString ;;;
  print "➡   Restart Steam!".

(** The decoded document once the merge loop has updated the map under
    ["shortcuts"] in place. *)
Definition with_shortcuts (shortcuts : value) (m : list (string * value)) : value :=
  match shortcuts with
  | VDict d => VDict (Py.dict_set "shortcuts" (VDict m) d)
  | other => other
  end.

(** Returns [((results, added), None)] after a write, [(None, message)]
    when there was nothing to do or no file to work on. *)
Definition add_games_to_shortcut_file (steamdb : SteamDatabase) (user : SteamAccount)
    (games : list GameDefinition)
    (skip_backup use_uri replace_existing download_art_unsupported : bool)
  : M (option (list string * Z) * option string) :=
  print_notice use_uri ;;;
  let shortcut_file_path := shortcut_file_path_of steamdb user in
  present <- path_exists shortcut_file_path ;;
  if negb present then
    let message := not_found_message shortcut_file_path in
    print message ;;;
    ret (None, Some message)
  else
    raw <- read_file shortcut_file_path ;;
    shortcuts <- or_raise Py.CodecError (binary_load raw) ;;
    (if download_art_unsupported
     then print "Downloading art for existing shortcuts..." else ret tt) ;;;
    inner <- getitem shortcuts "shortcuts" ;;
    entries <- items inner ;;
    '(path_to_index, art_downloads) <-
      index_existing user games download_art_unsupported entries [] 0 ;;
    (if download_art_unsupported
     then print ("Downloaded new art for " ++ Py.str art_downloads ++ " games.") ;;;
          print EmptyString
     else ret tt) ;;;
    last <- or_raise Py.ValueError (find_last_index (Py.dict_keys entries)) ;;
    st <- merge_games use_uri replace_existing path_to_index games
            (mkMerge entries last 0 []) ;;
    print ("Added " ++ Py.str (added st) ++ " new games") ;;;
    if (added st =? 0)%Z then
      print nothing_new_message ;;;
      ret (None, Some nothing_new_message)
    else
      commit shortcut_file_path skip_backup
        (with_shortcuts shortcuts (shortcuts_map st)) ;;;
      ret (Some (game_results st, added st), None).

(** [while not picks: picks = filter_games(games)]; an empty list is as
    falsy as [None]. [fuel] bounds the number of rounds. *)
Fixpoint pick_games (fuel : nat) (games : list GameDefinition)
  : M (list GameDefinition) :=
  match fuel with
  | O => fun w => (Spin, w)
  | S fuel' =>
      picks <- filter_games games ;;
      match picks with
      | Some (g :: gs) => ret (g :: gs)
      | _ => pick_games fuel' games
      end
  end.

(** [while not steamid: steamid = prompt_for_steam_account(accounts)] *)
Fixpoint pick_account (fuel : nat) (accounts : list SteamAccount) : M string :=
  match fuel with
  | O => fun w => (Spin, w)
  | S fuel' =>
      answer <- prompt_for_steam_account accounts ;;
      match answer with
      | Some id => if String.eqb id EmptyString then pick_account fuel' accounts else ret id
      | None => pick_account fuel' accounts
      end
  end.

(** [for account in accounts: if username == account.username: ...] *)
Definition steamid_of_username (username0 : string) (accounts : list SteamAccount)
  : string :=
  fold_left (fun id account =>
               if String.eqb username0 (username account) then steamid account
               else id)
            accounts username0.

(** Lines 507-534 of [main]: from the [--steamid] argument and the
    enumerated accounts to the account the shortcuts go to. *)
Definition resolve_account (fuel : nat) (steamid0 : string)
    (accounts : list SteamAccount) : M SteamAccount :=
  (if (Nat.eqb (List.length accounts) 1) && negb (String.eqb steamid0 EmptyString) then
     print "FYI: There is only one Steam account found on your computer, so you don't need to provide --steamid"
   else ret tt) ;;;
  steamid1 <-
    (if negb (Py.isdigit steamid0) && negb (String.eqb steamid0 EmptyString) then
       let username0 := steamid0 in
       let id := steamid_of_username username0 accounts in
       if String.eqb username0 id then
         print "⚠ ⚠ WARNING: ⚠ ⚠" ;;;
         print ("SteamID for `" ++ id ++ "` not found!") ;;;
         print "The SteamID you provided could not be found on your local machine." ;;;
         print "If you are providing the human readable name and not a numeric SteamID, make sure you spell it correctly" ;;;
         ret EmptyString
       else ret id
     else ret steamid0) ;;
  steamid2 <-
    (if String.eqb steamid1 EmptyString then pick_account fuel accounts else ret steamid1) ;;
  or_raise Py.StopIteration
    (List.find (fun user => String.eqb (steamid user) steamid2) accounts).

(** [main], from the [print()] that follows the collectors: [args] is
    what [parse_arguments] returned and [games] what the collectors found.
    [fuel] bounds the rounds of each of the two prompting loops. *)
Definition main (fuel : nat) (args : Args) (games : list GameDefinition) : M Z :=
  print EmptyString ;;;
  print_games games ;;;
  let all_games := games in
  games <- (if negb (all args) then pick_games fuel games else ret games) ;;
  match enumerate_steam_accounts (steam_path args) with
  | inl e =>
      print ("Steam path not found: '" ++ steam_path args
             ++ "'. Use --steam-path for non-standard installs." ++ " " ++ e) ;;;
      ret (-1)%Z
  | inr accounts =>
      let steamdb := mkSteamDatabase (steam_path args) in
      user <- resolve_account fuel (arg_steamid args) accounts ;;
      (if download_art args then
         get_art_for_games <-
           (if download_art_all_shortcuts args then
              print (nl ++ "Downloading art for all detected games...") ;;;
              ret all_games
            else
              print (nl ++ "Downloading art for selected games...") ;;;
              ret games) ;;
         (if replace_existing args then
            print ("To replace existing art, delete the images in "
                   ++ get_grid_folder user (_steam_path steamdb))
          else ret tt) ;;;
         count <- with_art (download_art_multiple user get_art_for_games) ;;
         print ("Downloaded new art for " ++ Py.str count ++ " games.") ;;;
         print EmptyString
       else ret tt) ;;;
      print ("Installing shortcuts for SteamID " ++ username user ++ " `"
             ++ steamid user ++ "`") ;;;
      add_games_to_shortcut_file steamdb user games (live_dangerously args)
        (use_uri args) (replace_existing args) (download_art_all_shortcuts args) ;;;
      print (nl ++ "Done.") ;;;
      ret 0%Z
  end.

(** [if __name__ == "__main__": main()]: what [main] returns is dropped,
    so the interpreter ends with status 0 after a normal return and with
    status 1 after an exception nobody caught. *)
Definition exit_status {A : Type} (o : outcome A) : option Z :=
  match o with
  | Ret _ => Some 0%Z
  | Raise _ => Some 1%Z
  | Spin => None
  end.

End Driver.

(* ===================================================================== *)
(** ** Notions the statements are written with *)
(* ===================================================================== *)

Section Views.
Context `{Collaborators}.

(** The launch target the indexing loop finds in an entry: the value
    under ["Exe"], else under ["exe"], when it is truthy. *)
Definition launch_target (v : value) : option value :=
  match v with
  | VDict d =>
      let exe0 := Py.dict_get "Exe" d in
      let exe := if truthy_opt exe0 then exe0 else Py.dict_get "exe" d in
      if truthy_opt exe then exe else None
  | _ => None
  end.

(** The assignments the indexing loop makes, latest first. *)
Fixpoint build_index (entries : list (string * value))
    (path_to_index : list (value * string)) : list (value * string) :=
  match entries with
  | [] => path_to_index
  | (k, v) :: rest =>
      match launch_target v with
      | Some e => build_index rest ((e, k) :: path_to_index)
      | None => build_index rest path_to_index
      end
  end.

Definition is_str (v : value) : bool :=
  match v with
  | VStr _ => true
  | _ => false
  end.

(** The entries the indexing loop gets through without an exception. *)
Fixpoint index_ok (games : list GameDefinition) (download_art_unsupported : bool)
    (entries : list (string * value)) : bool :=
  match entries with
  | [] => true
  | (k, v) :: rest =>
      match v with
      | VDict _ =>
          match launch_target v with
          | Some e =>
              hashable e
              && (negb (download_art_unsupported && negb (in_supported_games e games))
                  || is_str e)
          | None => true
          end
          && index_ok games download_art_unsupported rest
      | _ => false
      end
  end.

(** The store index the merge loop finds for a record, if any. *)
Definition indexed (path_to_index : list (value * string)) (use_uri : bool)
    (game : GameDefinition) : option string :=
  found_index (path_to_index_get (launch_string game use_uri) path_to_index).

(** The merge loop without its printing. *)
Fixpoint merge_pure (use_uri replace_existing : bool)
    (path_to_index : list (value * string)) (games : list GameDefinition)
    (st : merge_state) : merge_state :=
  match games with
  | [] => st
  | game :: rest =>
      match indexed path_to_index use_uri game with
      | Some i =>
          if replace_existing then
            merge_pure use_uri replace_existing path_to_index rest
              (mkMerge (Py.dict_set i (to_shortcut game use_uri) (shortcuts_map st))
                       (last_index st) (added st + 1) (game_results st))
          else
            merge_pure use_uri replace_existing path_to_index rest
              (mkMerge (shortcuts_map st) (last_index st) (added st)
                       (game_results st ++ [skip_message game]))
      | None =>
          merge_pure use_uri replace_existing path_to_index rest
            (mkMerge (Py.dict_set (Py.str (last_index st + 1))
                        (to_shortcut game use_uri) (shortcuts_map st))
                     (last_index st + 1) (added st + 1) (game_results st))
      end
  end.

(** The selected records that hit an indexed entry, and those that do not. *)
Definition found_games (path_to_index : list (value * string)) (use_uri : bool)
    (games : list GameDefinition) : list GameDefinition :=
  filter (fun g => indexed path_to_index use_uri g <> None) games.

Definition unfound_games (path_to_index : list (value * string)) (use_uri : bool)
    (games : list GameDefinition) : list GameDefinition :=
  filter (fun g => indexed path_to_index use_uri g = None) games.

(** Overwriting, in order, the entry each found record points at. *)
Fixpoint replace_all (path_to_index : list (value * string)) (use_uri : bool)
    (games : list GameDefinition) (m : list (string * value))
  : list (string * value) :=
  match games with
  | [] => m
  | game :: rest =>
      match indexed path_to_index use_uri game with
      | Some i =>
          replace_all path_to_index use_uri rest
            (Py.dict_set i (to_shortcut game use_uri) m)
      | None => replace_all path_to_index use_uri rest m
      end
  end.

(** Entries at the indexes [last + 1], [last + 2], ... *)
Fixpoint fresh_entries (use_uri : bool) (last : Z) (games : list GameDefinition)
  : list (string * value) :=
  match games with
  | [] => []
  | game :: rest =>
      (Py.str (last + 1), to_shortcut game use_uri)
      :: fresh_entries use_uri (last + 1) rest
  end.

(** The entries of a decoded document. *)
Definition shortcuts_of (shortcuts : value) : option (list (string * value)) :=
  match shortcuts with
  | VDict top =>
      match Py.dict_get "shortcuts" top with
      | Some (VDict entries) => Some entries
      | _ => None
      end
  | _ => None
  end.

(** The decoded document in an account's shortcuts file. *)
Definition read_document (steamdb : SteamDatabase) (user : SteamAccount) (w : world)
  : option value :=
  raw ← files w !! shortcut_file_path_of steamdb user; binary_load raw.

(** The entries in an account's shortcuts file. *)
Definition read_store (steamdb : SteamDatabase) (user : SteamAccount) (w : world)
  : option (list (string * value)) :=
  read_document steamdb user w ≫= shortcuts_of.

(** The run gets as far as the merge loop: the file decodes to [doc],
    whose entries the indexing loop accepts and whose indexes are all
    numbers, the largest being [last] (0 without entries). *)
Definition loaded (steamdb : SteamDatabase) (user : SteamAccount)
    (games : list GameDefinition) (download_art_unsupported : bool) (w : world)
    (doc : value) (entries : list (string * value)) (last : Z) : Prop :=
  read_document steamdb user w = Some doc
  /\ shortcuts_of doc = Some entries
  /\ index_ok games download_art_unsupported entries = true
  /\ find_last_index (Py.dict_keys entries) = Some last.

(** The shortcuts file holds the encoding of a document with entries [m]. *)
Definition written_store (steamdb : SteamDatabase) (user : SteamAccount) (w : world)
    (m : list (string * value)) : Prop :=
  exists doc b,
    files w !! shortcut_file_path_of steamdb user = Some b
    /\ binary_dumps doc = Some b /\ shortcuts_of doc = Some m.

(** The last selected record that the merge loop sends to index [i]. *)
Definition last_writer (path_to_index : list (value * string)) (use_uri : bool)
    (i : string) (games : list GameDefinition) : option GameDefinition :=
  last (filter (fun g => indexed path_to_index use_uri g = Some i) games).

(** The events of [w'] that [w] had not seen yet. *)
Definition new_events (w w' : world) : list event :=
  drop (length (trace w)) (trace w').

(** Events that leave the disk alone. *)
Definition console_event (e : event) : bool :=
  match e with
  | Printed _ | PrintedRepr _ | Prompted _ => true
  | _ => false
  end.

(** [w'] is [w] after the events [evs], none of which touched the disk. *)
Definition quiet (evs : list event) (w w' : world) : Prop :=
  files w' = files w /\ stdin w' = stdin w /\ clock w' = clock w
  /\ trace w' = (trace w ++ evs)%list /\ forallb console_event evs = true.

(** A codec that reads back what it wrote. *)
Definition codec_roundtrip : Prop :=
  forall d b, binary_dumps d = Some b -> binary_load b = Some d.

(** The replace-vs-skip reading under which every skip and every replace
    shows up in a results list that the caller receives. *)
Definition reports_in_results (o : outcome (option (list string * Z) * option string))
  : Prop :=
  exists results n, o = Ret (Some (results, n), None) /\ results <> [].

(** At most one entry per launch target. *)
Definition unique_targets (entries : list (string * value)) : Prop :=
  forall i j k1 v1 k2 v2 t,
    entries !! i = Some (k1, v1) -> entries !! j = Some (k2, v2) ->
    launch_target v1 = Some t -> launch_target v2 = Some t -> i = j.

End Views.

(* ===================================================================== *)
(** ** A reference environment *)
(* ===================================================================== *)

(** Environments to run the driver in: documents are stored as they
    are, paths are joined with a slash, and the artwork cache answers
    that nothing was downloaded; in [env] no request is refused. *)
Module RefEnv.

Fixpoint join_slash (parts : list string) : string :=
  match parts with
  | [] => EmptyString
  | [p] => p
  | p :: rest => p ++ "/" ++ join_slash rest
  end.

Definition accounts_on_disk : list SteamAccount :=
  [mkAccount "123" "bob"].

(** The environment in which the operating system refuses the requests
    [refuses] picks. *)
Definition env_refusing (refuses : fs_op -> bool) : Collaborators := {|
  file_bytes := value;
  empty_bytes := VStr EmptyString;
  binary_load := Some;
  binary_dumps := Some;
  os_path_join := join_slash;
  path_parent := fun _ => EmptyString;
  art_state := unit;
  download_art_for := fun _ _ s => (false, s);
  download_art_existing := fun _ _ _ _ s => (false, s);
  download_art_multiple := fun _ _ s => (0%Z, s);
  get_grid_folder := fun _ p => p;
  enumerate_steam_accounts := fun _ => inr accounts_on_disk;
  fs_refuses := fun op _ => refuses op;
|}.

#[export] Instance env : Collaborators := env_refusing (fun _ => false).

(** A disk on which a file can be opened for writing and every write to
    it fails. *)
Definition read_only_env : Collaborators :=
  env_refusing (fun op => match op with OpWrite _ => true | _ => false end).

Definition store_path : string := "/steam/userdata/123/config/shortcuts.vdf".

Definition steamdb : SteamDatabase := mkSteamDatabase "/steam".
Definition bob : SteamAccount := mkAccount "123" "bob".
Definition eve : SteamAccount := mkAccount "456" "eve".

Definition game_a : GameDefinition :=
  mkGame "/g/a.exe" "Alpha" "alpha" "/g" EmptyString None "epic" "/g/a.exe".
Definition game_b : GameDefinition :=
  mkGame "/g/b.exe" "Beta" "beta" "/g" EmptyString None "itchio" "/g/b.exe".

Definition entry_a : value := VDict [("Exe", VStr "/g/a.exe")].
Definition entry_x : value := VDict [("Exe", VStr "/g/x.exe")].

(** An entry with a name and no executable. *)
Definition entry_blank : value := VDict [("appname", VStr "Broken")].

(** The command line [--all --steamid id]. *)
Definition all_args (id : string) : Args :=
  mkArgs "/steam" true false false id false false false.

(** A store document with the given entries. *)
Definition doc (entries : list (string * value)) : value :=
  VDict [("shortcuts", VDict entries)].

(** A world whose only file is the store, with the given console input. *)
Definition world_with (entries : list (string * value)) (lines : list string)
  : world :=
  mkWorld {[ store_path := doc entries ]} tt "20260101-120000" lines [].

(** The same on the disk that cannot be written to. *)
Definition read_only_world (entries : list (string * value)) : @world read_only_env :=
  @mkWorld read_only_env {[ store_path := doc entries ]} tt "20260101-120000" [] [].

(** A world without a store file. *)
Definition empty_world (lines : list string) : world :=
  mkWorld ∅ tt "20260101-120000" lines [].

End RefEnv.

(* ===================================================================== *)
(** ** Further notions for the statements *)
(* ===================================================================== *)

Section MoreViews.
Context `{Collaborators}.

(** The name the backup of [shortcut_file_path] gets at time [timestamp]. *)
Definition backup_path (shortcut_file_path timestamp : string) : string :=
  shortcut_file_path ++ "-" ++ timestamp ++ ".bak".

(** The disk after the first step of a commit: the store removed, or
    renamed to its backup. *)
Definition moved_aside (p : string) (skip_backup : bool) (w : world)
  : gmap string file_bytes :=
  if skip_backup then delete p (files w)
  else match files w !! p with
       | Some raw => <[backup_path p (clock w) := raw]> (delete p (files w))
       | None => files w
       end.

(** The entries a run that writes the store writes: the old ones, those
    a selected record is matched with overwritten when [replace_existing]
    is set, then one entry per selected record that is matched with none,
    in selection order at the indexes after [last]. *)
Definition merged_entries (use_uri replace_existing : bool)
    (entries : list (string * value)) (last : Z) (games : list GameDefinition)
  : list (string * value) :=
  ((if replace_existing
    then replace_all (build_index entries []) use_uri games entries
    else entries)
   ++ fresh_entries use_uri last
        (unfound_games (build_index entries []) use_uri games))%list.

(** The store can be used: it decodes to [doc], whose entries under
    ["shortcuts"] are [entries], with numeric indexes up to [last]. *)
Definition usable_store (steamdb : SteamDatabase) (user : SteamAccount) (w : world)
    (raw : file_bytes) (doc : value) (entries : list (string * value)) (last : Z)
  : Prop :=
  files w !! shortcut_file_path_of steamdb user = Some raw
  /\ binary_load raw = Some doc
  /\ shortcuts_of doc = Some entries
  /\ find_last_index (Py.dict_keys entries) = Some last.

(** A line of console input on which the built-ins modelled in [Py] are
    the interpreter's: ASCII, and too short for a literal over the cap. *)
Definition plain_text (line : string) : Prop :=
  Py.isascii line = true
  /\ (String.length line <= Py.int_max_str_digits)%nat.

(** The request that first step makes of the operating system. *)
Definition first_request (p : string) (skip_backup : bool) (w : world) : fs_op :=
  if skip_backup then OpRemove p else OpRename p (backup_path p (clock w)).

(** The field [field] of an answer names row [n] of the table, which
    holds [x]: rows count from 1. *)
Definition names_row {A : Type} (table : list A) (field : string) (x : A) : Prop :=
  exists n, Py.int (Py.strip field) = Some n
            /\ (1 <= n <= Z.of_nat (length table))%Z
            /\ table !! Z.to_nat (n - 1) = Some x.

(** [w'] is [w] after reading [lines] from the console and printing:
    the disk, the artwork cache and the clock are what they were. *)
Definition after_reading (lines : list string) (w w' : world) : Prop :=
  stdin w = (lines ++ stdin w')%list /\ files w' = files w /\ art w' = art w
  /\ clock w' = clock w
  /\ exists evs, trace w' = (trace w ++ evs)%list
                 /\ forallb console_event evs = true.

(** The error line of [filter_games] for a token. *)
Definition expected_number_message (token : string) : string :=
  "Error: Expected number (1 for the first game) and not: '" ++ token ++ "'".


(** The question [filter_games] asks. *)
Definition which_games_message : string :=
  "Which games do you want to install (blank = all, or comma separated list of numbers from table)?".

End MoreViews.

Module MoreEnv.
Import RefEnv.


Definition wide_doc (entries : list (string * value)) : value :=
  VDict [("version", VInt 3); ("shortcuts", VDict entries); ("owner", VStr "bob")].

Definition wide_world (entries : list (string * value)) : world :=
  mkWorld {[ store_path := wide_doc entries ]} tt "20260101-120000" [] [].

Definition no_steam_env : Collaborators := {|
  file_bytes := value;
  empty_bytes := VStr EmptyString;
  binary_load := Some;
  binary_dumps := Some;
  os_path_join := join_slash;
  path_parent := fun _ => EmptyString;
  art_state := unit;
  download_art_for := fun _ _ s => (false, s);
  download_art_existing := fun _ _ _ _ s => (false, s);
  download_art_multiple := fun _ _ s => (0%Z, s);
  get_grid_folder := fun _ p => p;
  enumerate_steam_accounts := fun _ => inl "No such file or directory";
  fs_refuses := fun _ _ => false;
|}.

Definition no_steam_world : @world no_steam_env :=
  @mkWorld no_steam_env ∅ tt "20260101-120000" [] [].

End MoreEnv.

(* ===================================================================== *)
(** ** Theorems *)
(* ===================================================================== *)

Local Close Scope string_scope.

Module PyFacts.
Import Py.

Lemma digit_not_c_space c d : digit_of_ascii c = Some d -> is_c_space c = false.
Proof.
  destruct c as [[] [] [] [] [] [] [] []]; vm_compute; congruence.
Qed.

Lemma lstrip_digits s : all_digits s = true -> lstrip_with is_c_space s = s.
Proof.
  destruct s as [|c r]; simpl; [done|].
  destruct (digit_of_ascii c) eqn:E; [|done].
  intros _. by rewrite (digit_not_c_space _ _ E).
Qed.

Lemma rstrip_digits s : all_digits s = true -> rstrip_with is_c_space s = s.
Proof.
  induction s as [|c r IH]; simpl; [done|].
  destruct (digit_of_ascii c) eqn:E; [|done].
  intros Hr. rewrite (IH Hr). destruct r; [|done].
  by rewrite (digit_not_c_space _ _ E).
Qed.

Lemma all_digits_uint d : all_digits (NilEmpty.string_of_uint d) = true.
Proof. induction d; simpl; auto. Qed.

Lemma parse_digits_acc d acc :
  parse_digits AfterDigit (Z.pos acc) (NilEmpty.string_of_uint d)
  = Some (Z.pos (Pos.of_uint_acc d acc)).
Proof.
  revert acc. induction d; intros acc; simpl; [done|..];
    rewrite <- IHd; f_equal;
    vm_compute (Z.of_nat (nat_of_ascii _)); lia.
Qed.

Lemma parse_digits_uint d st :
  st = AfterDigit \/ d <> Decimal.Nil ->
  parse_digits st 0 (NilEmpty.string_of_uint d) = Some (Z.of_N (Pos.of_uint d)).
Proof.
  revert st. induction d; intros st Hst; simpl.
  - destruct Hst as [->|?]; done.
  - apply IHd. by left.
  - apply (parse_digits_acc d 1).
  - apply (parse_digits_acc d 2).
  - apply (parse_digits_acc d 3).
  - apply (parse_digits_acc d 4).
  - apply (parse_digits_acc d 5).
  - apply (parse_digits_acc d 6).
  - apply (parse_digits_acc d 7).
  - apply (parse_digits_acc d 8).
  - apply (parse_digits_acc d 9).
Qed.

Lemma to_uint_nonnil p : Pos.to_uint p <> Decimal.Nil.
Proof.
  intros E. pose proof (DecimalPos.Unsigned.of_to p) as Hp.
  rewrite E in Hp. discriminate.
Qed.

Lemma int_uint_string d :
  d <> Decimal.Nil ->
  int (NilEmpty.string_of_uint d) = Some (Z.of_N (Pos.of_uint d)).
Proof.
  intros Hd. unfold int.
  rewrite lstrip_digits, rstrip_digits by apply all_digits_uint.
  rewrite <- (parse_digits_uint d AtStart) by (by right).
  destruct d; simpl; done.
Qed.

Lemma int_neg_uint_string d :
  d <> Decimal.Nil ->
  int (String "-" (NilEmpty.string_of_uint d)) = Some (- Z.of_N (Pos.of_uint d)).
Proof.
  intros Hd. unfold int.
  assert (lstrip_with is_c_space (String "-" (NilEmpty.string_of_uint d))
          = String "-" (NilEmpty.string_of_uint d)) as -> by done.
  assert (rstrip_with is_c_space (String "-" (NilEmpty.string_of_uint d))
          = String "-" (NilEmpty.string_of_uint d)) as ->.
  { simpl. rewrite rstrip_digits by apply all_digits_uint.
    destruct d; simpl; done. }
  by rewrite parse_digits_uint by (by right).
Qed.

(** Reading back a printed integer gives the integer. *)
Lemma int_str n : int (str n) = Some n.
Proof.
  unfold str. destruct n as [|p|p]; simpl.
  - reflexivity.
  - pose proof (to_uint_nonnil p) as Hp.
    unfold NilZero.string_of_uint.
    destruct (Pos.to_uint p) eqn:E; [done|..]; rewrite <- E;
      rewrite int_uint_string by (rewrite E; done);
      by rewrite DecimalPos.Unsigned.of_to.
  - pose proof (to_uint_nonnil p) as Hp.
    unfold NilZero.string_of_uint.
    destruct (Pos.to_uint p) eqn:E; [done|..]; rewrite <- E;
      rewrite int_neg_uint_string by (rewrite E; done);
      by rewrite DecimalPos.Unsigned.of_to.
Qed.

Lemma int_empty : int EmptyString = None.
Proof. reflexivity. Qed.

Lemma str_nonempty n : str n <> EmptyString.
Proof. intros E. pose proof (int_str n) as Hn. rewrite E in Hn. discriminate. Qed.

Lemma str_inj n m : str n = str m -> n = m.
Proof.
  intros E. pose proof (int_str n) as Hn. rewrite E, int_str in Hn. congruence.
Qed.

End PyFacts.

Import PyFacts.

Ltac case_eqb :=
  match goal with
  | |- context [String.eqb ?a ?b] => destruct (String.eqb_spec a b); subst
  | H : context [String.eqb ?a ?b] |- _ => destruct (String.eqb_spec a b); subst
  end.

Section DictFacts.
Context {V : Type}.
Implicit Types (d t : list (string * V)) (k : string) (v : V).

Lemma dict_set_fresh k v d :
  k ∉ Py.dict_keys d -> Py.dict_set k v d = d ++ [(k, v)].
Proof.
  unfold Py.dict_keys. induction d as [|[k' v'] d IH]; simpl; [done|].
  intros Hk. apply not_elem_of_cons in Hk as [Hne Hk].
  case_eqb; [done|]. by rewrite IH.
Qed.

Lemma dict_set_keys k v d :
  k ∈ Py.dict_keys d -> Py.dict_keys (Py.dict_set k v d) = Py.dict_keys d.
Proof.
  unfold Py.dict_keys. induction d as [|[k' v'] d IH]; simpl.
  - by intros ?%elem_of_nil.
  - intros Hk. case_eqb; [done|]. simpl. f_equal. apply IH.
    apply elem_of_cons in Hk as [?|?]; done.
Qed.

Lemma dict_set_app_l k v d t :
  k ∈ Py.dict_keys d -> Py.dict_set k v (d ++ t) = Py.dict_set k v d ++ t.
Proof.
  unfold Py.dict_keys. induction d as [|[k' v'] d IH]; simpl.
  - by intros ?%elem_of_nil.
  - intros Hk. case_eqb; [done|]. simpl. f_equal. apply IH.
    apply elem_of_cons in Hk as [?|?]; done.
Qed.

Lemma dict_set_lookup_ne k v d i k' v' :
  d !! i = Some (k', v') -> k <> k' -> Py.dict_set k v d !! i = Some (k', v').
Proof.
  revert i. induction d as [|[k0 v0] d IH]; intros i; simpl; [done|].
  destruct i as [|i]; simpl.
  - intros [= -> ->] Hne. case_eqb; done.
  - intros Hi Hne. case_eqb; simpl; [done|]. by apply IH.
Qed.

Lemma dict_get_set_eq k v d : Py.dict_get k (Py.dict_set k v d) = Some v.
Proof.
  induction d as [|[k0 v0] d IH]; simpl.
  - by rewrite String.eqb_refl.
  - case_eqb; simpl.
    + by rewrite String.eqb_refl.
    + destruct (String.eqb_spec k k0); [done|]. apply IH.
Qed.

Lemma dict_get_set_ne k k' v d :
  k <> k' -> Py.dict_get k' (Py.dict_set k v d) = Py.dict_get k' d.
Proof.
  intros Hne. induction d as [|[k0 v0] d IH]; simpl.
  - destruct (String.eqb_spec k' k); congruence.
  - destruct (String.eqb_spec k k0); subst; simpl.
    + destruct (String.eqb_spec k' k0); congruence.
    + destruct (String.eqb_spec k' k0); [done|]. apply IH.
Qed.

Lemma dict_get_app_l k d t v :
  Py.dict_get k d = Some v -> Py.dict_get k (d ++ t) = Some v.
Proof.
  induction d as [|[k0 v0] d IH]; simpl; [done|].
  destruct (String.eqb_spec k k0); [done|]. apply IH.
Qed.

Lemma dict_get_in k d v : Py.dict_get k d = Some v -> (k, v) ∈ d.
Proof.
  induction d as [|[k0 v0] d IH]; simpl; [done|].
  destruct (String.eqb_spec k k0); subst.
  - intros [= ->]. apply elem_of_cons. by left.
  - intros Hd. apply elem_of_cons. right. by apply IH.
Qed.

Lemma dict_get_wf k d v :
  Py.dict_wf d -> (k, v) ∈ d -> Py.dict_get k d = Some v.
Proof.
  unfold Py.dict_wf, Py.dict_keys.
  induction d as [|[k0 v0] d IH]; simpl.
  - by intros _ ?%elem_of_nil.
  - intros [Hk0 Hnd]%NoDup_cons Hin.
    apply elem_of_cons in Hin as [[= -> ->]|Hin].
    + by rewrite String.eqb_refl.
    + destruct (String.eqb_spec k k0); subst.
      * exfalso. apply Hk0. apply list_elem_of_fmap. by exists (k0, v).
      * by apply IH.
Qed.

Lemma dict_keys_app d t : Py.dict_keys (d ++ t) = Py.dict_keys d ++ Py.dict_keys t.
Proof. unfold Py.dict_keys. apply fmap_app. Qed.

Lemma elem_of_dict_keys k v d : (k, v) ∈ d -> k ∈ Py.dict_keys d.
Proof. intros Hin. apply list_elem_of_fmap. by exists (k, v). Qed.

End DictFacts.

(** ** The last index *)

Lemma fold_max_ge ns n : n <= fold_left Z.max ns n.
Proof.
  revert n. induction ns as [|m ns IH]; intros n; simpl; [lia|].
  specialize (IH (Z.max n m)). lia.
Qed.

Lemma fold_max_bound ns n m : m ∈ ns -> m <= fold_left Z.max ns n.
Proof.
  revert n. induction ns as [|m' ns IH]; intros n; simpl.
  - by intros ?%elem_of_nil.
  - intros [->|Hin]%elem_of_cons.
    + pose proof (fold_max_ge ns (Z.max n m')). lia.
    + by apply IH.
Qed.

Lemma fold_max_in ns n : fold_left Z.max ns n ∈ n :: ns.
Proof.
  revert n. induction ns as [|m ns IH]; intros n; simpl.
  - apply elem_of_cons. by left.
  - specialize (IH (Z.max n m)).
    apply elem_of_cons in IH as [E|Hin].
    + rewrite E. destruct (Z.max_spec n m) as [[_ ->]|[_ ->]].
      * apply elem_of_cons. right. apply elem_of_cons. by left.
      * apply elem_of_cons. by left.
    + apply elem_of_cons. right. apply elem_of_cons. by right.
Qed.

Lemma find_last_index_empty : find_last_index [] = Some 0.
Proof. reflexivity. Qed.

Lemma find_last_index_bound ks last k :
  find_last_index ks = Some last -> k ∈ ks ->
  exists n, Py.int k = Some n /\ n <= last.
Proof.
  unfold find_last_index. destruct ks as [|k0 ks]; [by intros _ ?%elem_of_nil|].
  destruct (mapM Py.int (k0 :: ks)) as [[|n ns]|] eqn:E; [done| |done].
  intros [= <-] Hin.
  apply mapM_Some in E.
  apply list_elem_of_lookup in Hin as [i Hi].
  destruct (Forall2_lookup_l _ _ _ _ _ E Hi) as (m & Hm & Hint).
  exists m. split; [done|].
  destruct i as [|i]; simpl in Hm.
  - injection Hm as <-. apply fold_max_ge.
  - apply fold_max_bound. apply list_elem_of_lookup. by exists i.
Qed.

Lemma find_last_index_attained ks last :
  find_last_index ks = Some last -> ks <> [] ->
  exists k, k ∈ ks /\ Py.int k = Some last.
Proof.
  unfold find_last_index. destruct ks as [|k0 ks]; [done|].
  destruct (mapM Py.int (k0 :: ks)) as [[|n ns]|] eqn:E; [done| |done].
  intros [= <-] _.
  apply mapM_Some in E.
  pose proof (fold_max_in ns n) as Hin.
  apply list_elem_of_lookup in Hin as [i Hi].
  destruct (Forall2_lookup_r _ _ _ _ _ E Hi) as (k & Hk & Hint).
  exists k. split; [|done]. apply list_elem_of_lookup. by exists i.
Qed.

Lemma find_last_index_total ks :
  Forall (fun k => is_Some (Py.int k)) ks -> is_Some (find_last_index ks).
Proof.
  intros Hall. unfold find_last_index. destruct ks as [|k0 ks]; [by eexists|].
  assert (is_Some (mapM Py.int (k0 :: ks))) as [ns Hns].
  { apply mapM_is_Some. done. }
  rewrite Hns. destruct ns as [|n ns]; [|by eexists].
  apply mapM_Some in Hns. inversion Hns.
Qed.

Lemma find_last_index_parses ks last :
  find_last_index ks = Some last -> Forall (fun k => is_Some (Py.int k)) ks.
Proof.
  intros Hl. apply Forall_forall. intros k Hk.
  destruct (find_last_index_bound _ _ _ Hl Hk) as (n & Hn & _). by exists n.
Qed.

Section IndexFacts.
Context `{Collaborators}.
Implicit Types (entries : list (string * value)) (pti : list (value * string)).

Lemma build_index_app e1 e2 pti :
  build_index (e1 ++ e2) pti = build_index e2 (build_index e1 pti).
Proof.
  revert pti. induction e1 as [|[k v] e1 IH]; intros pti; simpl; [done|].
  destruct (launch_target v); apply IH.
Qed.

(** Where an index answer comes from. *)
Lemma index_get_origin entries pti t k :
  path_to_index_get t (build_index entries pti) = Some k ->
  path_to_index_get t pti = Some k
  \/ exists v, (k, v) ∈ entries /\ launch_target v = Some (VStr t).
Proof.
  revert pti. induction entries as [|[k0 v0] entries IH]; intros pti; simpl.
  - by left.
  - destruct (launch_target v0) as [e|] eqn:E.
    + intros Hg. apply IH in Hg as [Hg|(v & Hin & Hv)].
      * simpl in Hg. destruct e as [p| | |]; try (by left).
        destruct (String.eqb_spec t p); subst; [|by left].
        injection Hg as <-. right. exists v0. split; [|done].
        apply elem_of_cons. by left.
      * right. exists v. split; [|done]. apply elem_of_cons. by right.
    + intros Hg. apply IH in Hg as [Hg|(v & Hin & Hv)]; [by left|].
      right. exists v. split; [|done]. apply elem_of_cons. by right.
Qed.

Lemma index_get_keys entries t k :
  path_to_index_get t (build_index entries []) = Some k -> k ∈ Py.dict_keys entries.
Proof.
  intros [Hg|(v & Hin & _)]%index_get_origin; [done|].
  by eapply elem_of_dict_keys.
Qed.

(** A target no entry launches is not in the index, and conversely. *)
Lemma index_get_none entries pti t :
  path_to_index_get t (build_index entries pti) = None <->
  path_to_index_get t pti = None
  /\ forall k v, (k, v) ∈ entries -> launch_target v <> Some (VStr t).
Proof.
  revert pti. induction entries as [|[k0 v0] entries IH]; intros pti; simpl.
  - split; [|by intros [? _]]. intros Hn. split; [done|].
    intros k v Hin. inversion Hin.
  - destruct (launch_target v0) as [e|] eqn:E; rewrite IH; simpl.
    + split.
      * intros [Hg Hall]. destruct e as [p| | |];
          try (split; [done|]; intros k v [[= -> ->]|Hin]%elem_of_cons;
               [congruence|by eapply Hall]).
        destruct (String.eqb_spec t p); [done|].
        split; [done|]. intros k v [[= -> ->]|Hin]%elem_of_cons;
          [congruence|by eapply Hall].
      * intros [Hg Hall]. split.
        -- destruct e as [p| | |]; try done.
           destruct (String.eqb_spec t p); subst; [|done].
           exfalso. eapply (Hall k0 v0); [apply elem_of_cons; by left|done].
        -- intros k v Hin. apply (Hall k). apply elem_of_cons. by right.
    + split.
      * intros [Hg Hall]. split; [done|].
        intros k v [[= -> ->]|Hin]%elem_of_cons; [congruence|by eapply Hall].
      * intros [Hg Hall]. split; [done|].
        intros k v Hin. apply (Hall k). apply elem_of_cons. by right.
Qed.

(** The index of an entry without a launch target is in no answer. *)
Lemma malformed_not_indexed entries k v t :
  Py.dict_wf entries -> (k, v) ∈ entries -> launch_target v = None ->
  path_to_index_get t (build_index entries []) <> Some k.
Proof.
  intros Hwf Hin Hv [Hg|(v' & Hin' & Hv')]%index_get_origin; [done|].
  pose proof (dict_get_wf _ _ _ Hwf Hin) as E1.
  pose proof (dict_get_wf _ _ _ Hwf Hin') as E2.
  congruence.
Qed.

Lemma launch_target_to_shortcut game use_uri :
  launch_target (to_shortcut game use_uri)
  = if String.eqb (launch_string game use_uri) EmptyString then None
    else Some (VStr (launch_string game use_uri)).
Proof.
  unfold to_shortcut, launch_target. cbn.
  destruct (String.eqb (launch_string game use_uri) EmptyString) eqn:E;
    cbn; rewrite ?E; reflexivity.
Qed.

Lemma launch_string_nonempty game use_uri :
  executable_path game <> EmptyString -> launch_string game use_uri <> EmptyString.
Proof.
  intros Hp. unfold launch_string. destruct (uri game) as [u|]; [|done].
  destruct use_uri; simpl; [|done].
  destruct (String.eqb_spec u EmptyString); simpl; done.
Qed.

Lemma found_index_Some i k : found_index i = Some k -> i = Some k /\ k <> EmptyString.
Proof.
  destruct i as [k'|]; simpl; [|done].
  destruct (String.eqb_spec k' EmptyString); [done|]. by intros [= <-].
Qed.

Lemma indexed_keys entries use_uri g i :
  indexed (build_index entries []) use_uri g = Some i -> i ∈ Py.dict_keys entries.
Proof.
  unfold indexed. intros [Hg _]%found_index_Some. by eapply index_get_keys.
Qed.

End IndexFacts.

Section MergeFacts.
Context `{Collaborators}.
Implicit Types (pti : list (value * string)) (games : list GameDefinition)
  (m : list (string * value)).

Lemma found_games_cons_Some pti use_uri g games i :
  indexed pti use_uri g = Some i ->
  found_games pti use_uri (g :: games) = g :: found_games pti use_uri games
  /\ unfound_games pti use_uri (g :: games) = unfound_games pti use_uri games.
Proof.
  intros Hi. unfold found_games, unfound_games.
  rewrite filter_cons_True by congruence.
  rewrite filter_cons_False by congruence. done.
Qed.

Lemma found_games_cons_None pti use_uri g games :
  indexed pti use_uri g = None ->
  found_games pti use_uri (g :: games) = found_games pti use_uri games
  /\ unfound_games pti use_uri (g :: games) = g :: unfound_games pti use_uri games.
Proof.
  intros Hi. unfold found_games, unfound_games.
  rewrite filter_cons_False by congruence.
  rewrite filter_cons_True by congruence. done.
Qed.

Lemma replace_all_keys pti use_uri games m :
  (forall g i, g ∈ games -> indexed pti use_uri g = Some i -> i ∈ Py.dict_keys m) ->
  Py.dict_keys (replace_all pti use_uri games m) = Py.dict_keys m.
Proof.
  revert m. induction games as [|g games IH]; intros m Hidx; simpl; [done|].
  destruct (indexed pti use_uri g) as [i|] eqn:E.
  - assert (i ∈ Py.dict_keys m) as Hi by (eapply Hidx; [apply elem_of_cons; by left|done]).
    rewrite IH; [by apply dict_set_keys|].
    intros g' i' Hg' Hi'. rewrite dict_set_keys by done.
    eapply Hidx; [apply elem_of_cons; by right|done].
  - apply IH. intros g' i' Hg' Hi'.
    eapply Hidx; [apply elem_of_cons; by right|done].
Qed.

Lemma replace_all_app pti use_uri games m t :
  (forall g i, g ∈ games -> indexed pti use_uri g = Some i -> i ∈ Py.dict_keys m) ->
  replace_all pti use_uri games (m ++ t) = replace_all pti use_uri games m ++ t.
Proof.
  revert m. induction games as [|g games IH]; intros m Hidx; simpl; [done|].
  destruct (indexed pti use_uri g) as [i|] eqn:E.
  - assert (i ∈ Py.dict_keys m) as Hi by (eapply Hidx; [apply elem_of_cons; by left|done]).
    rewrite dict_set_app_l by done. apply IH.
    intros g' i' Hg' Hi'. rewrite dict_set_keys by done.
    eapply Hidx; [apply elem_of_cons; by right|done].
  - apply IH. intros g' i' Hg' Hi'.
    eapply Hidx; [apply elem_of_cons; by right|done].
Qed.

Lemma fresh_index_new m last :
  (forall k, k ∈ Py.dict_keys m -> exists n, Py.int k = Some n /\ n <= last) ->
  Py.str (last + 1) ∉ Py.dict_keys m.
Proof.
  intros Hb Hin. destruct (Hb _ Hin) as (n & Hn & Hle).
  rewrite int_str in Hn. injection Hn as <-. lia.
Qed.

(** The shape of what the merge loop leaves behind. *)
Lemma merge_pure_shape use_uri repl pti games st :
  (forall k, k ∈ Py.dict_keys (shortcuts_map st) ->
             exists n, Py.int k = Some n /\ n <= last_index st) ->
  (forall g i, g ∈ games -> indexed pti use_uri g = Some i ->
               i ∈ Py.dict_keys (shortcuts_map st)) ->
  merge_pure use_uri repl pti games st =
  mkMerge
    ((if repl then replace_all pti use_uri games (shortcuts_map st)
      else shortcuts_map st)
     ++ fresh_entries use_uri (last_index st) (unfound_games pti use_uri games))
    (last_index st + Z.of_nat (length (unfound_games pti use_uri games)))
    (added st + Z.of_nat (length (unfound_games pti use_uri games))
     + (if repl then Z.of_nat (length (found_games pti use_uri games)) else 0))
    (game_results st
     ++ (if repl then [] else skip_message <$> found_games pti use_uri games)).
Proof.
  revert st. induction games as [|g games IH]; intros [m last a res] Hb Hidx; simpl in *.
  - destruct repl; f_equal; rewrite ?app_nil_r; (lia || done).
  - assert (forall g' i, g' ∈ games -> indexed pti use_uri g' = Some i ->
                         i ∈ Py.dict_keys m) as Hidx'.
    { intros g' i Hg' Hi. eapply Hidx; [apply elem_of_cons; by right|done]. }
    destruct (indexed pti use_uri g) as [i|] eqn:E.
    + destruct (found_games_cons_Some _ _ _ games _ E) as [-> ->].
      assert (i ∈ Py.dict_keys m) as Hi
          by (eapply Hidx; [apply elem_of_cons; by left|done]).
      destruct repl.
      * rewrite IH; simpl.
        -- f_equal. rewrite ?length_cons. lia.
        -- intros k. rewrite dict_set_keys by done. apply Hb.
        -- intros g' i'. rewrite dict_set_keys by done. apply Hidx'.
      * rewrite IH by done. simpl. f_equal.
        by rewrite <- app_assoc.
    + destruct (found_games_cons_None _ _ _ games E) as [-> ->].
      pose proof (fresh_index_new m last Hb) as Hnew.
      rewrite dict_set_fresh by done.
      rewrite IH; simpl.
      * f_equal; rewrite ?length_cons; try lia.
        destruct repl.
        -- rewrite replace_all_app by done. by rewrite <- app_assoc.
        -- by rewrite <- app_assoc.
      * intros k. rewrite dict_keys_app. intros [Hk|Hk]%elem_of_app.
        -- destruct (Hb _ Hk) as (n & Hn & Hle). exists n. split; [done|lia].
        -- apply list_elem_of_singleton in Hk as ->. exists (last + 1).
           split; [apply int_str|lia].
      * intros g' i Hg' Hi. rewrite dict_keys_app. apply elem_of_app. left.
        by eapply Hidx'.
Qed.

Lemma fresh_entries_keys use_uri last gs :
  Py.dict_keys (fresh_entries use_uri last gs)
  = (fun j => Py.str (last + 1 + Z.of_nat j)) <$> seq 0 (length gs).
Proof.
  unfold Py.dict_keys.
  revert last. induction gs as [|g gs IH]; intros last; [done|].
  cbn [fresh_entries length seq]. rewrite !fmap_cons. cbn [fst].
  f_equal.
  - f_equal. lia.
  - rewrite IH, <- fmap_S_seq, <- list_fmap_compose. apply list_fmap_ext.
    intros _ j _. simpl. f_equal. lia.
Qed.

Lemma fresh_entries_length use_uri last gs :
  length (fresh_entries use_uri last gs) = length gs.
Proof. revert last. induction gs; intros; simpl; auto. Qed.

(** The merge loop returns what [merge_pure] computes and prints the
    skip messages, nothing else. *)
Lemma merge_games_pure use_uri repl pti games st w :
  exists evs,
    merge_games use_uri repl pti games st w
    = (Ret (merge_pure use_uri repl pti games st), log evs w)
    /\ forallb console_event evs = true
    /\ evs = (if repl then []
              else Printed <$> (skip_message <$> found_games pti use_uri games)).
Proof.
  revert st w. induction games as [|g games IH]; intros st w; simpl.
  - exists []. unfold ret, log. rewrite app_nil_r. destruct w; simpl.
    by destruct repl.
  - unfold indexed.
    destruct (found_index (path_to_index_get (launch_string g use_uri) pti))
      as [i|] eqn:E.
    + destruct (found_games_cons_Some pti use_uri g games i E) as [-> _].
      destruct repl.
      * apply IH.
      * unfold bind, print, emit.
        destruct (IH (mkMerge (shortcuts_map st) (last_index st) (added st)
                        (game_results st ++ [skip_message g]))
                     (log [Printed (skip_message g)] w)) as (evs & -> & Hc & ->).
        eexists. split; [|split; [|reflexivity]].
        -- unfold log. simpl. by rewrite <- app_assoc.
        -- simpl. done.
    + destruct (found_games_cons_None pti use_uri g games E) as [-> _].
      apply IH.
Qed.

End MergeFacts.

Section RunFacts.
Context `{Collaborators}.

Lemma quiet_refl w : quiet [] w w.
Proof. unfold quiet. by rewrite app_nil_r. Qed.

Lemma quiet_trans e1 e2 w w1 w2 :
  quiet e1 w w1 -> quiet e2 w1 w2 -> quiet (e1 ++ e2) w w2.
Proof.
  intros (F1 & I1 & C1 & T1 & A1) (F2 & I2 & C2 & T2 & A2).
  unfold quiet. rewrite F2, I2, C2, T2, T1, forallb_app, A1, A2.
  by rewrite app_assoc.
Qed.

Lemma quiet_log evs w : forallb console_event evs = true -> quiet evs w (log evs w).
Proof. intros Hc. by unfold quiet, log. Qed.

Lemma quiet_elem e e1 w w1 : quiet e1 w w1 -> e ∈ e1 -> e ∈ drop (length (trace w)) (trace w1).
Proof.
  intros (_ & _ & _ & -> & _) Hin. by rewrite drop_app_length.
Qed.

Lemma bind_Ret {A B} (m : M A) (k : A -> M B) w a w1 :
  m w = (Ret a, w1) -> bind m k w = k a w1.
Proof. intros E. unfold bind. by rewrite E. Qed.

Lemma bind_Raise {A B} (m : M A) (k : A -> M B) w e w1 :
  m w = (Raise e, w1) -> bind m k w = (Raise e, w1).
Proof. intros E. unfold bind. by rewrite E. Qed.

Lemma print_run s w : print s w = (Ret tt, log [Printed s] w).
Proof. reflexivity. Qed.

Lemma log_log e1 e2 w : log e2 (log e1 w) = log (e1 ++ e2) w.
Proof. unfold log. simpl. by rewrite app_assoc. Qed.

Lemma print_notice_run use_uri w :
  exists evs, print_notice use_uri w = (Ret tt, log evs w)
              /\ forallb console_event evs = true.
Proof.
  destruct use_uri; simpl; unfold bind; rewrite !print_run, !log_log;
    eexists; split; try reflexivity; reflexivity.
Qed.

Lemma index_existing_cons_dict user games dl k d entries pti n w :
  index_existing user games dl ((k, VDict d) :: entries) pti n w =
  match launch_target (VDict d) with
  | Some e =>
      if hashable e then
        (n' <- (if dl && negb (in_supported_games e games) then
                  match e with
                  | VStr p =>
                      success <- with_art (download_art_existing user p
                                             (Py.dict_get "appname" d)
                                             (path_parent p)) ;;
                      ret (if success : bool then n + 1 else n)
                  | _ => raise Py.TypeError
                  end
                else ret n) ;;
         index_existing user games dl entries ((e, k) :: pti) n') w
      else (Raise Py.TypeError, w)
  | None =>
      (print malformed_warning ;;;
       emit (PrintedRepr (VDict d)) ;;;
       index_existing user games dl entries pti n) w
  end.
Proof.
  cbn [index_existing launch_target entry_get].
  unfold bind at 1. unfold ret at 1.
  destruct (truthy_opt (Py.dict_get "Exe" d)) eqn:E0.
  - unfold bind at 1. unfold ret at 1. rewrite E0.
    destruct (Py.dict_get "Exe" d) as [e|]; [|done].
    cbn [truthy_opt] in E0. rewrite E0.
    destruct (hashable e); [|done]. reflexivity.
  - unfold bind at 1. unfold ret at 1.
    destruct (Py.dict_get "exe" d) as [e|]; cbn [truthy_opt]; [|done].
    destruct (truthy e); [|done].
    destruct (hashable e); [|done]. reflexivity.
Qed.

(** The indexing loop: it leaves the disk alone; it returns exactly on
    the entries [index_ok] accepts, with the index [build_index] computes
    and a warning for each entry without a launch target. *)
Lemma index_existing_run user games dl entries pti n w :
  match index_existing user games dl entries pti n w with
  | (Ret (pti', _), w') =>
      index_ok games dl entries = true /\ pti' = build_index entries pti
      /\ exists evs, quiet evs w w'
           /\ forall k v, (k, v) ∈ entries -> launch_target v = None ->
                          Printed malformed_warning ∈ evs /\ PrintedRepr v ∈ evs
  | (Raise _, w') =>
      index_ok games dl entries = false /\ exists evs, quiet evs w w'
  | (Spin, _) => False
  end.
Proof.
  revert pti n w. induction entries as [|[k v] entries IH]; intros pti n w.
  - simpl. split; [done|]. split; [done|]. exists []. split; [apply quiet_refl|].
    intros k v Hin. inversion Hin.
  - destruct v as [s|z|b|d];
      try (simpl; split; [done|]; exists []; apply quiet_refl).
    rewrite index_existing_cons_dict. cbn [index_ok build_index].
    destruct (launch_target (VDict d)) as [e|] eqn:El.
    + destruct (hashable e) eqn:Eh; cbn [andb].
      2:{ split; [done|]. exists []. apply quiet_refl. }
      assert (forall n1 w1 evs1,
        quiet evs1 w w1 ->
        match index_existing user games dl entries ((e, k) :: pti) n1 w1 with
        | (Ret (pti', _), w') =>
            index_ok games dl entries = true
            /\ pti' = build_index entries ((e, k) :: pti)
            /\ exists evs, quiet evs w w'
                 /\ forall k0 v, (k0, v) ∈ (k, VDict d) :: entries ->
                      launch_target v = None ->
                      Printed malformed_warning ∈ evs /\ PrintedRepr v ∈ evs
        | (Raise _, w') =>
            index_ok games dl entries = false /\ exists evs, quiet evs w w'
        | (Spin, _) => False
        end) as Hnext.
      { intros n1 w1 evs1 Hq1. specialize (IH ((e, k) :: pti) n1 w1).
        destruct (index_existing user games dl entries ((e, k) :: pti) n1 w1)
          as [[[pti' n']|e'|] w']; [| |done].
        - destruct IH as (Hok & -> & evs & Hq & Hw). split; [done|]. split; [done|].
          exists (evs1 ++ evs). split; [by eapply quiet_trans|].
          intros k0 v0 [[= -> ->]|Hin]%elem_of_cons Hv0; [congruence|].
          destruct (Hw _ _ Hin Hv0). split; apply elem_of_app; by right.
        - destruct IH as (Hok & evs & Hq). split; [done|].
          exists (evs1 ++ evs). by eapply quiet_trans. }
      destruct (dl && negb (in_supported_games e games)) eqn:Edl; cbn [negb orb].
      * destruct e as [p0|z|b|d0]; cbn [is_str andb];
          try (unfold bind, raise; split; [done|]; exists []; apply quiet_refl).
        unfold bind at 1. unfold bind at 1. unfold with_art.
        destruct (download_art_existing user p0 (Py.dict_get "appname" d)
                    (path_parent p0) (art w)) as [success s'].
        unfold ret at 1.
        specialize (Hnext (if success then n + 1 else n)
                      (mkWorld (files w) s' (clock w) (stdin w) (trace w)) []).
        destruct (index_existing _ _ _ _ _ _ _) as [[[pti' n']|e'|] w'].
        -- destruct Hnext as (-> & -> & Hrest); [|done].
           unfold quiet. simpl. by rewrite app_nil_r.
        -- destruct Hnext as (-> & Hrest); [|done].
           unfold quiet. simpl. by rewrite app_nil_r.
        -- apply Hnext. unfold quiet. simpl. by rewrite app_nil_r.
      * unfold bind at 1. unfold ret at 1.
        specialize (Hnext n w [] (quiet_refl w)).
        destruct (index_existing _ _ _ _ _ _ _) as [[[pti' n']|e'|] w']; [| |done].
        -- by destruct Hnext as (-> & -> & Hrest).
        -- by destruct Hnext as (-> & Hrest).
    + unfold bind, print, emit. rewrite log_log.
      specialize (IH pti n (log [Printed malformed_warning; PrintedRepr (VDict d)] w)).
      destruct (index_existing _ _ _ _ _ _ _) as [[[pti' n']|e'|] w']; [| |done].
      * destruct IH as (-> & -> & evs & Hq & Hw). split; [done|]. split; [done|].
        exists ([Printed malformed_warning; PrintedRepr (VDict d)] ++ evs).
        split; [eapply quiet_trans; [by apply quiet_log|done]|].
        intros k0 v0 [[= -> ->]|Hin]%elem_of_cons Hv0.
        -- split; apply elem_of_app; left.
           ++ apply elem_of_cons. by left.
           ++ apply elem_of_cons. right. apply elem_of_cons. by left.
        -- destruct (Hw _ _ Hin Hv0). split; apply elem_of_app; by right.
      * destruct IH as (-> & evs & Hq). split; [done|].
        exists ([Printed malformed_warning; PrintedRepr (VDict d)] ++ evs).
        eapply quiet_trans; [by apply quiet_log|done].
Qed.

Lemma os_remove_run p w :
  (exists e, os_remove p w = (Raise e, w))
  \/ (is_Some (files w !! p)
      /\ os_remove p w = (Ret tt, log [FsRemove p] (set_files (delete p (files w)) w))).
Proof.
  unfold os_remove. destruct (fs_refuses (OpRemove p) (files w)); [left; by eexists|].
  destruct (files w !! p) eqn:E; [right; by eauto|left; by eexists].
Qed.

Lemma os_rename_run p q w :
  (exists e, os_rename p q w = (Raise e, w))
  \/ (exists b, files w !! p = Some b
      /\ os_rename p q w
         = (Ret tt, log [FsRename p q]
                      (set_files (<[q := b]> (delete p (files w))) w))).
Proof.
  unfold os_rename. destruct (fs_refuses (OpRename p q) (files w)); [left; by eexists|].
  destruct (files w !! p) eqn:E; [right; by eauto|left; by eexists].
Qed.

(** The three ways of [write_file]. *)
Lemma write_file_run p b w :
  write_file p b w
  = if fs_refuses (OpCreate p) (files w) then (Raise Py.OSError, w)
    else if fs_refuses (OpWrite p) (<[p := empty_bytes]> (files w))
         then (Raise Py.OSError,
               log [FsCreate p] (set_files (<[p := empty_bytes]> (files w)) w))
         else (Ret tt,
               log [FsCreate p; FsWrite p b] (set_files (<[p := b]> (files w)) w)).
Proof.
  unfold write_file. destruct (fs_refuses (OpCreate p) (files w)); [done|].
  cbv zeta. cbn [files log set_files].
  destruct (fs_refuses (OpWrite p) _); [done|].
  unfold log, set_files. cbn. by rewrite insert_insert_eq, <- app_assoc.
Qed.

(** A commit that returns has written the encoded document to the path. *)
Lemma commit_Ret p skip doc w w' :
  commit p skip doc w = (Ret tt, w') ->
  exists b, binary_dumps doc = Some b /\ files w' !! p = Some b
            /\ FsWrite p b ∈ drop (length (trace w)) (trace w').
Proof.
  unfold commit.
  assert (forall w0, length (trace w) <= length (trace w0) ->
    (new_bytes <- or_raise Py.CodecError (binary_dumps doc);;
     write_file p new_bytes;;;
     print "Updated `shortcuts.vdf` successfully!";;;
     print EmptyString;;; print "➡   Restart Steam!") w0 = (Ret tt, w') ->
    exists b, binary_dumps doc = Some b /\ files w' !! p = Some b
              /\ FsWrite p b ∈ drop (length (trace w)) (trace w'))%nat as Htail.
  { intros w0 Hlen. unfold bind at 1.
    destruct (binary_dumps doc) as [b|]; simpl; [|done].
    unfold bind at 1. rewrite write_file_run.
    destruct (fs_refuses (OpCreate p) (files w0)); [done|].
    destruct (fs_refuses (OpWrite p) _); [done|].
    unfold bind, print, emit. intros [= <-]. exists b. split; [done|].
    split; [simpl; apply lookup_insert_eq|].
    simpl. rewrite <- !app_assoc. rewrite drop_app_le by done.
    apply elem_of_app. right. apply elem_of_cons. right.
    apply elem_of_cons. by left. }
  destruct skip.
  - unfold bind at 1. unfold bind at 1. rewrite print_run.
    match goal with
    | |- context [os_remove ?a ?c] =>
        destruct (os_remove_run a c) as [[e ->]|[_ ->]]; [done|]
    end.
    apply Htail. simpl. rewrite !length_app. lia.
  - unfold bind at 1. unfold bind at 1. unfold strftime at 1.
    unfold bind at 1. rewrite print_run.
    match goal with
    | |- context [os_rename ?a ?b ?c] =>
        destruct (os_rename_run a b c) as [[e ->]|(b0 & _ & ->)]; [done|]
    end.
    apply Htail. simpl. rewrite !length_app. lia.
Qed.

Lemma commit_not_Spin p skip doc w w' : commit p skip doc w <> (Spin, w').
Proof.
  unfold commit.
  assert (forall w0,
    (new_bytes <- or_raise Py.CodecError (binary_dumps doc);;
     write_file p new_bytes;;;
     print "Updated `shortcuts.vdf` successfully!";;;
     print EmptyString;;; print "➡   Restart Steam!") w0 <> (Spin, w')) as Htail.
  { intros w0. unfold bind at 1.
    destruct (binary_dumps doc) as [b|]; simpl; [|done].
    unfold bind at 1. rewrite write_file_run.
    destruct (fs_refuses (OpCreate p) (files w0)); [done|].
    destruct (fs_refuses (OpWrite p) _); done. }
  destruct skip.
  - unfold bind at 1. unfold bind at 1. rewrite print_run.
    match goal with
    | |- context [os_remove ?a ?c] =>
        destruct (os_remove_run a c) as [[e ->]|[_ ->]]; [done|]
    end.
    apply Htail.
  - unfold bind at 1. unfold bind at 1. unfold strftime at 1.
    unfold bind at 1. rewrite print_run.
    match goal with
    | |- context [os_rename ?a ?b ?c] =>
        destruct (os_rename_run a b c) as [[e ->]|(b0 & _ & ->)]; [done|]
    end.
    apply Htail.
Qed.

End RunFacts.

Section AddGamesFacts.
Context `{Collaborators}.

Lemma shortcuts_of_Some doc entries :
  shortcuts_of doc = Some entries ->
  exists top, doc = VDict top /\ Py.dict_get "shortcuts" top = Some (VDict entries).
Proof.
  destruct doc as [| | |top]; simpl; try done.
  destruct (Py.dict_get "shortcuts" top) as [[| | |e]|] eqn:E; try done.
  intros [= ->]. by exists top.
Qed.

(** The three ways a run of [add_games_to_shortcut_file] can go. *)
Lemma add_games_cases steamdb user games skip use_uri repl dl w :
  let p := shortcut_file_path_of steamdb user in
  let run := add_games_to_shortcut_file steamdb user games skip use_uri repl dl w in
  (files w !! p = None
   /\ exists evs, run = (Ret (None, Some (not_found_message p)), log evs w)
                  /\ forallb console_event evs = true)
  \/ (exists e evs w1,
        run = (Raise e, w1) /\ quiet evs w w1
        /\ files w !! p <> None
        /\ forall doc entries last, ~ loaded steamdb user games dl w doc entries last)
  \/ (exists doc entries last evs w1,
        loaded steamdb user games dl w doc entries last
        /\ quiet evs w w1
        /\ (forall k v, (k, v) ∈ entries -> launch_target v = None ->
              Printed malformed_warning ∈ evs /\ PrintedRepr v ∈ evs)
        /\ (forall g, repl = false ->
              g ∈ found_games (build_index entries []) use_uri games ->
              Printed (skip_message g) ∈ evs)
        /\ let st := merge_pure use_uri repl (build_index entries []) games
                       (mkMerge entries last 0 []) in
           run = if (added st =? 0)%Z
                 then (Ret (None, Some nothing_new_message),
                       log [Printed nothing_new_message] w1)
                 else (commit p skip (with_shortcuts doc (shortcuts_map st)) ;;;
                       ret (Some (game_results st, added st), None)) w1).
Proof.
  intros p run.
  assert (add_games_to_shortcut_file steamdb user games skip use_uri repl dl w = run)
    as Hr by reflexivity.
  clearbody run. unfold add_games_to_shortcut_file in Hr. fold p in Hr.
  destruct (print_notice_run use_uri w) as (ev0 & E0 & C0).
  rewrite (bind_Ret _ _ _ _ _ E0) in Hr.
  unfold bind at 1 in Hr. unfold path_exists at 1 in Hr.
  change (files (log ev0 w)) with (files w) in Hr.
  destruct (files w !! p) as [raw|] eqn:Ef.
  2:{ left. split; [done|]. rewrite bool_decide_false in Hr by (by intros [? ?]).
      cbn [negb] in Hr. unfold bind, print, emit in Hr. rewrite log_log in Hr.
      eexists. split; [by rewrite <- Hr|].
      rewrite forallb_app, C0. done. }
  rewrite bool_decide_true in Hr by (by eexists). cbn [negb] in Hr.
  right.
  assert (forall doc, read_document steamdb user w = Some doc -> binary_load raw = Some doc)
    as Hdoc.
  { intros doc Hd. unfold read_document in Hd. fold p in Hd. by rewrite Ef in Hd. }
  unfold bind at 1 in Hr. unfold read_file at 1 in Hr.
  change (files (log ev0 w)) with (files w) in Hr. rewrite Ef in Hr.
  unfold bind at 1 in Hr.
  destruct (binary_load raw) as [doc|] eqn:Eload; cbn [or_raise] in Hr.
  2:{ left. exists Py.CodecError, ev0, (log ev0 w). split; [by rewrite <- Hr|].
      split; [by apply quiet_log|]. split; [congruence|].
      intros doc entries last (Hd & _). apply Hdoc in Hd. congruence. }
  unfold ret at 1 in Hr.
  set (ev1 := if dl then [Printed "Downloading art for existing shortcuts..."] else []).
  assert ((if dl then print "Downloading art for existing shortcuts..." else ret ())
            (log ev0 w) = (Ret tt, log (ev0 ++ ev1) w)) as Edl.
  { unfold ev1. destruct dl; [by rewrite print_run, log_log|].
    unfold ret. by rewrite app_nil_r. }
  rewrite (bind_Ret _ _ _ _ _ Edl) in Hr.
  assert (forallb console_event (ev0 ++ ev1) = true) as C1.
  { rewrite forallb_app, C0. unfold ev1. by destruct dl. }
  destruct (shortcuts_of doc) as [entries|] eqn:Esh.
  2:{ left.
      assert (exists e, run = (Raise e, log (ev0 ++ ev1) w)) as [e ->].
      { rewrite <- Hr. unfold bind at 1. destruct doc as [| | |top]; try (by eexists).
        simpl in Esh. simpl.
        destruct (Py.dict_get "shortcuts" top) as [inner|]; simpl; [|by eexists].
        unfold bind at 1. destruct inner; try discriminate; by eexists. }
      exists e, (ev0 ++ ev1), (log (ev0 ++ ev1) w). split; [done|].
      split; [by apply quiet_log|]. split; [congruence|].
      intros doc' entries last (Hd & Hs & _). apply Hdoc in Hd. congruence. }
  destruct (shortcuts_of_Some _ _ Esh) as (top & -> & Etop).
  unfold bind at 1 in Hr. cbn [getitem] in Hr. rewrite Etop in Hr.
  cbn [or_raise] in Hr. unfold ret at 1 in Hr.
  unfold bind at 1 in Hr. cbn [items] in Hr. unfold ret at 1 in Hr.
  unfold bind at 1 in Hr.
  pose proof (index_existing_run user games dl entries [] 0 (log (ev0 ++ ev1) w)) as Hidx.
  destruct (index_existing user games dl entries [] 0 (log (ev0 ++ ev1) w))
    as [[[pti nart]|e|] w2]; [| |done].
  2:{ left. destruct Hidx as (Hok & evs & Hq).
      exists e, ((ev0 ++ ev1) ++ evs), w2. split; [done|].
      split; [eapply quiet_trans; [by apply quiet_log|done]|]. split; [congruence|].
      intros doc' entries' last (Hd & Hs & Hok' & _). apply Hdoc in Hd.
      injection Hd as <-. rewrite Esh in Hs.
      injection Hs as <-. congruence. }
  destruct Hidx as (Hok & -> & ev2 & Hq2 & Hwarn).
  set (ev3 := if dl then [Printed ("Downloaded new art for " ++ Py.str nart ++ " games.");
                          Printed EmptyString] else []).
  assert ((if dl
           then print ("Downloaded new art for " ++ Py.str nart ++ " games.");;;
                print EmptyString
           else ret ()) w2 = (Ret tt, log ev3 w2)) as Edl2.
  { unfold ev3. destruct dl.
    - unfold bind. by rewrite !print_run, log_log.
    - unfold ret, log. rewrite app_nil_r. by destruct w2. }
  rewrite (bind_Ret _ _ _ _ _ Edl2) in Hr.
  assert (quiet (((ev0 ++ ev1) ++ ev2) ++ ev3) w (log ev3 w2)) as Hq3.
  { eapply quiet_trans; [eapply quiet_trans; [by apply quiet_log|done]|].
    apply quiet_log. unfold ev3. by destruct dl. }
  unfold bind at 1 in Hr.
  destruct (find_last_index (Py.dict_keys entries)) as [last|] eqn:Elast;
    cbn [or_raise] in Hr.
  2:{ left. exists Py.ValueError, (((ev0 ++ ev1) ++ ev2) ++ ev3), (log ev3 w2).
      split; [by rewrite <- Hr|]. split; [done|]. split; [congruence|].
      intros doc' entries' last (Hd & Hs & _ & Hl). apply Hdoc in Hd.
      injection Hd as <-. rewrite Esh in Hs.
      injection Hs as <-. congruence. }
  unfold ret at 1 in Hr. right.
  destruct (merge_games_pure use_uri repl (build_index entries []) games
              (mkMerge entries last 0 []) (log ev3 w2)) as (ev4 & Em & C4 & Eev4).
  rewrite (bind_Ret _ _ _ _ _ Em) in Hr.
  set (st := merge_pure use_uri repl (build_index entries []) games
               (mkMerge entries last 0 [])) in *.
  unfold bind at 1 in Hr. rewrite print_run, log_log in Hr.
  set (ev5 := ev4 ++ [Printed ("Added " ++ Py.str (added st) ++ " new games")]) in *.
  assert (forallb console_event ev5 = true) as C5.
  { unfold ev5. by rewrite forallb_app, C4. }
  exists (VDict top), entries, last, ((((ev0 ++ ev1) ++ ev2) ++ ev3) ++ ev5),
         (log ev5 (log ev3 w2)).
  split; [|split; [|split; [|split]]].
  - unfold loaded, read_document. fold p. rewrite Ef. simpl. done.
  - eapply quiet_trans; [exact Hq3|]. by apply quiet_log.
  - intros k v Hin Hv. destruct (Hwarn _ _ Hin Hv) as [H1 H2].
    split; apply elem_of_app; left; apply elem_of_app; left; apply elem_of_app;
      by right.
  - intros g -> Hg. apply elem_of_app. right. unfold ev5. apply elem_of_app. left.
    rewrite Eev4. apply list_elem_of_fmap. exists (skip_message g). split; [done|].
    apply list_elem_of_fmap. by exists g.
  - cbv zeta. fold st. rewrite <- Hr. destruct (added st =? 0)%Z eqn:Ez.
    + unfold bind. by rewrite print_run.
    + done.
Qed.

End AddGamesFacts.

Section MergeClaims.
Context `{Collaborators}.

Lemma loaded_functional steamdb user games dl w doc entries last doc' entries' last' :
  loaded steamdb user games dl w doc entries last ->
  loaded steamdb user games dl w doc' entries' last' ->
  doc' = doc /\ entries' = entries /\ last' = last.
Proof.
  intros (Hd & Hs & _ & Hl) (Hd' & Hs' & _ & Hl').
  rewrite Hd in Hd'. injection Hd' as <-.
  rewrite Hs in Hs'. injection Hs' as <-.
  rewrite Hl in Hl'. by injection Hl' as <-.
Qed.

Lemma loaded_files steamdb user games dl w w' doc entries last :
  files w' = files w ->
  loaded steamdb user games dl w doc entries last ->
  loaded steamdb user games dl w' doc entries last.
Proof. unfold loaded, read_document. by intros ->. Qed.

Lemma loaded_present steamdb user games dl w doc entries last :
  loaded steamdb user games dl w doc entries last ->
  files w !! shortcut_file_path_of steamdb user <> None.
Proof.
  intros (Hd & _). unfold read_document in Hd.
  by destruct (files w !! shortcut_file_path_of steamdb user).
Qed.

Lemma shortcuts_of_with_shortcuts doc entries m :
  shortcuts_of doc = Some entries -> shortcuts_of (with_shortcuts doc m) = Some m.
Proof.
  intros (top & -> & _)%shortcuts_of_Some. simpl. by rewrite dict_get_set_eq.
Qed.

Lemma quiet_new_events evs w w' : quiet evs w w' -> new_events w w' = evs.
Proof.
  intros (_ & _ & _ & E & _). unfold new_events. by rewrite E, drop_app_length.
Qed.

(** What a run that reaches the merge loop does. *)
Lemma add_games_loaded steamdb user games skip use_uri repl dl w doc entries last :
  loaded steamdb user games dl w doc entries last ->
  let p := shortcut_file_path_of steamdb user in
  let st := merge_pure use_uri repl (build_index entries []) games
              (mkMerge entries last 0 []) in
  exists evs w1,
    quiet evs w w1
    /\ (forall k v, (k, v) ∈ entries -> launch_target v = None ->
          Printed malformed_warning ∈ evs /\ PrintedRepr v ∈ evs)
    /\ (forall g, repl = false ->
          g ∈ found_games (build_index entries []) use_uri games ->
          Printed (skip_message g) ∈ evs)
    /\ add_games_to_shortcut_file steamdb user games skip use_uri repl dl w
       = if (added st =? 0)%Z
         then (Ret (None, Some nothing_new_message),
               log [Printed nothing_new_message] w1)
         else (commit p skip (with_shortcuts doc (shortcuts_map st)) ;;;
               ret (Some (game_results st, added st), None)) w1.
Proof.
  intros Hl p st.
  destruct (add_games_cases steamdb user games skip use_uri repl dl w)
    as [(Hf & _)|[(e & evs & w1 & _ & _ & _ & Hn)|
                  (doc' & entries' & last' & evs & w1 & Hl' & Hq & Hw & Hs & Hrun)]].
  - by apply loaded_present in Hl.
  - by apply Hn in Hl.
  - destruct (loaded_functional _ _ _ _ _ _ _ _ _ _ _ Hl Hl') as (-> & -> & ->).
    by exists evs, w1.
Qed.

(** What a run that returned has done. *)
Lemma add_games_Ret steamdb user games skip use_uri repl dl w r w' :
  add_games_to_shortcut_file steamdb user games skip use_uri repl dl w = (Ret r, w') ->
  let p := shortcut_file_path_of steamdb user in
  (files w !! p = None /\ r = (None, Some (not_found_message p))
   /\ exists evs, quiet evs w w')
  \/ exists doc entries last evs w1,
       loaded steamdb user games dl w doc entries last
       /\ quiet evs w w1
       /\ (forall k v, (k, v) ∈ entries -> launch_target v = None ->
             Printed malformed_warning ∈ evs /\ PrintedRepr v ∈ evs)
       /\ (forall g, repl = false ->
             g ∈ found_games (build_index entries []) use_uri games ->
             Printed (skip_message g) ∈ evs)
       /\ let st := merge_pure use_uri repl (build_index entries []) games
                      (mkMerge entries last 0 []) in
          (added st = 0 /\ r = (None, Some nothing_new_message)
           /\ w' = log [Printed nothing_new_message] w1)
          \/ (added st <> 0 /\ r = (Some (game_results st, added st), None)
              /\ commit p skip (with_shortcuts doc (shortcuts_map st)) w1 = (Ret tt, w')).
Proof.
  intros Hrun p.
  destruct (add_games_cases steamdb user games skip use_uri repl dl w)
    as [(Hf & evs & Hr & Hc)|[(e & evs & w1 & Hr & _)|
                  (doc & entries & last & evs & w1 & Hl & Hq & Hw & Hs & Hr)]].
  - left. rewrite Hr in Hrun. injection Hrun as <- <-. split; [done|]. split; [done|].
    exists evs. by apply quiet_log.
  - rewrite Hr in Hrun. discriminate.
  - right. exists doc, entries, last, evs, w1. do 4 (split; [done|]).
    cbv zeta in Hr |- *. rewrite Hr in Hrun.
    destruct (added _ =? 0)%Z eqn:Ez.
    + left. apply Z.eqb_eq in Ez. by injection Hrun as <- <-.
    + right. apply Z.eqb_neq in Ez. split; [done|].
      unfold bind in Hrun.
      destruct (commit _ _ _ _) as [[[]|e|] w2]; [|done|done].
      unfold ret in Hrun. by injection Hrun as <- <-.
Qed.

Lemma loaded_shape steamdb user games dl w doc entries last use_uri repl :
  loaded steamdb user games dl w doc entries last ->
  let pti := build_index entries [] in
  merge_pure use_uri repl pti games (mkMerge entries last 0 []) =
  mkMerge
    ((if repl then replace_all pti use_uri games entries else entries)
     ++ fresh_entries use_uri last (unfound_games pti use_uri games))
    (last + Z.of_nat (length (unfound_games pti use_uri games)))
    (0 + Z.of_nat (length (unfound_games pti use_uri games))
     + (if repl then Z.of_nat (length (found_games pti use_uri games)) else 0))
    ([] ++ (if repl then [] else skip_message <$> found_games pti use_uri games)).
Proof.
  intros (_ & _ & _ & Hl) pti.
  apply (merge_pure_shape use_uri repl pti games (mkMerge entries last 0 [])); simpl.
  - intros k Hk. by eapply find_last_index_bound.
  - intros g i _ Hi. by eapply indexed_keys.
Qed.

Lemma committed_store steamdb user doc entries skip m w1 w' :
  shortcuts_of doc = Some entries ->
  commit (shortcut_file_path_of steamdb user) skip (with_shortcuts doc m) w1
  = (Ret tt, w') ->
  written_store steamdb user w' m.
Proof.
  intros Hs (b & Hb & Hf & _)%commit_Ret.
  exists (with_shortcuts doc m), b. split; [done|]. split; [done|].
  by eapply shortcuts_of_with_shortcuts.
Qed.

Lemma add_games_noop steamdb user games skip use_uri repl dl w doc entries last :
  loaded steamdb user games dl w doc entries last ->
  added (merge_pure use_uri repl (build_index entries []) games
           (mkMerge entries last 0 [])) = 0 ->
  exists evs w',
    add_games_to_shortcut_file steamdb user games skip use_uri repl dl w
    = (Ret (None, Some nothing_new_message), w')
    /\ quiet evs w w'.
Proof.
  intros Hl Hz.
  destruct (add_games_loaded steamdb user games skip use_uri repl dl w _ _ _ Hl)
    as (evs & w1 & Hq & _ & _ & Hrun).
  cbv zeta in Hrun. rewrite Hz in Hrun. simpl in Hrun.
  exists (evs ++ [Printed nothing_new_message]), (log [Printed nothing_new_message] w1).
  split; [done|]. eapply quiet_trans; [done|]. by apply quiet_log.
Qed.


End MergeClaims.

Section IndexClaims.
Context `{Collaborators}.

Lemma fresh_entries_lookup use_uri last gs j g :
  gs !! j = Some g ->
  fresh_entries use_uri last gs !! j
  = Some (Py.str (last + 1 + Z.of_nat j), to_shortcut g use_uri).
Proof.
  revert last j. induction gs as [|g0 gs IH]; intros last j; [done|].
  destruct j as [|j]; simpl.
  - intros [= ->]. do 3 f_equal. lia.
  - intros Hj. rewrite (IH _ _ Hj). do 3 f_equal. lia.
Qed.

Lemma fresh_entries_elem use_uri last gs g :
  g ∈ gs -> exists k, (k, to_shortcut g use_uri) ∈ fresh_entries use_uri last gs.
Proof.
  intros [j Hj]%list_elem_of_lookup. eexists.
  apply list_elem_of_lookup. exists j. by apply fresh_entries_lookup.
Qed.

Lemma parsed_nonempty k n : Py.int k = Some n -> k <> EmptyString.
Proof. intros Hk ->. discriminate. Qed.

(** With numeric indexes, a record is unindexed exactly when no entry
    launches its target. *)
Lemma indexed_None_iff entries last use_uri g :
  find_last_index (Py.dict_keys entries) = Some last ->
  indexed (build_index entries []) use_uri g = None <->
  forall k v, (k, v) ∈ entries -> launch_target v <> Some (VStr (launch_string g use_uri)).
Proof.
  intros Hl. unfold indexed. split.
  - intros Hn.
    destruct (path_to_index_get (launch_string g use_uri) (build_index entries []))
      as [k|] eqn:E.
    + exfalso. simpl in Hn. destruct (String.eqb_spec k EmptyString); [subst|done].
      apply index_get_keys in E.
      destruct (find_last_index_bound _ _ _ Hl E) as (n & Hn' & _). discriminate.
    + by apply index_get_none in E as [_ E].
  - intros Hall.
    assert (path_to_index_get (launch_string g use_uri) (build_index entries [])
            = None) as ->; [|done].
    apply index_get_none. done.
Qed.

Lemma replace_all_lookup_ne pti use_uri games m i k v :
  (forall g j, g ∈ games -> indexed pti use_uri g = Some j -> j <> k) ->
  m !! i = Some (k, v) ->
  replace_all pti use_uri games m !! i = Some (k, v).
Proof.
  revert m. induction games as [|g games IH]; intros m Hne Hi; simpl; [done|].
  assert (forall g' j, g' ∈ games -> indexed pti use_uri g' = Some j -> j <> k) as Hne'.
  { intros g' j Hg'. apply Hne. apply elem_of_cons. by right. }
  destruct (indexed pti use_uri g) as [j|] eqn:E; [|by apply IH].
  apply IH; [done|]. apply dict_set_lookup_ne; [done|].
  eapply Hne; [apply elem_of_cons; by left|done].
Qed.

Lemma commit_trace p skip doc w :
  exists evs, trace (snd (commit p skip doc w)) = (trace w ++ evs)%list.
Proof.
  unfold commit.
  assert (forall w0 evs0, trace w0 = (trace w ++ evs0)%list ->
    exists evs,
      trace (snd ((new_bytes <- or_raise Py.CodecError (binary_dumps doc);;
                   write_file p new_bytes;;;
                   print "Updated `shortcuts.vdf` successfully!";;;
                   print EmptyString;;; print "➡   Restart Steam!") w0))
      = (trace w ++ evs)%list) as Htail.
  { intros w0 evs0 E0. unfold bind at 1.
    destruct (binary_dumps doc) as [b|]; simpl; [|by eexists].
    unfold bind at 1. rewrite write_file_run.
    destruct (fs_refuses (OpCreate p) (files w0)); [by eexists|].
    destruct (fs_refuses (OpWrite p) _);
      [simpl; rewrite E0, <- !app_assoc; by eexists|].
    unfold bind, print, emit. simpl. rewrite E0, <- !app_assoc. by eexists. }
  destruct skip.
  - unfold bind at 1. unfold bind at 1. rewrite print_run.
    match goal with
    | |- context [os_remove ?a ?c] =>
        destruct (os_remove_run a c) as [[e ->]|[_ ->]]
    end.
    + simpl. by eexists.
    + eapply Htail. simpl. by rewrite <- app_assoc.
  - unfold bind at 1. unfold bind at 1. unfold strftime at 1.
    unfold bind at 1. rewrite print_run.
    match goal with
    | |- context [os_rename ?a ?b ?c] =>
        destruct (os_rename_run a b c) as [[e ->]|(b0 & _ & ->)]
    end.
    + simpl. by eexists.
    + eapply Htail. simpl. by rewrite <- app_assoc.
Qed.

(** The events of a run that reaches the merge loop start with those
    that precede the commit. *)
Lemma add_games_loaded_events steamdb user games skip use_uri repl dl w doc entries last :
  loaded steamdb user games dl w doc entries last ->
  exists evs evs',
    new_events w (snd (add_games_to_shortcut_file steamdb user games skip use_uri
                         repl dl w)) = (evs ++ evs')%list
    /\ (forall k v, (k, v) ∈ entries -> launch_target v = None ->
          Printed malformed_warning ∈ evs /\ PrintedRepr v ∈ evs)
    /\ (forall g, repl = false ->
          g ∈ found_games (build_index entries []) use_uri games ->
          Printed (skip_message g) ∈ evs).
Proof.
  intros Hl.
  destruct (add_games_loaded steamdb user games skip use_uri repl dl w _ _ _ Hl)
    as (evs & w1 & Hq & Hw & Hs & Hrun).
  cbv zeta in Hrun. rewrite Hrun. clear Hrun.
  destruct Hq as (_ & _ & _ & Et & _).
  destruct (added _ =? 0)%Z.
  - exists evs, [Printed nothing_new_message]. split; [|done].
    unfold new_events. simpl. by rewrite Et, <- app_assoc, drop_app_length.
  - destruct (commit_trace (shortcut_file_path_of steamdb user) skip
                (with_shortcuts doc (shortcuts_map
                   (merge_pure use_uri repl (build_index entries []) games
                      (mkMerge entries last 0 [])))) w1) as (evs' & Ec).
    exists evs, evs'. split; [|done].
    unfold new_events, bind.
    destruct (commit _ _ _ _) as [[[]|e|] w2]; simpl in *;
      by rewrite Ec, Et, <- app_assoc, drop_app_length.
Qed.

(** C10. The identity index is built once, from the entries the store
    had: in a run that wrote the store, the old indexes stay in place and
    in order (a replaced entry keeps its index, nothing is removed or
    renumbered), and every selected record whose target no pre-existing
    entry launches gets an entry of its own, at consecutive fresh
    indexes in selection order, a record that repeats the target of an
    earlier record of the same run included. *)
Theorem index_built_once steamdb user games skip use_uri repl dl w results n w' :
  add_games_to_shortcut_file steamdb user games skip use_uri repl dl w
  = (Ret (Some (results, n), None), w') ->
  exists entries last old m,
    read_store steamdb user w = Some entries
    /\ find_last_index (Py.dict_keys entries) = Some last
    /\ written_store steamdb user w' m
    /\ m = (old ++ fresh_entries use_uri last
                     (unfound_games (build_index entries []) use_uri games))%list
    /\ Py.dict_keys old = Py.dict_keys entries
    /\ (repl = false -> old = entries)
    /\ (forall g,
          g ∈ unfound_games (build_index entries []) use_uri games <->
          g ∈ games
          /\ forall k v, (k, v) ∈ entries ->
               launch_target v <> Some (VStr (launch_string g use_uri)))
    /\ forall j g,
         unfound_games (build_index entries []) use_uri games !! j = Some g ->
         m !! (length entries + j)%nat
         = Some (Py.str (last + 1 + Z.of_nat j), to_shortcut g use_uri).
Proof.
  intros Hrun.
  destruct (add_games_Ret _ _ _ _ _ _ _ _ _ _ Hrun)
    as [(_ & [=] & _)|(doc & entries & last & evs & w1 & Hl & Hq & _ & _ & Hst)].
  cbv zeta in Hst. destruct Hst as [(_ & [=] & _)|(Hnz & Hr & Hc)].
  pose proof (loaded_shape _ _ _ _ _ _ _ _ use_uri repl Hl) as Hshape.
  cbv zeta in Hshape. rewrite Hshape in Hc. cbn [shortcuts_map] in Hc.
  destruct Hl as (Hd & Hs & Hok & Hlast).
  assert (Py.dict_keys (if repl
                        then replace_all (build_index entries []) use_uri games entries
                        else entries) = Py.dict_keys entries) as Hkeys.
  { destruct repl; [|done]. apply replace_all_keys.
    intros g i _ Hi. by eapply indexed_keys. }
  eexists entries, last, _, _.
  split; [unfold read_store; by rewrite Hd|]. split; [done|].
  split; [by eapply committed_store|]. split; [done|]. split; [done|].
  split; [by intros ->|]. split.
  - intros g. unfold unfound_games. rewrite list_elem_of_filter.
    rewrite (indexed_None_iff _ _ _ _ Hlast). tauto.
  - intros j g Hj.
    assert (length entries
            = length (if repl
                      then replace_all (build_index entries []) use_uri games entries
                      else entries)) as ->.
    { apply (f_equal length) in Hkeys. unfold Py.dict_keys in Hkeys.
      by rewrite !length_fmap in Hkeys. }
    rewrite lookup_app_r by lia.
    replace (_ + j - _)%nat with j by lia.
    by apply fresh_entries_lookup.
Qed.

(** C7. An entry without a launch target under ["Exe"] or ["exe"]: its
    index is in no answer of the identity index, so no selected record
    is matched with it; a run that reaches the merge loop prints the
    warning and the entry; a run that writes the store writes the entry
    at its place with its value unchanged; a run that returns a message
    instead leaves the files alone. *)
Theorem malformed_entry_preserved steamdb user games skip use_uri repl dl w
    doc entries last i k v :
  loaded steamdb user games dl w doc entries last ->
  Py.dict_wf entries ->
  entries !! i = Some (k, v) ->
  launch_target v = None ->
  (forall t, path_to_index_get t (build_index entries []) <> Some k)
  /\ (forall g, indexed (build_index entries []) use_uri g <> Some k)
  /\ exists r w',
       add_games_to_shortcut_file steamdb user games skip use_uri repl dl w = (r, w')
       /\ Printed malformed_warning ∈ new_events w w'
       /\ PrintedRepr v ∈ new_events w w'
       /\ (forall results n, r = Ret (Some (results, n), None) ->
             exists m, written_store steamdb user w' m /\ m !! i = Some (k, v))
       /\ (forall msg, r = Ret (None, Some msg) -> files w' = files w).
Proof.
  intros Hl Hwf Hi Hv.
  assert ((k, v) ∈ entries) as Hin by (apply list_elem_of_lookup; by exists i).
  assert (forall t, path_to_index_get t (build_index entries []) <> Some k) as Hex.
  { intros t. by eapply malformed_not_indexed. }
  assert (forall g, indexed (build_index entries []) use_uri g <> Some k) as Hex'.
  { intros g Hg. unfold indexed in Hg. apply found_index_Some in Hg as [Hg _].
    by eapply Hex. }
  split; [done|]. split; [done|].
  destruct (add_games_to_shortcut_file steamdb user games skip use_uri repl dl w)
    as [r w'] eqn:Hrun.
  exists r, w'. split; [done|].
  destruct (add_games_loaded_events steamdb user games skip use_uri repl dl w
              _ _ _ Hl) as (evs & evs' & Hev & Hw & _).
  rewrite Hrun in Hev. simpl in Hev. rewrite Hev.
  destruct (Hw _ _ Hin Hv) as [Hw1 Hw2].
  split; [apply elem_of_app; by left|]. split; [apply elem_of_app; by left|].
  split.
  - intros results n ->.
    destruct (add_games_Ret _ _ _ _ _ _ _ _ _ _ Hrun)
      as [(_ & [=] & _)|(doc' & entries' & last' & evs1 & w1 & Hl' & Hq & _ & _ & Hst)].
    destruct (loaded_functional _ _ _ _ _ _ _ _ _ _ _ Hl Hl') as (-> & -> & ->).
    cbv zeta in Hst. destruct Hst as [(_ & [=] & _)|(Hnz & Hr & Hc)].
    pose proof (loaded_shape _ _ _ _ _ _ _ _ use_uri repl Hl) as Hshape.
    cbv zeta in Hshape. rewrite Hshape in Hc. cbn [shortcuts_map] in Hc.
    eexists. split; [destruct Hl as (_ & Hs & _); by eapply committed_store|].
    apply lookup_app_l_Some.
    destruct repl; [|done]. apply replace_all_lookup_ne; [|done].
    intros g j _ Hj ->. by eapply Hex'.
  - intros msg ->.
    destruct (add_games_Ret _ _ _ _ _ _ _ _ _ _ Hrun)
      as [(_ & _ & evs1 & Hq)|(doc' & entries' & last' & evs1 & w1 & Hl' & Hq & _ & _ & Hst)].
    + apply Hq.
    + cbv zeta in Hst. destruct Hst as [(_ & _ & ->)|(_ & [=] & _)].
      simpl. apply Hq.
Qed.

End IndexClaims.

Section ReplaceClaims.
Context `{Collaborators}.

Lemma last_cons_Some {A} (x : A) l : exists y, last (x :: l) = Some y.
Proof.
  revert x. induction l as [|z l IH]; intros x; [by exists x|].
  destruct (IH z) as [y Hy]. exists y. by rewrite last_cons_cons.
Qed.

Lemma last_writer_cons_eq pti use_uri i g games :
  indexed pti use_uri g = Some i ->
  last_writer pti use_uri i (g :: games)
  = match last_writer pti use_uri i games with
    | Some g' => Some g'
    | None => Some g
    end.
Proof.
  intros Hg. unfold last_writer. rewrite filter_cons_True by done.
  destruct (filter _ games) as [|z l]; [done|].
  rewrite last_cons_cons. destruct (last_cons_Some z l) as [y ->]. done.
Qed.

Lemma last_writer_cons_ne pti use_uri i g games :
  indexed pti use_uri g <> Some i ->
  last_writer pti use_uri i (g :: games) = last_writer pti use_uri i games.
Proof. intros Hg. unfold last_writer. by rewrite filter_cons_False. Qed.

Lemma last_writer_Some pti use_uri i g games :
  g ∈ games -> indexed pti use_uri g = Some i ->
  exists g', last_writer pti use_uri i games = Some g'
             /\ g' ∈ games /\ indexed pti use_uri g' = Some i.
Proof.
  intros Hg Hi. unfold last_writer.
  assert (g ∈ filter (fun g => indexed pti use_uri g = Some i) games) as Hf
      by (by apply list_elem_of_filter).
  destruct (filter _ games) as [|z l] eqn:E; [by apply elem_of_nil in Hf|].
  destruct (last_cons_Some z l) as [y Hy]. exists y. split; [done|].
  assert (y ∈ filter (fun g => indexed pti use_uri g = Some i) games) as Hy'.
  { rewrite E. apply last_Some in Hy as [l' ->]. apply elem_of_app. right.
    apply elem_of_cons. by left. }
  apply list_elem_of_filter in Hy' as [? ?]. done.
Qed.

(** After the replacements, an index holds what the last record sent to
    it built. *)
Lemma replace_all_get pti use_uri games m i :
  Py.dict_get i (replace_all pti use_uri games m)
  = match last_writer pti use_uri i games with
    | Some g' => Some (to_shortcut g' use_uri)
    | None => Py.dict_get i m
    end.
Proof.
  revert m. induction games as [|g games IH]; intros m; simpl; [done|].
  destruct (indexed pti use_uri g) as [j|] eqn:E.
  - rewrite IH. destruct (decide (j = i)) as [->|Hne].
    + rewrite last_writer_cons_eq by done.
      destruct (last_writer pti use_uri i games); [done|].
      apply dict_get_set_eq.
    + rewrite last_writer_cons_ne by congruence.
      destruct (last_writer pti use_uri i games); [done|].
      by apply dict_get_set_ne.
  - rewrite IH. by rewrite last_writer_cons_ne by congruence.
Qed.

Lemma found_unfound_length pti use_uri games :
  (length (unfound_games pti use_uri games) + length (found_games pti use_uri games)
   = length games)%nat.
Proof.
  induction games as [|g games IH]; [done|].
  destruct (indexed pti use_uri g) as [i|] eqn:E.
  - destruct (found_games_cons_Some pti use_uri g games i E) as [-> ->].
    simpl. lia.
  - destruct (found_games_cons_None pti use_uri g games E) as [-> ->].
    simpl. lia.
Qed.

(** C2, as the code has it. A selected record [g] whose target the index
    sends to [i], in a run that returned:
    - with [replace_existing], the run wrote the store; the results list
      it returns is empty, the count is the number of selected records
      (each was inserted or written over an entry), and index [i] holds
      the shortcut built from the last selected record sent to [i];
    - without it, the skip message is printed; either nothing was
      selected that the store lacked, and the run returns the
      nothing-new message alone and leaves the files as they were, or
      the run returns the skip messages with the number of inserted
      records and has written the old entries unchanged, followed by
      the inserted ones. *)
Theorem replace_vs_skip steamdb user games skip use_uri repl dl w doc entries last
    g i r w' :
  loaded steamdb user games dl w doc entries last ->
  g ∈ games ->
  indexed (build_index entries []) use_uri g = Some i ->
  add_games_to_shortcut_file steamdb user games skip use_uri repl dl w = (Ret r, w') ->
  let pti := build_index entries [] in
  if repl then
    exists m g',
      r = (Some ([], Z.of_nat (length (unfound_games pti use_uri games)
                                + length (found_games pti use_uri games))), None)
      /\ written_store steamdb user w' m
      /\ last_writer pti use_uri i games = Some g'
      /\ Py.dict_get i m = Some (to_shortcut g' use_uri)
  else
    Printed (skip_message g) ∈ new_events w w'
    /\ ((unfound_games pti use_uri games = []
         /\ r = (None, Some nothing_new_message)
         /\ files w' = files w)
        \/ (unfound_games pti use_uri games <> []
            /\ r = (Some (skip_message <$> found_games pti use_uri games,
                          Z.of_nat (length (unfound_games pti use_uri games))), None)
            /\ skip_message g ∈ skip_message <$> found_games pti use_uri games
            /\ written_store steamdb user w'
                 (entries ++ fresh_entries use_uri last
                               (unfound_games pti use_uri games)))).
Proof.
  intros Hl Hg Hi Hrun pti.
  assert (g ∈ found_games pti use_uri games) as Hfound.
  { unfold found_games. apply list_elem_of_filter. split; [|done]. subst pti.
    congruence. }
  pose proof (loaded_shape _ _ _ _ _ _ _ _ use_uri repl Hl) as Hshape.
  cbv zeta in Hshape. fold pti in Hshape.
  destruct (add_games_Ret _ _ _ _ _ _ _ _ _ _ Hrun)
    as [(Hf & _)|(doc' & entries' & last' & evs1 & w1 & Hl' & Hq & _ & Hskip & Hst)].
  { by apply loaded_present in Hl. }
  destruct (loaded_functional _ _ _ _ _ _ _ _ _ _ _ Hl Hl') as (-> & -> & ->).
  cbv zeta in Hst. fold pti in Hst. rewrite Hshape in Hst.
  cbn [added game_results shortcuts_map] in Hst.
  assert (shortcuts_of doc = Some entries) as Hs by apply Hl.
  destruct repl.
  - destruct Hst as [(Hz & _)|(Hnz & -> & Hc)].
    { exfalso. destruct (found_games pti use_uri games); [by apply elem_of_nil in Hfound|].
      simpl in Hz. lia. }
    destruct (last_writer_Some pti use_uri i g games Hg Hi) as (g' & Hlw & _ & _).
    eexists _, g'. split; [|split; [by eapply committed_store|split; [done|]]].
    + do 3 f_equal. lia.
    + apply dict_get_app_l. by rewrite replace_all_get, Hlw.
  - split.
    { destruct (add_games_loaded_events steamdb user games skip use_uri false dl w
                  _ _ _ Hl) as (evs & evs' & Hev & _ & Hs').
      rewrite Hrun in Hev. simpl in Hev. rewrite Hev. apply elem_of_app. left.
      by apply Hs'. }
    destruct Hst as [(Hz & -> & ->)|(Hnz & -> & Hc)].
    + left. split; [|split; [done|apply Hq]].
      destruct (unfound_games pti use_uri games); [done|]. simpl in Hz. lia.
    + right. split; [|split; [|split]].
      * intros E. rewrite E in Hnz. simpl in Hnz. lia.
      * do 3 f_equal. lia.
      * apply list_elem_of_fmap. by exists g.
      * by eapply committed_store.
Qed.

Lemma merge_pure_all_found use_uri pti games st :
  (forall g, g ∈ games -> indexed pti use_uri g <> None) ->
  added (merge_pure use_uri false pti games st) = added st.
Proof.
  revert st. induction games as [|g games IH]; intros st Hall; simpl; [done|].
  destruct (indexed pti use_uri g) as [i|] eqn:E.
  - rewrite IH; [done|]. intros g' Hg'. apply Hall. apply elem_of_cons. by right.
  - exfalso. eapply Hall; [apply elem_of_cons; by left|done].
Qed.

Lemma index_ok_app games dl e1 e2 :
  index_ok games dl (e1 ++ e2) = index_ok games dl e1 && index_ok games dl e2.
Proof.
  induction e1 as [|[k v] e1 IH]; simpl; [done|].
  destruct v; try done. rewrite IH. by rewrite andb_assoc.
Qed.

Lemma index_ok_fresh games dl use_uri last gs :
  index_ok games dl (fresh_entries use_uri last gs) = true.
Proof.
  revert last. induction gs as [|g gs IH]; intros last; [done|].
  cbn [fresh_entries index_ok].
  change (to_shortcut g use_uri) with (VDict
    match to_shortcut g use_uri with VDict d => d | _ => [] end) at 1.
  rewrite launch_target_to_shortcut, IH.
  destruct (String.eqb _ _); [done|]. simpl. by rewrite orb_true_r.
Qed.

(** C1. Idempotence: take a codec that reads back what it wrote and
    selected records with non-empty executable paths. After a run
    without [replace_existing] that returned, a second run with the same
    arguments on the files the first one left returns a message instead
    of a count (the nothing-new message when the store file existed),
    leaves every file as it was, and produces console output only:
    nothing is added, no entry is touched, nothing is written. *)
Theorem merge_idempotent steamdb user games skip use_uri dl w r1 w1 w2 :
  codec_roundtrip ->
  (forall g, g ∈ games -> executable_path g <> EmptyString) ->
  add_games_to_shortcut_file steamdb user games skip use_uri false dl w = (Ret r1, w1) ->
  files w2 = files w1 ->
  exists msg evs w3,
    add_games_to_shortcut_file steamdb user games skip use_uri false dl w2
    = (Ret (None, Some msg), w3)
    /\ (files w !! shortcut_file_path_of steamdb user <> None ->
        msg = nothing_new_message)
    /\ files w3 = files w2
    /\ new_events w2 w3 = evs
    /\ forallb console_event evs = true.
Proof.
  intros Hcodec Hpaths Hrun Hfiles.
  set (p := shortcut_file_path_of steamdb user).
  assert (forall doc entries last,
    loaded steamdb user games dl w2 doc entries last ->
    added (merge_pure use_uri false (build_index entries []) games
             (mkMerge entries last 0 [])) = 0 ->
    exists msg evs w3,
      add_games_to_shortcut_file steamdb user games skip use_uri false dl w2
      = (Ret (None, Some msg), w3)
      /\ (files w !! p <> None -> msg = nothing_new_message)
      /\ files w3 = files w2 /\ new_events w2 w3 = evs
      /\ forallb console_event evs = true) as Hnoop.
  { intros doc entries last Hl Hz.
    destruct (add_games_noop steamdb user games skip use_uri false dl w2 _ _ _ Hl Hz)
      as (evs & w3 & Hr & Hq3).
    exists nothing_new_message, evs, w3. split; [done|]. split; [done|].
    split; [apply Hq3|]. split; [by apply quiet_new_events|apply Hq3]. }
  destruct (add_games_Ret _ _ _ _ _ _ _ _ _ _ Hrun)
    as [(Hf & -> & evs & Hq)|(doc & entries & last & evs & w' & Hl & Hq & _ & _ & Hst)].
  - (* the store file was missing and still is *)
    assert (files w2 !! p = None) as Hf2.
    { rewrite Hfiles. destruct Hq as (-> & _). done. }
    destruct (add_games_cases steamdb user games skip use_uri false dl w2)
      as [(_ & evs2 & Hr & Hc)|[(e & evs2 & w3 & _ & _ & Hne & _)|
             (doc & entries & last & evs2 & w3 & Hl & _)]].
    + exists (not_found_message p), evs2, (log evs2 w2). split; [done|].
      split; [done|]. split; [done|]. split; [|done].
      apply quiet_new_events. by apply quiet_log.
    + done.
    + by apply loaded_present in Hl.
  - cbv zeta in Hst. destruct Hst as [(Hz & -> & ->)|(Hnz & -> & Hc)].
    + (* nothing to do the first time: same files, same answer *)
      apply (Hnoop doc entries last); [|done].
      eapply loaded_files; [|done]. rewrite Hfiles. simpl. apply Hq.
    + (* the first run wrote the store *)
      pose proof (loaded_shape _ _ _ _ _ _ _ _ use_uri false Hl) as Hshape.
      cbv zeta in Hshape. rewrite Hshape in Hc. cbn [shortcuts_map] in Hc.
      set (pti := build_index entries []) in *.
      set (fresh := fresh_entries use_uri last (unfound_games pti use_uri games)) in *.
      destruct Hl as (Hd & Hs & Hok & Hlast).
      destruct (commit_Ret _ _ _ _ _ Hc) as (b & Hb & Hfb & _).
      assert (Forall (fun k => is_Some (Py.int k)) (Py.dict_keys (entries ++ fresh)))
        as Hparse.
      { rewrite dict_keys_app. apply Forall_app. split.
        - by eapply find_last_index_parses.
        - unfold fresh. rewrite fresh_entries_keys. apply Forall_fmap, Forall_forall.
          intros j _. simpl. rewrite int_str. by eexists. }
      destruct (find_last_index_total _ Hparse) as [last2 Hlast2].
      assert (loaded steamdb user games dl w2
                (with_shortcuts doc (entries ++ fresh)) (entries ++ fresh) last2) as Hl2.
      { split; [|split; [|split]].
        - unfold read_document. rewrite Hfiles, Hfb. simpl. by apply Hcodec.
        - by eapply shortcuts_of_with_shortcuts.
        - rewrite index_ok_app, Hok. apply index_ok_fresh.
        - done. }
      apply (Hnoop _ _ _ Hl2).
      rewrite merge_pure_all_found; [done|].
      intros g Hg. unfold indexed.
      set (t := launch_string g use_uri).
      assert (t <> EmptyString) as Ht by (by apply launch_string_nonempty, Hpaths).
      destruct (path_to_index_get t (build_index (entries ++ fresh) [])) as [k|] eqn:E.
      * apply index_get_keys in E.
        apply (proj1 (Forall_forall _ _) Hparse) in E as [n' Hn'].
        simpl. destruct (String.eqb_spec k EmptyString); [subst; discriminate|done].
      * exfalso. rewrite build_index_app in E. fold pti in E.
        apply index_get_none in E as [E1 E2].
        destruct (indexed pti use_uri g) as [i|] eqn:Ei.
        -- unfold indexed in Ei. fold t in Ei. rewrite E1 in Ei. discriminate.
        -- assert (g ∈ unfound_games pti use_uri games) as Hu
               by (by apply list_elem_of_filter).
           destruct (fresh_entries_elem use_uri last _ _ Hu) as [k Hk].
           apply (E2 _ _ Hk). rewrite launch_target_to_shortcut. fold t.
           by destruct (String.eqb_spec t EmptyString).
Qed.

End ReplaceClaims.

Section NextIndexClaims.
Context `{Collaborators}.

(** C6. Next index and monotonicity: in a run that wrote the store, every
    existing index is a number and [last] is 0 for an empty store and the
    largest existing index otherwise. The store that is written has the
    old entries at their places under their indexes (with their values,
    where no replacement is aimed at them), followed by one entry for
    each selected record the identity index matches with no entry, in
    selection order: the first at [last + 1], the next at [last + 2] and
    so on. Each of these indexes is larger than every index that existed
    and than every index inserted before it, and the returned count is
    the number of insertions plus, with [replace_existing], the number of
    matched records. *)
Theorem next_index_monotone steamdb user games skip use_uri repl dl w results n w' :
  add_games_to_shortcut_file steamdb user games skip use_uri repl dl w
  = (Ret (Some (results, n), None), w') ->
  exists entries last m,
    read_store steamdb user w = Some entries
    /\ find_last_index (Py.dict_keys entries) = Some last
    /\ (entries = [] -> last = 0)
    /\ (entries <> [] -> exists k, k ∈ Py.dict_keys entries /\ Py.int k = Some last)
    /\ (forall k, k ∈ Py.dict_keys entries -> exists i, Py.int k = Some i /\ i <= last)
    /\ written_store steamdb user w' m
    /\ let pti := build_index entries [] in
       let inserted := unfound_games pti use_uri games in
       length m = (length entries + length inserted)%nat
       /\ n = Z.of_nat (length inserted)
              + (if repl then Z.of_nat (length (found_games pti use_uri games)) else 0)
       /\ (forall i k v,
             entries !! i = Some (k, v) ->
             exists v', m !! i = Some (k, v')
                        /\ (repl = false
                            \/ (forall g, g ∈ games -> indexed pti use_uri g <> Some k) ->
                            v' = v))
       /\ forall j g,
            inserted !! j = Some g ->
            let index := last + 1 + Z.of_nat j in
            m !! (length entries + j)%nat = Some (Py.str index, to_shortcut g use_uri)
            /\ Py.int (Py.str index) = Some index
            /\ (forall k, k ∈ Py.dict_keys entries ->
                  exists i, Py.int k = Some i /\ i < index)
            /\ forall j', (j' < j)%nat ->
                  exists k' v' i',
                    m !! (length entries + j')%nat = Some (k', v')
                    /\ Py.int k' = Some i' /\ i' < index.
Proof.
  intros Hrun.
  destruct (add_games_Ret _ _ _ _ _ _ _ _ _ _ Hrun)
    as [(_ & [=] & _)|(doc & entries & last & evs & w1 & Hl & Hq & _ & _ & Hst)].
  cbv zeta in Hst. destruct Hst as [(_ & [=] & _)|(Hnz & Hr & Hc)].
  pose proof (loaded_shape _ _ _ _ _ _ _ _ use_uri repl Hl) as Hshape.
  cbv zeta in Hshape. rewrite Hshape in Hc, Hr. cbn [shortcuts_map] in Hc.
  cbn [added game_results] in Hr. injection Hr as _ Hn.
  rewrite Z.add_0_l in Hn.
  destruct Hl as (Hd & Hs & Hok & Hlast).
  set (pti := build_index entries []) in *.
  set (inserted := unfound_games pti use_uri games) in *.
  set (old := if repl then replace_all pti use_uri games entries else entries) in *.
  assert (Py.dict_keys old = Py.dict_keys entries) as Hkeys.
  { unfold old. destruct repl; [|done]. apply replace_all_keys.
    intros g i _ Hi. by eapply indexed_keys. }
  assert (length old = length entries) as Hlen.
  { apply (f_equal length) in Hkeys. unfold Py.dict_keys in Hkeys.
    by rewrite !length_fmap in Hkeys. }
  assert (forall j g, inserted !! j = Some g ->
            (old ++ fresh_entries use_uri last inserted) !! (length entries + j)%nat
            = Some (Py.str (last + 1 + Z.of_nat j), to_shortcut g use_uri)) as Hnew.
  { intros j g Hj. rewrite <- Hlen, lookup_app_r by lia.
    replace (_ + j - _)%nat with j by lia. by apply fresh_entries_lookup. }
  exists entries, last, (old ++ fresh_entries use_uri last inserted)%list.
  split; [unfold read_store; by rewrite Hd|]. split; [done|].
  split; [intros ->; cbn in Hlast; by injection Hlast as <-|].
  split; [intros Hne; apply find_last_index_attained; [done|by destruct entries]|].
  split; [intros k Hk; by eapply find_last_index_bound|].
  split; [by eapply committed_store|].
  cbv zeta. split; [by rewrite length_app, fresh_entries_length, Hlen|].
  split; [exact Hn|]. split.
  - intros i k v Hi.
    assert (exists v', old !! i = Some (k, v')) as [v' Hv'].
    { assert (Py.dict_keys old !! i = Some k) as Hk.
      { rewrite Hkeys. unfold Py.dict_keys. by rewrite list_lookup_fmap, Hi. }
      unfold Py.dict_keys in Hk. rewrite list_lookup_fmap in Hk.
      destruct (old !! i) as [[k0 v0]|]; [|done].
      simpl in Hk. injection Hk as ->. by exists v0. }
    exists v'. split; [by apply lookup_app_l_Some|].
    intros Hkeep.
    assert (old !! i = Some (k, v)) as Hv.
    { unfold old. destruct repl; [|done].
      destruct Hkeep as [?|Hkeep]; [done|].
      apply replace_all_lookup_ne; [|done].
      intros g j Hg Hj ->. by eapply Hkeep. }
    rewrite Hv in Hv'. by injection Hv' as ->.
  - intros j g Hj. split; [by apply Hnew|]. split; [apply int_str|]. split.
    + intros k Hk. destruct (find_last_index_bound _ _ _ Hlast Hk) as (i & Hi & Hle).
      exists i. split; [done|]. clear - Hle. lia.
    + intros j' Hlt.
      destruct (lookup_lt_is_Some_2 inserted j') as [g' Hg'].
      { apply lookup_lt_Some in Hj. fold pti inserted in Hj. clear - Hj Hlt. lia. }
      eexists _, _, _. split; [by apply Hnew|]. split; [apply int_str|].
      clear - Hlt. lia.
Qed.

End NextIndexClaims.

Module Scenarios.
Import RefEnv.
Local Open Scope string_scope.

Lemma env_roundtrip : codec_roundtrip.
Proof. intros d b [= <-]. reflexivity. Qed.

Lemma loaded_here games dl entries lines last :
  index_ok games dl entries = true ->
  find_last_index (Py.dict_keys entries) = Some last ->
  loaded steamdb bob games dl (world_with entries lines) (doc entries) entries last.
Proof. intros Hok Hl. split; [|split; [|split]]; try done. Qed.

(** C1, at a store that is empty at first. *)
Lemma merge_idempotent_witness :
  let w := world_with [] [] in
  let run1 := add_games_to_shortcut_file steamdb bob [game_a; game_b]
                false false false false w in
  fst run1 = Ret (Some ([], 2), None)
  /\ exists msg evs w3,
       add_games_to_shortcut_file steamdb bob [game_a; game_b]
         false false false false (snd run1)
       = (Ret (None, Some msg), w3)
       /\ (files w !! shortcut_file_path_of steamdb bob <> None ->
           msg = nothing_new_message)
       /\ files w3 = files (snd run1)
       /\ new_events (snd run1) w3 = evs
       /\ forallb console_event evs = true.
Proof.
  intros w run1. split; [vm_compute; reflexivity|].
  apply (merge_idempotent steamdb bob [game_a; game_b] false false false
           w (Some ([], 2), None) (snd run1) (snd run1)).
  - exact env_roundtrip.
  - intros g Hg. apply list_elem_of_In in Hg. simpl in Hg.
    destruct Hg as [<-|[<-|[]]]; discriminate.
  - vm_compute. reflexivity.
  - reflexivity.
Defined.

(** C2, the replace half at an entry the selected record matches. *)
Lemma replace_vs_skip_witness :
  let w := world_with [("5", entry_a)] [] in
  let run := add_games_to_shortcut_file steamdb bob [game_a] false false true false w in
  exists m g',
    fst run = Ret (Some ([], 1), None)
    /\ written_store steamdb bob (snd run) m
    /\ last_writer (build_index [("5", entry_a)] []) false "5" [game_a] = Some g'
    /\ Py.dict_get "5" m = Some (to_shortcut g' false).
Proof.
  intros w run.
  destruct (replace_vs_skip steamdb bob [game_a] false false true false w
              (doc [("5", entry_a)]) [("5", entry_a)] 5 game_a "5"
              (Some ([], 1), None) (snd run)) as (m & g' & Hr & Hw & Hl & Hg).
  - apply loaded_here; vm_compute; reflexivity.
  - apply elem_of_cons. by left.
  - vm_compute. reflexivity.
  - vm_compute. reflexivity.
  - exists m, g'. split; [vm_compute; reflexivity|]. done.
Defined.

(** C2 as stated: at an entry the selected record matches, neither mode
    hands the caller a results list with a report in it. Skipping
    returns the nothing-new message and no list; replacing returns an
    empty list with the count 1. *)
Lemma replace_vs_skip_counterexample :
  let w := world_with [("5", entry_a)] [] in
  let skipping := add_games_to_shortcut_file steamdb bob [game_a]
                    false false false false w in
  let replacing := add_games_to_shortcut_file steamdb bob [game_a]
                     false false true false w in
  fst skipping = Ret (None, Some nothing_new_message)
  /\ fst replacing = Ret (Some ([], 1), None)
  /\ ~ reports_in_results (fst skipping)
  /\ ~ reports_in_results (fst replacing).
Proof.
  intros w skipping replacing.
  assert (fst skipping = Ret (None, Some nothing_new_message)) as E1
      by (vm_compute; reflexivity).
  assert (fst replacing = Ret (Some ([], 1), None)) as E2
      by (vm_compute; reflexivity).
  split; [done|]. split; [done|]. split.
  - intros (results & n & E & _). rewrite E1 in E. discriminate.
  - intros (results & n & E & Hne). rewrite E2 in E. injection E as <- _. done.
Qed.

(** C3 on the code: the same record selected twice for a store that has
    one entry per target. Both copies are inserted, at indexes 1 and 2,
    and the store that is written has two entries for one target. *)
Theorem duplicate_selection_inserted_twice :
  let entries := [("0", entry_x)] in
  let w := world_with entries [] in
  let run := add_games_to_shortcut_file steamdb bob [game_a; game_a]
               false false false false w in
  unique_targets entries
  /\ fst run = Ret (Some ([], 2), None)
  /\ read_store steamdb bob (snd run)
     = Some [("0", entry_x); ("1", to_shortcut game_a false);
             ("2", to_shortcut game_a false)]
  /\ ~ unique_targets [("0", entry_x); ("1", to_shortcut game_a false);
                       ("2", to_shortcut game_a false)].
Proof.
  intros entries w run. split; [|split; [|split]].
  - intros i j k1 v1 k2 v2 t Hi Hj _ _.
    destruct i as [|i]; [|done]. by destruct j.
  - vm_compute. reflexivity.
  - vm_compute. reflexivity.
  - intros Hu.
    specialize (Hu 1%nat 2%nat "1" (to_shortcut game_a false) "2"
                  (to_shortcut game_a false) (VStr "/g/a.exe")
                  eq_refl eq_refl eq_refl eq_refl).
    discriminate.
Qed.


(** C5 on the code: without a shortcuts file the merge returns its
    not-found message, [main] drops it, prints on and returns 0, and the
    script ends with status 0. A refused write, for comparison, is an
    exception nobody catches: status 1. *)
Theorem store_not_found_exits_zero :
  let w := empty_world [] in
  fst (add_games_to_shortcut_file steamdb bob [game_a] false false false false w)
  = Ret (None, Some (not_found_message store_path))
  /\ fst (main 1 (all_args EmptyString) [game_a] w) = Ret 0
  /\ exit_status (fst (main 1 (all_args EmptyString) [game_a] w)) = Some 0
  /\ fst (@main read_only_env 1 (all_args EmptyString) [game_a] (read_only_world []))
     = Raise Py.OSError
  /\ exit_status (fst (@main read_only_env 1 (all_args EmptyString) [game_a]
                         (read_only_world []))) = Some 1.
Proof. repeat split; vm_compute; reflexivity. Qed.

(** C6, at a store whose largest index is 5: the two records go to the
    indexes 6 and 7, after the entry that was there. *)
Lemma next_index_monotone_witness :
  let w := world_with [("5", entry_x)] [] in
  let run := add_games_to_shortcut_file steamdb bob [game_a; game_b]
               false false false false w in
  fst run = Ret (Some ([], 2), None)
  /\ exists m,
       written_store steamdb bob (snd run) m
       /\ length m = 3%nat
       /\ m !! 0%nat = Some ("5", entry_x)
       /\ m !! 1%nat = Some ("6", to_shortcut game_a false)
       /\ m !! 2%nat = Some ("7", to_shortcut game_b false).
Proof.
  intros w run. split; [vm_compute; reflexivity|].
  destruct (next_index_monotone steamdb bob [game_a; game_b] false false false false
              w [] 2 (snd run))
    as (entries & last & m & Hr & Hl & _ & _ & _ & Hw & Hrest).
  - vm_compute. reflexivity.
  - assert (entries = [("5", entry_x)]) as ->.
    { vm_compute in Hr. by injection Hr as <-. }
    assert (last = 5) as ->.
    { vm_compute in Hl. by injection Hl as <-. }
    assert (unfound_games (build_index [("5", entry_x)] []) false [game_a; game_b]
            = [game_a; game_b]) as Hnew by (vm_compute; reflexivity).
    cbv zeta in Hrest. rewrite Hnew in Hrest.
    destruct Hrest as (Hlen & _ & Hold & Hins).
    exists m. split; [done|]. split; [done|]. split; [|split].
    + destruct (Hold 0%nat "5" entry_x eq_refl) as (v' & Hv & Hkeep).
      rewrite Hv. by rewrite (Hkeep (or_introl eq_refl)).
    + by destruct (Hins 0%nat game_a eq_refl) as (Hm & _).
    + by destruct (Hins 1%nat game_b eq_refl) as (Hm & _).
Defined.

(** C7, at a store whose first entry has a name and no executable. *)
Lemma malformed_entry_preserved_witness :
  let entries := [("0", entry_blank); ("1", entry_x)] in
  let w := world_with entries [] in
  (forall t, path_to_index_get t (build_index entries []) <> Some "0")
  /\ (forall g, indexed (build_index entries []) false g <> Some "0")
  /\ exists r w',
       add_games_to_shortcut_file steamdb bob [game_a] false false false false w
       = (r, w')
       /\ Printed malformed_warning ∈ new_events w w'
       /\ PrintedRepr entry_blank ∈ new_events w w'
       /\ (forall results n, r = Ret (Some (results, n), None) ->
             exists m, written_store steamdb bob w' m
                       /\ m !! 0%nat = Some ("0", entry_blank))
       /\ (forall msg, r = Ret (None, Some msg) -> files w' = files w).
Proof.
  apply (malformed_entry_preserved steamdb bob [game_a] false false false false
           (world_with [("0", entry_blank); ("1", entry_x)] [])
           (doc [("0", entry_blank); ("1", entry_x)])
           [("0", entry_blank); ("1", entry_x)] 1 0%nat "0" entry_blank).
  - apply loaded_here; vm_compute; reflexivity.
  - unfold Py.dict_wf. simpl. apply NoDup_cons. split.
    + intros Hin. apply list_elem_of_In in Hin. simpl in Hin.
      destruct Hin as [?|[]]. discriminate.
    + apply NoDup_singleton.
  - reflexivity.
  - reflexivity.
Defined.

(** C8 on the code: what the two selection routines do with a number
    outside the table. [filter_games] lets the [IndexError] of an index
    past the end escape, and takes 0 and negative numbers as positions
    counted from the end; [prompt_for_steam_account] checks the upper
    bound only, so 0 selects the last account and a number below the
    negated length raises. A token that is not a number, and for the
    account prompt a number past the end, do give [None]. *)
Theorem selection_outside_table :
  let games := [game_a; game_b] in
  let accounts := [bob; eve] in
  fst (filter_games games (empty_world ["3"])) = Raise Py.IndexError
  /\ fst (filter_games games (empty_world ["0"])) = Ret (Some [game_b])
  /\ fst (filter_games games (empty_world ["-1"])) = Ret (Some [game_a])
  /\ fst (pick_games 5 games (empty_world ["3"; "1"])) = Raise Py.IndexError
  /\ fst (prompt_for_steam_account accounts (empty_world ["0"])) = Ret (Some "456")
  /\ fst (prompt_for_steam_account accounts (empty_world ["-5"]))
     = Raise Py.IndexError
  /\ fst (filter_games games (empty_world ["x"])) = Ret None
  /\ fst (prompt_for_steam_account accounts (empty_world ["x"])) = Ret None
  /\ fst (prompt_for_steam_account accounts (empty_world ["3"])) = Ret None.
Proof. repeat split; vm_compute; reflexivity. Qed.

(** C9 on the code: with one account on the machine, a numeric id that
    is not that account's ends the run with [StopIteration]; a blank, the
    account's id, its user name or another name resolve to the account. *)
Theorem single_account_unknown_id :
  let w := empty_world [] in
  fst (resolve_account 1 "999" [bob] w) = Raise Py.StopIteration
  /\ fst (main 1 (all_args "999") [game_a] (world_with [] []))
     = Raise Py.StopIteration
  /\ exit_status (fst (main 1 (all_args "999") [game_a] (world_with [] [])))
     = Some 1
  /\ fst (resolve_account 1 EmptyString [bob] w) = Ret bob
  /\ fst (resolve_account 1 "123" [bob] w) = Ret bob
  /\ fst (resolve_account 1 "bob" [bob] w) = Ret bob
  /\ fst (resolve_account 1 "alice" [bob] w) = Ret bob.
Proof. repeat split; vm_compute; reflexivity. Qed.

(** C10, at the same record selected twice for a store without it. *)
Lemma index_built_once_witness :
  let w := world_with [("0", entry_x)] [] in
  let run := add_games_to_shortcut_file steamdb bob [game_a; game_a]
               false false false false w in
  fst run = Ret (Some ([], 2), None)
  /\ exists entries last old m,
       read_store steamdb bob w = Some entries
       /\ find_last_index (Py.dict_keys entries) = Some last
       /\ written_store steamdb bob (snd run) m
       /\ m = (old ++ fresh_entries false last
                        (unfound_games (build_index entries []) false
                           [game_a; game_a]))%list
       /\ Py.dict_keys old = Py.dict_keys entries
       /\ (false = false -> old = entries)
       /\ (forall g,
             g ∈ unfound_games (build_index entries []) false [game_a; game_a] <->
             g ∈ [game_a; game_a]
             /\ forall k v, (k, v) ∈ entries ->
                  launch_target v <> Some (VStr (launch_string g false)))
       /\ forall j g,
            unfound_games (build_index entries []) false [game_a; game_a] !! j
            = Some g ->
            m !! (length entries + j)%nat
            = Some (Py.str (last + 1 + Z.of_nat j), to_shortcut g false).
Proof.
  split; [vm_compute; reflexivity|].
  apply (index_built_once steamdb bob [game_a; game_a] false false false false
           (world_with [("0", entry_x)] []) [] 2).
  vm_compute. reflexivity.
Defined.

(** The scenarios of the specification. *)
Example empty_store_two_records :
  let run := add_games_to_shortcut_file steamdb bob [game_a; game_b]
               false false false false (world_with [] []) in
  fst run = Ret (Some ([], 2), None)
  /\ read_store steamdb bob (snd run)
     = Some [("1", to_shortcut game_a false); ("2", to_shortcut game_b false)].
Proof. split; vm_compute; reflexivity. Qed.

Example existing_record_skipped :
  let w := world_with [("5", entry_a)] [] in
  let run := add_games_to_shortcut_file steamdb bob [game_a]
               false false false false w in
  fst run = Ret (None, Some nothing_new_message)
  /\ files (snd run) = files w
  /\ trace (snd run) !! 5%nat = Some (Printed (skip_message game_a)).
Proof. repeat split; vm_compute; reflexivity. Qed.

Example three_accounts_blank_input :
  fst (prompt_for_steam_account [bob; eve; mkAccount "789" "kim"]
         (empty_world [EmptyString])) = Ret (Some "123").
Proof. vm_compute. reflexivity. Qed.

Example int_examples :
  Py.int " 5 " = Some 5 /\ Py.int "-0" = Some 0 /\ Py.int "1_0" = Some 10 /\
  Py.int "1__0" = None /\ Py.int EmptyString = None /\ Py.int "+" = None /\
  Py.int "007" = Some 7 /\ Py.int "+ 5" = None /\ Py.str (-5) = "-5" /\
  Py.str 0 = "0".
Proof. repeat split; reflexivity. Qed.

Example split_examples :
  Py.split_on "," "a,,b" = ["a"; EmptyString; "b"] /\ Py.split_on "," EmptyString = [EmptyString] /\
  Py.strip "  x y  " = "x y".
Proof. repeat split; reflexivity. Qed.

End Scenarios.

(* ===================================================================== *)
(** ** Further properties of the code *)
(* ===================================================================== *)

Section CommitFacts.
Context `{Collaborators}.

Lemma append_nonempty_neq (p t : string) : t <> EmptyString -> String.append p t <> p.
Proof.
  intros Ht. induction p as [|c p IH]; simpl.
  - done.
  - intros [= E]. by apply IH.
Qed.

Lemma backup_path_neq p ts : backup_path p ts <> p.
Proof. unfold backup_path. by apply append_nonempty_neq. Qed.

(** Every way a commit can go. *)
Lemma commit_run p skip doc w r w' :
  commit p skip doc w = (r, w') ->
  if fs_refuses (first_request p skip w) (files w) then
    r = Raise Py.OSError /\ files w' = files w
  else
    match files w !! p with
    | None => r = Raise Py.FileNotFoundError /\ files w' = files w
    | Some raw =>
        match binary_dumps doc with
        | None => r = Raise Py.CodecError /\ files w' = moved_aside p skip w
        | Some b =>
            if fs_refuses (OpCreate p) (moved_aside p skip w) then
              r = Raise Py.OSError /\ files w' = moved_aside p skip w
            else if fs_refuses (OpWrite p)
                      (<[p := empty_bytes]> (moved_aside p skip w)) then
              r = Raise Py.OSError
              /\ files w' = <[p := empty_bytes]> (moved_aside p skip w)
            else
              r = Ret tt /\ files w' = <[p := b]> (moved_aside p skip w)
        end
    end.
Proof.
  intros E. unfold commit in E. unfold first_request, moved_aside.
  assert (forall w0,
    (new_bytes <- or_raise Py.CodecError (binary_dumps doc);;
     write_file p new_bytes;;;
     print "Updated `shortcuts.vdf` successfully!";;;
     print EmptyString;;; print "➡   Restart Steam!") w0 = (r, w') ->
    match binary_dumps doc with
    | None => r = Raise Py.CodecError /\ files w' = files w0
    | Some b =>
        if fs_refuses (OpCreate p) (files w0) then
          r = Raise Py.OSError /\ files w' = files w0
        else if fs_refuses (OpWrite p) (<[p := empty_bytes]> (files w0)) then
          r = Raise Py.OSError /\ files w' = <[p := empty_bytes]> (files w0)
        else r = Ret tt /\ files w' = <[p := b]> (files w0)
    end) as Htail.
  { intros w0 E0. unfold bind at 1 in E0.
    destruct (binary_dumps doc) as [b|]; cbn [or_raise] in E0.
    - unfold ret at 1 in E0. unfold bind at 1 in E0.
      rewrite write_file_run in E0.
      destruct (fs_refuses (OpCreate p) (files w0)).
      + by injection E0 as <- <-.
      + destruct (fs_refuses (OpWrite p) _).
        * by injection E0 as <- <-.
        * unfold bind, print, emit in E0. by injection E0 as <- <-.
    - unfold raise in E0. by injection E0 as <- <-. }
  destruct skip.
  - unfold bind at 1 in E. unfold bind at 1 in E. rewrite print_run in E.
    unfold os_remove in E.
    change (files (log [Printed "Not backing up `shortcuts.vdf` since you enjoy danger"] w))
      with (files w) in E.
    destruct (fs_refuses (OpRemove p) (files w)); [by injection E as <- <-|].
    destruct (files w !! p) as [raw|] eqn:Ef; [|by injection E as <- <-].
    apply Htail in E. exact E.
  - unfold bind at 1 in E. unfold bind at 1 in E. unfold strftime at 1 in E.
    unfold bind at 1 in E. rewrite print_run in E. unfold os_rename in E.
    fold (backup_path p (clock w)) in E.
    match type of E with
    | context [files (log ?l w)] => change (files (log l w)) with (files w) in E
    end.
    destruct (fs_refuses (OpRename p (backup_path p (clock w))) (files w));
      [by injection E as <- <-|].
    destruct (files w !! p) as [raw|] eqn:Ef; [|by injection E as <- <-].
    apply Htail in E. exact E.
Qed.

End CommitFacts.

Section StoreFacts.
Context `{Collaborators}.


(** X1. Without a shortcuts file the function returns the not-found
    message; the disk is what it was and the run printed, nothing else. *)
Theorem store_missing_reports steamdb user games skip use_uri repl dl w :
  files w !! shortcut_file_path_of steamdb user = None ->
  exists w',
    add_games_to_shortcut_file steamdb user games skip use_uri repl dl w
    = (Ret (None, Some (not_found_message (shortcut_file_path_of steamdb user))), w')
    /\ files w' = files w
    /\ forallb console_event (new_events w w') = true
    /\ Printed (not_found_message (shortcut_file_path_of steamdb user))
       ∈ new_events w w'.
Proof.
  intros Hf.
  destruct (add_games_to_shortcut_file steamdb user games skip use_uri repl dl w)
    as [r w'] eqn:Hrun.
  unfold add_games_to_shortcut_file in Hrun.
  destruct (print_notice_run use_uri w) as (ev0 & E0 & C0).
  rewrite (bind_Ret _ _ _ _ _ E0) in Hrun.
  unfold bind at 1 in Hrun. unfold path_exists at 1 in Hrun.
  change (files (log ev0 w)) with (files w) in Hrun. rewrite Hf in Hrun.
  rewrite bool_decide_false in Hrun by (by intros [? ?]).
  cbn [negb] in Hrun. unfold bind, print, emit in Hrun. rewrite log_log in Hrun.
  injection Hrun as <- <-. eexists. split; [done|]. split; [done|].
  unfold new_events. cbn [trace log]. rewrite drop_app_length. split.
  - by rewrite forallb_app, C0.
  - apply elem_of_app. right. apply elem_of_cons. by left.
Qed.

Lemma committed_files steamdb user games skip use_uri repl dl w results n w' :
  add_games_to_shortcut_file steamdb user games skip use_uri repl dl w
  = (Ret (Some (results, n), None), w') ->
  exists raw doc entries last b,
    loaded steamdb user games dl w doc entries last
    /\ usable_store steamdb user w raw doc entries last
    /\ binary_dumps
         (with_shortcuts doc (merged_entries use_uri repl entries last games))
       = Some b
    /\ files w'
       = <[shortcut_file_path_of steamdb user := b]>
           (moved_aside (shortcut_file_path_of steamdb user) skip w).
Proof.
  intros Hrun.
  destruct (add_games_Ret _ _ _ _ _ _ _ _ _ _ Hrun)
    as [(_ & [=] & _)|(doc & entries & last & evs & w1 & Hl & Hq & _ & _ & Hst)].
  cbv zeta in Hst. destruct Hst as [(_ & [=] & _)|(Hnz & Hr & Hc)].
  pose proof (loaded_shape _ _ _ _ _ _ _ _ use_uri repl Hl) as Hshape.
  cbv zeta in Hshape. rewrite Hshape in Hc. cbn [shortcuts_map] in Hc.
  fold (merged_entries use_uri repl entries last games) in Hc.
  apply commit_run in Hc.
  destruct Hq as (Hf & _ & Hclock & _).
  assert (moved_aside (shortcut_file_path_of steamdb user) skip w1
          = moved_aside (shortcut_file_path_of steamdb user) skip w) as Hm.
  { unfold moved_aside. by rewrite Hf, Hclock. }
  rewrite Hm, Hf in Hc.
  destruct (fs_refuses _ (files w)); [by destruct Hc|].
  pose proof Hl as (Hd & Hs & _ & Hlast).
  unfold read_document in Hd.
  destruct (files w !! shortcut_file_path_of steamdb user) as [raw|] eqn:Ef;
    [|by destruct Hc].
  simpl in Hd.
  destruct (binary_dumps _) as [b|] eqn:Eb; [|by destruct Hc].
  destruct (fs_refuses (OpCreate _) _); [by destruct Hc|].
  destruct (fs_refuses (OpWrite _) _); [by destruct Hc|].
  destruct Hc as [_ Hc]. exists raw, doc, entries, last, b.
  split; [done|]. split; [done|]. split; [exact Eb|done].
Qed.

(** X2. With backups on, a run that wrote the store leaves this disk:
    the bytes the file had are under the backup name (the path, a dash,
    the time stamp and [.bak]), the path holds the encoding of the
    document that was read with the merged entries under ["shortcuts"],
    and every other file is as it was. *)
Theorem backup_keeps_original steamdb user games use_uri repl dl w results n w' :
  add_games_to_shortcut_file steamdb user games false use_uri repl dl w
  = (Ret (Some (results, n), None), w') ->
  let p := shortcut_file_path_of steamdb user in
  exists raw doc entries last b,
    usable_store steamdb user w raw doc entries last
    /\ binary_dumps
         (with_shortcuts doc (merged_entries use_uri repl entries last games))
       = Some b
    /\ files w'
       = <[p := b]> (<[backup_path p (clock w) := raw]> (delete p (files w)))
    /\ files w' !! backup_path p (clock w) = Some raw
    /\ files w' !! p = Some b.
Proof.
  intros Hrun p.
  destruct (committed_files _ _ _ _ _ _ _ _ _ _ _ Hrun)
    as (raw & doc & entries & last & b & _ & Hu & Hb & Hw).
  pose proof Hu as (Hf & _).
  fold p in Hf, Hw. unfold moved_aside in Hw. rewrite Hf in Hw.
  exists raw, doc, entries, last, b. split; [done|]. split; [done|].
  split; [done|]. rewrite Hw. split.
  - rewrite lookup_insert_ne by (symmetry; apply backup_path_neq).
    apply lookup_insert_eq.
  - apply lookup_insert_eq.
Qed.

(** X3. With backups off, a run that wrote the store has changed the
    file under the path and no other: the path holds the encoding of the
    document that was read with the merged entries under ["shortcuts"],
    and no backup appears. *)
Theorem no_backup_writes_in_place steamdb user games use_uri repl dl w results n w' :
  add_games_to_shortcut_file steamdb user games true use_uri repl dl w
  = (Ret (Some (results, n), None), w') ->
  exists raw doc entries last b,
    usable_store steamdb user w raw doc entries last
    /\ binary_dumps
         (with_shortcuts doc (merged_entries use_uri repl entries last games))
       = Some b
    /\ files w' = <[shortcut_file_path_of steamdb user := b]> (files w).
Proof.
  intros Hrun.
  destruct (committed_files _ _ _ _ _ _ _ _ _ _ _ Hrun)
    as (raw & doc & entries & last & b & _ & Hu & Hb & Hw).
  unfold moved_aside in Hw. rewrite insert_delete_eq in Hw.
  by exists raw, doc, entries, last, b.
Qed.



(** X6. A run that wrote the store wrote the document it had read with
    the map under ["shortcuts"] replaced: the top-level keys are the
    same, in the same order, and every other key has its value. *)
Theorem other_document_keys_kept steamdb user games skip use_uri repl dl w
    results n w' :
  add_games_to_shortcut_file steamdb user games skip use_uri repl dl w
  = (Ret (Some (results, n), None), w') ->
  exists top top' b,
    read_document steamdb user w = Some (VDict top)
    /\ files w' !! shortcut_file_path_of steamdb user = Some b
    /\ binary_dumps (VDict top') = Some b
    /\ Py.dict_keys top' = Py.dict_keys top
    /\ (forall k, k <> "shortcuts"%string -> Py.dict_get k top' = Py.dict_get k top)
    /\ forall i k v, top !! i = Some (k, v) -> k <> "shortcuts"%string ->
         top' !! i = Some (k, v).
Proof.
  intros Hrun.
  destruct (committed_files _ _ _ _ _ _ _ _ _ _ _ Hrun)
    as (raw & doc & entries & last & b & Hl & _ & Hb & Hw).
  destruct Hl as (Hd & Hs & _).
  destruct (shortcuts_of_Some _ _ Hs) as (top & -> & Htop).
  cbn [with_shortcuts] in Hb.
  eexists top, _, b. split; [done|]. split; [rewrite Hw; apply lookup_insert_eq|].
  split; [exact Hb|]. split; [|split].
  - apply dict_set_keys. apply dict_get_in in Htop. by eapply elem_of_dict_keys.
  - intros k Hk. apply dict_get_set_ne. congruence.
  - intros i k v Hi Hk. apply dict_set_lookup_ne; [done|congruence].
Qed.

(** X7. A run that wrote the store wrote every old entry that no
    replacement was aimed at, at its place and unchanged: all of them
    without [replace_existing], and with it those whose index no
    selected record is sent to. *)
Theorem unmatched_entries_kept steamdb user games skip use_uri repl dl w
    results n w' :
  add_games_to_shortcut_file steamdb user games skip use_uri repl dl w
  = (Ret (Some (results, n), None), w') ->
  exists entries m,
    read_store steamdb user w = Some entries
    /\ written_store steamdb user w' m
    /\ forall i k v,
         entries !! i = Some (k, v) ->
         (repl = false
          \/ forall g, g ∈ games ->
               indexed (build_index entries []) use_uri g <> Some k) ->
         m !! i = Some (k, v).
Proof.
  intros Hrun.
  destruct (add_games_Ret _ _ _ _ _ _ _ _ _ _ Hrun)
    as [(_ & [=] & _)|(doc & entries & last & evs & w1 & Hl & Hq & _ & _ & Hst)].
  cbv zeta in Hst. destruct Hst as [(_ & [=] & _)|(Hnz & Hr & Hc)].
  pose proof (loaded_shape _ _ _ _ _ _ _ _ use_uri repl Hl) as Hshape.
  cbv zeta in Hshape. rewrite Hshape in Hc. cbn [shortcuts_map] in Hc.
  destruct Hl as (Hd & Hs & _).
  eexists entries, _. split; [unfold read_store; by rewrite Hd|].
  split; [by eapply committed_store|].
  intros i k v Hi Hk. apply lookup_app_l_Some.
  destruct repl; [|done]. destruct Hk as [|Hk]; [done|].
  apply replace_all_lookup_ne; [|done].
  intros g j Hg Hj ->. by eapply Hk.
Qed.

(** X8. The count and the messages add up: a run that wrote the store
    returns a count between 1 and the number of selected records; without
    [replace_existing] every selected record is either counted or has a
    skip message, and with it every record is counted and there are no
    messages. *)
Theorem merge_accounting steamdb user games skip use_uri repl dl w results n w' :
  add_games_to_shortcut_file steamdb user games skip use_uri repl dl w
  = (Ret (Some (results, n), None), w') ->
  1 <= n <= Z.of_nat (length games)
  /\ (if repl then results = [] /\ n = Z.of_nat (length games)
      else Z.of_nat (length results) + n = Z.of_nat (length games)).
Proof.
  intros Hrun.
  destruct (add_games_Ret _ _ _ _ _ _ _ _ _ _ Hrun)
    as [(_ & [=] & _)|(doc & entries & last & evs & w1 & Hl & Hq & _ & _ & Hst)].
  cbv zeta in Hst. destruct Hst as [(_ & [=] & _)|(Hnz & Hr & Hc)].
  pose proof (loaded_shape _ _ _ _ _ _ _ _ use_uri repl Hl) as Hshape.
  cbv zeta in Hshape. rewrite Hshape in Hr, Hnz.
  cbn [added game_results] in Hr, Hnz. injection Hr as -> ->.
  pose proof (found_unfound_length (build_index entries []) use_uri games) as Hlen.
  destruct repl.
  - split; [lia|]. split; [done|lia].
  - rewrite ?app_nil_l, ?length_app, ?length_fmap. simpl. split; lia.
Qed.

(** X9. A shortcuts file that is there and cannot be used, because the
    codec rejects it, or it has no map under ["shortcuts"], or one of the
    indexes is ASCII text that is not a number, makes the run end in an
    exception with the disk as it was and console output only. *)
Theorem unusable_store_raises steamdb user games skip use_uri repl dl w raw :
  files w !! shortcut_file_path_of steamdb user = Some raw ->
  binary_load raw = None
  \/ (exists doc, binary_load raw = Some doc /\ shortcuts_of doc = None)
  \/ (exists doc entries k,
        binary_load raw = Some doc /\ shortcuts_of doc = Some entries
        /\ k ∈ Py.dict_keys entries /\ Py.isascii k = true /\ Py.int k = None) ->
  exists e w',
    add_games_to_shortcut_file steamdb user games skip use_uri repl dl w
    = (Raise e, w')
    /\ files w' = files w
    /\ forallb console_event (new_events w w') = true.
Proof.
  intros Hf Hbad.
  assert (forall doc entries last, ~ loaded steamdb user games dl w doc entries last)
    as Hnl.
  { intros doc entries last (Hd & Hs & _ & Hlast).
    unfold read_document in Hd. rewrite Hf in Hd. simpl in Hd.
    destruct Hbad
      as [Hb|[(doc' & Hb & Hs')|(doc' & entries' & k & Hb & Hs' & Hk & _ & Hi)]].
    - congruence.
    - congruence.
    - rewrite Hb in Hd. injection Hd as ->. rewrite Hs' in Hs. injection Hs as ->.
      destruct (find_last_index_bound _ _ _ Hlast Hk) as (i & Hi' & _). congruence. }
  destruct (add_games_cases steamdb user games skip use_uri repl dl w)
    as [(Hf' & _)|[(e & evs & w1 & Hr & Hq & _)|
                  (doc & entries & last & evs & w1 & Hl & _)]].
  - congruence.
  - exists e, w1. split; [done|]. split; [apply Hq|].
    rewrite (quiet_new_events _ _ _ Hq). apply Hq.
  - by apply Hnl in Hl.
Qed.

End StoreFacts.

Section IndexLookup.
Context `{Collaborators}.

Lemma index_get_skip post acc t :
  (forall k v, (k, v) ∈ post -> launch_target v <> Some (VStr t)) ->
  path_to_index_get t (build_index post acc) = path_to_index_get t acc.
Proof.
  revert acc. induction post as [|[k v] post IH]; intros acc Hno; [done|].
  assert (forall k' v', (k', v') ∈ post -> launch_target v' <> Some (VStr t)) as Hno'.
  { intros k' v' Hin. apply (Hno k'). apply elem_of_cons. by right. }
  simpl. destruct (launch_target v) as [e|] eqn:E; [|by apply IH].
  rewrite IH by done. simpl.
  destruct e as [p| | |]; try done.
  destruct (String.eqb_spec t p); [|done]. subst.
  exfalso. eapply (Hno k v); [apply elem_of_cons; by left|done].
Qed.

Lemma index_get_last pre k v post t :
  launch_target v = Some (VStr t) ->
  (forall k' v', (k', v') ∈ post -> launch_target v' <> Some (VStr t)) ->
  path_to_index_get t (build_index (pre ++ (k, v) :: post) []) = Some k.
Proof.
  intros Hv Hpost. rewrite build_index_app. cbn [build_index]. rewrite Hv.
  rewrite index_get_skip by done. simpl. by rewrite String.eqb_refl.
Qed.

(** X10. The index the indexing loop returns answers a target with the
    index of the last entry that launches it: of several entries with
    one target, the later hides the earlier. *)
Theorem index_answers_last_entry user games dl pre k v post t pti n w w' :
  index_existing user games dl (pre ++ (k, v) :: post) [] 0 w = (Ret (pti, n), w') ->
  launch_target v = Some (VStr t) ->
  (forall k' v', (k', v') ∈ post -> launch_target v' <> Some (VStr t)) ->
  path_to_index_get t pti = Some k.
Proof.
  intros Hrun Hv Hpost.
  pose proof (index_existing_run user games dl (pre ++ (k, v) :: post) [] 0 w) as Hi.
  rewrite Hrun in Hi. destruct Hi as (_ & -> & _). by apply index_get_last.
Qed.

(** X11. What [to_shortcut] builds is found again: when an entry built
    for a record with a non-empty executable path is the last entry of a
    store under a non-empty index, the index the indexing loop returns
    sends the record to that index, in either mode. *)
Theorem built_shortcut_is_found user games dl entries k g use_uri pti n w w' :
  executable_path g <> EmptyString ->
  k <> EmptyString ->
  index_existing user games dl (entries ++ [(k, to_shortcut g use_uri)]) [] 0 w
  = (Ret (pti, n), w') ->
  indexed pti use_uri g = Some k.
Proof.
  intros Hp Hk Hrun. unfold indexed.
  pose proof (index_existing_run user games dl
                (entries ++ [(k, to_shortcut g use_uri)]) [] 0 w) as Hi.
  rewrite Hrun in Hi. destruct Hi as (_ & -> & _).
  rewrite (index_get_last entries k (to_shortcut g use_uri) []
             (launch_string g use_uri)).
  - simpl. by destruct (String.eqb_spec k EmptyString).
  - rewrite launch_target_to_shortcut.
    pose proof (launch_string_nonempty g use_uri Hp).
    by destruct (String.eqb_spec (launch_string g use_uri) EmptyString).
  - intros k' v' Hin. inversion Hin.
Qed.

End IndexLookup.

Section SelectionFacts.
Context `{Collaborators}.

Lemma after_reading_refl w : after_reading [] w w.
Proof.
  unfold after_reading. do 4 (split; [done|]). exists []. by rewrite app_nil_r.
Qed.

Lemma after_reading_log evs w :
  forallb console_event evs = true -> after_reading [] w (log evs w).
Proof. intros Hc. unfold after_reading. do 4 (split; [done|]). by exists evs. Qed.

Lemma after_reading_trans l1 l2 w w1 w2 :
  after_reading l1 w w1 -> after_reading l2 w1 w2 -> after_reading (l1 ++ l2) w w2.
Proof.
  intros (S1 & F1 & A1 & C1 & e1 & T1 & P1) (S2 & F2 & A2 & C2 & e2 & T2 & P2).
  unfold after_reading. rewrite S1, S2, F2, A2, C2, <- app_assoc.
  do 4 (split; [done|]). exists (e1 ++ e2).
  rewrite T2, T1, <- app_assoc, forallb_app, P1, P2. done.
Qed.

Lemma input_run prompt w :
  match stdin w with
  | [] => input prompt w = (Raise Py.EOFError, log [Prompted prompt] w)
  | line :: rest =>
      exists w', input prompt w = (Ret line, w') /\ after_reading [line] w w'
  end.
Proof.
  unfold input. destruct (stdin w) as [|line rest] eqn:E; [done|].
  eexists. split; [done|]. unfold after_reading. simpl. rewrite E.
  do 4 (split; [done|]). by exists [Prompted prompt].
Qed.

Lemma getitem_elem {A} (xs : list A) i x : Py.list_getitem xs i = Some x -> x ∈ xs.
Proof.
  unfold Py.list_getitem.
  destruct (_ && _)%bool; [intros Hx; apply list_elem_of_lookup; eauto|].
  destruct (_ && _)%bool; [intros Hx; apply list_elem_of_lookup; eauto|done].
Qed.

Lemma names_row_getitem {A} (table : list A) field x :
  names_row table field x ->
  exists n, Py.int (Py.strip field) = Some n /\ Py.list_getitem table (n - 1) = Some x.
Proof.
  intros (n & Hn & Hr & Hx). exists n. split; [done|].
  unfold Py.list_getitem.
  replace ((0 <=? n - 1) && (n - 1 <? Z.of_nat (length table)))%bool with true; [done|].
  symmetry. apply andb_true_iff. split; [apply Z.leb_le|apply Z.ltb_lt]; lia.
Qed.


Lemma filter_games_loop_bad games pre bad post acc sel w :
  Forall2 (names_row games) pre sel ->
  Py.int (Py.strip bad) = None ->
  filter_games_loop games (pre ++ bad :: post) acc w
  = (Ret None, log [Printed (expected_number_message (Py.strip bad))] w).
Proof.
  intros Hall Hbad. revert acc. induction Hall as [|f g fields sel Hf Hall IH]; intros acc.
  - cbn [app filter_games_loop]. rewrite Hbad. reflexivity.
  - cbn [app filter_games_loop].
    destruct (names_row_getitem _ _ _ Hf) as (n & -> & Hg).
    unfold bind at 1. rewrite Hg. cbn [or_raise]. unfold ret at 1. apply IH.
Qed.

(** Whatever the fields, the loop reads nothing, touches no file and
    selects rows of the table only. *)
Lemma filter_games_loop_run games fields acc w r w' :
  (forall g, g ∈ acc -> g ∈ games) ->
  filter_games_loop games fields acc w = (r, w') ->
  after_reading [] w w'
  /\ match r with
     | Ret (Some l) => forall g, g ∈ l -> g ∈ games
     | Ret None => True
     | Raise e => e = Py.IndexError
     | Spin => False
     end.
Proof.
  revert acc w. induction fields as [|f fields IH]; intros acc w Hacc Hrun.
  - simpl in Hrun. unfold bind, print, emit, ret in Hrun. injection Hrun as <- <-.
    split; [by apply after_reading_log|done].
  - cbn [filter_games_loop] in Hrun.
    destruct (Py.int (Py.strip f)) as [n|].
    + unfold bind at 1 in Hrun.
      destruct (Py.list_getitem games (n - 1)) as [g|] eqn:Eg; cbn [or_raise] in Hrun.
      * unfold ret at 1 in Hrun. apply IH in Hrun; [done|].
        intros g' [Hg'|Hg']%elem_of_app; [by apply Hacc|].
        apply list_elem_of_singleton in Hg' as ->. by eapply getitem_elem.
      * unfold raise in Hrun. injection Hrun as <- <-.
        split; [apply after_reading_refl|done].
    + unfold bind, print, emit, ret in Hrun. injection Hrun as <- <-.
      split; [by apply after_reading_log|done].
Qed.

Lemma filter_games_step games w line rest :
  stdin w = line :: rest ->
  exists w1,
    after_reading [line] w w1
    /\ filter_games games w
       = if String.eqb (Py.strip line) EmptyString then (Ret (Some games), w1)
         else filter_games_loop games (Py.split_on "," (Py.strip line)) [] w1.
Proof.
  intros Hin. unfold filter_games. unfold bind at 1. rewrite print_run.
  unfold bind at 1.
  pose proof (input_run ": " (log [Printed which_games_message] w)) as Hi.
  change (stdin (log [Printed which_games_message] w)) with (stdin w) in Hi.
  rewrite Hin in Hi. destruct Hi as (w1 & Hi & Hr).
  unfold which_games_message in Hi. rewrite Hi.
  exists w1. split.
  - change [line] with ([] ++ [line]). eapply after_reading_trans; [|exact Hr].
    by apply after_reading_log.
  - by destruct (String.eqb (Py.strip line) EmptyString).
Qed.


(** X13. In an answer of plain text (ASCII, within the digit cap), a
    field that is not a number, after fields that name rows, makes
    [filter_games] return [None] and print the error line with the field,
    white space stripped: what was selected so far is dropped. *)
Theorem filter_games_bad_token games w line rest pre bad post selected :
  stdin w = line :: rest ->
  plain_text line ->
  Py.strip line <> EmptyString ->
  Py.split_on "," (Py.strip line) = (pre ++ bad :: post)%list ->
  Forall2 (names_row games) pre selected ->
  Py.int (Py.strip bad) = None ->
  exists w',
    filter_games games w = (Ret None, w')
    /\ after_reading [line] w w'
    /\ Printed (expected_number_message (Py.strip bad)) ∈ new_events w w'.
Proof.
  intros Hin _ Hne Hsplit Hall Hbad.
  destruct (filter_games_step games w line rest Hin) as (w1 & Hr & Hrun).
  destruct (String.eqb_spec (Py.strip line) EmptyString); [done|].
  rewrite Hsplit, (filter_games_loop_bad _ _ _ _ [] selected w1 Hall Hbad) in Hrun.
  eexists. split; [exact Hrun|]. split.
  - rewrite <- (app_nil_r [line]). eapply after_reading_trans; [exact Hr|].
    by apply after_reading_log.
  - destruct Hr as (_ & _ & _ & _ & evs & Ht & _).
    unfold new_events. cbn [trace log]. rewrite Ht, <- app_assoc, drop_app_length.
    apply elem_of_app. right. apply elem_of_cons. by left.
Qed.

Lemma filter_games_run games w r w' :
  filter_games games w = (r, w') ->
  match r with
  | Ret (Some l) =>
      (forall g, g ∈ l -> g ∈ games) /\ exists line, after_reading [line] w w'
  | Ret None => exists line, after_reading [line] w w'
  | Raise e =>
      (e = Py.EOFError /\ stdin w = [] /\ after_reading [] w w')
      \/ (e = Py.IndexError /\ exists line, after_reading [line] w w')
  | Spin => False
  end.
Proof.
  intros Hrun. destruct (stdin w) as [|line rest] eqn:Hin.
  - unfold filter_games in Hrun. unfold bind at 1 in Hrun. rewrite print_run in Hrun.
    unfold bind at 1 in Hrun.
    pose proof (input_run ": " (log [Printed which_games_message] w)) as Hi.
    change (stdin (log [Printed which_games_message] w)) with (stdin w) in Hi.
    rewrite Hin in Hi. unfold which_games_message in Hi. rewrite Hi in Hrun.
    injection Hrun as <- <-. left. split; [done|]. split; [done|].
    rewrite log_log. by apply after_reading_log.
  - destruct (filter_games_step games w line rest Hin) as (w1 & Hr & Hstep).
    rewrite Hstep in Hrun.
    destruct (String.eqb (Py.strip line) EmptyString).
    + injection Hrun as <- <-. split; [done|]. by exists line.
    + apply filter_games_loop_run in Hrun as [Hr2 Hres];
        [|intros g Hg; inversion Hg].
      assert (after_reading [line] w w') as Hr3.
      { rewrite <- (app_nil_r [line]). by eapply after_reading_trans. }
      destruct r as [[l|]|e|]; [| | |done].
      * split; [done|]. by exists line.
      * by exists line.
      * right. split; [done|]. by exists line.
Qed.

Lemma pick_games_run fuel games w :
  match pick_games fuel games w with
  | (Ret l, w') =>
      l <> [] /\ (forall g, g ∈ l -> g ∈ games)
      /\ exists lines, after_reading lines w w'
  | (Raise e, w') =>
      (e = Py.EOFError \/ e = Py.IndexError)
      /\ exists lines, after_reading lines w w'
  | (Spin, _) => (fuel <= length (stdin w))%nat
  end.
Proof.
  revert w. induction fuel as [|fuel IH]; intros w; [simpl; lia|].
  cbn [pick_games]. unfold bind.
  destruct (filter_games games w) as [r w1] eqn:Hf.
  apply filter_games_run in Hf.
  assert (forall line, after_reading [line] w w1 ->
    match pick_games fuel games w1 with
    | (Ret l, w') =>
        l <> [] /\ (forall g, g ∈ l -> g ∈ games)
        /\ exists lines, after_reading lines w w'
    | (Raise e, w') =>
        (e = Py.EOFError \/ e = Py.IndexError)
        /\ exists lines, after_reading lines w w'
    | (Spin, _) => (S fuel <= length (stdin w))%nat
    end) as Hnext.
  { intros line Hr. specialize (IH w1).
    destruct (pick_games fuel games w1) as [[l|e|] w2].
    - destruct IH as (? & ? & lines & Hr2). do 2 (split; [done|]).
      exists ([line] ++ lines). by eapply after_reading_trans.
    - destruct IH as (? & lines & Hr2). split; [done|].
      exists ([line] ++ lines). by eapply after_reading_trans.
    - destruct Hr as (-> & _). simpl. lia. }
  destruct r as [[[|g l]|]|e|]; [| | | |done].
  - destruct Hf as (_ & line & Hr). by apply (Hnext line).
  - unfold ret. destruct Hf as (Hsub & line & Hr). split; [done|]. split; [done|].
    by exists [line].
  - destruct Hf as (line & Hr). by apply (Hnext line).
  - destruct Hf as [(-> & _ & Hr)|(-> & line & Hr)].
    + split; [by left|]. by exists [].
    + split; [by right|]. by exists [line].
Qed.

(** X14. The selection loop of [main]: a selection it returns is not
    empty and is made of rows of the table; it ends in [EOFError] or
    [IndexError] otherwise; each round reads a line, so it is still
    running only when the rounds allowed are no more than the lines to
    read; and it never touches the disk. *)
Theorem pick_games_ends fuel games w :
  match pick_games fuel games w with
  | (Ret l, w') =>
      l <> [] /\ (forall g, g ∈ l -> g ∈ games)
      /\ exists lines, after_reading lines w w'
  | (Raise e, w') =>
      (e = Py.EOFError \/ e = Py.IndexError)
      /\ exists lines, after_reading lines w w'
  | (Spin, _) => (fuel <= length (stdin w))%nat
  end.
Proof. apply pick_games_run. Qed.

(** X15. Without any game in the table the selection loop cannot
    succeed: given more rounds than there are lines to read it ends in
    [EOFError] or [IndexError], the disk as it was. *)
Theorem pick_games_without_games fuel w :
  (length (stdin w) < fuel)%nat ->
  exists e w',
    pick_games fuel [] w = (Raise e, w')
    /\ (e = Py.EOFError \/ e = Py.IndexError)
    /\ files w' = files w.
Proof.
  intros Hfuel. pose proof (pick_games_run fuel [] w) as Hp.
  destruct (pick_games fuel [] w) as [[l|e|] w'].
  - destruct Hp as (Hne & Hsub & _). destruct l as [|g l]; [done|].
    exfalso. specialize (Hsub g). rewrite elem_of_nil in Hsub. apply Hsub.
    apply elem_of_cons. by left.
  - destruct Hp as (He & lines & Hr). exists e, w'. split; [done|]. split; [done|].
    apply Hr.
  - lia.
Qed.

End SelectionFacts.

Section AccountFacts.
Context `{Collaborators}.

Lemma print_accounts_rows_run i accounts w :
  exists evs, print_accounts_rows i accounts w = (Ret tt, log evs w)
              /\ forallb console_event evs = true.
Proof.
  revert i w. induction accounts as [|a accounts IH]; intros i w.
  - exists []. unfold log. rewrite app_nil_r. by destruct w.
  - cbn [print_accounts_rows]. unfold bind. rewrite print_run.
    destruct (IH (i + 1) (log [Printed (accounts_row (Py.str i) (steamid a) (username a))] w))
      as (evs & -> & Hc).
    rewrite log_log. eexists. split; [done|]. by rewrite forallb_app, Hc.
Qed.

Lemma print_games_rows_run i games w :
  exists evs, print_games_rows i games w = (Ret tt, log evs w)
              /\ forallb console_event evs = true.
Proof.
  revert i w. induction games as [|g games IH]; intros i w.
  - exists []. unfold log. rewrite app_nil_r. by destruct w.
  - cbn [print_games_rows]. unfold bind. rewrite print_run.
    match goal with
    | |- context [print_games_rows _ _ (log ?l w)] =>
        destruct (IH (i + 1) (log l w)) as (evs & -> & Hc)
    end.
    rewrite log_log. eexists. split; [done|]. by rewrite forallb_app, Hc.
Qed.

Lemma print_games_run games w :
  exists evs, print_games games w = (Ret tt, log evs w)
              /\ forallb console_event evs = true.
Proof.
  unfold print_games, bind. rewrite !print_run, log_log.
  match goal with
  | |- context [print_games_rows _ _ (log ?l w)] =>
      destruct (print_games_rows_run 1 games (log l w)) as (evs & -> & Hc)
  end.
  rewrite log_log. eexists. split; [done|]. by rewrite forallb_app, Hc.
Qed.

(** The prompt up to the answer, for a table that is not a single row. *)
Lemma prompt_step accounts first w :
  length accounts <> 1%nat ->
  accounts !! 0%nat = Some first ->
  match stdin w with
  | [] =>
      exists w', prompt_for_steam_account accounts w = (Raise Py.EOFError, w')
                 /\ after_reading [] w w'
  | line :: rest =>
      exists w1,
        after_reading [line] w w1
        /\ prompt_for_steam_account accounts w
           = let choice := Py.strip line in
             if String.eqb choice EmptyString then (Ret (Some (steamid first)), w1)
             else if bool_decide (choice ∈ steamid <$> accounts)
                  then (Ret (Some choice), w1)
                  else
                    match Py.int choice with
                    | Some idx =>
                        if (idx <=? Z.of_nat (length accounts))%Z then
                          match Py.list_getitem accounts (idx - 1) with
                          | Some account => (Ret (Some (steamid account)), w1)
                          | None => (Raise Py.IndexError, w1)
                          end
                        else (Ret None, w1)
                    | None =>
                        (Ret None,
                         log [Printed (String.append
                                "Error: Expected number (1 for the first user) and not: '"
                                (String.append choice "'"))] w1)
                    end
  end.
Proof.
  intros Hlen Hfirst.
  assert (Py.list_getitem accounts 0 = Some first) as Hg.
  { unfold Py.list_getitem. destruct accounts as [|a l]; [done|].
    simpl in Hfirst. injection Hfirst as ->.
    replace ((0 <=? 0) && (0 <? Z.of_nat (length (first :: l))))%bool with true; [done|].
    symmetry. apply andb_true_iff. split; [done|]. apply Z.ltb_lt. simpl. lia. }
  destruct accounts as [|a [|a' l]]; [done|done|].
  set (accounts := a :: a' :: l) in *.
  assert (exists evs,
    forallb console_event evs = true
    /\ prompt_for_steam_account accounts w
       = bind (input ": ")
           (fun line =>
              let choice := Py.strip line in
              if String.eqb choice EmptyString then ret (Some (steamid first))
              else if bool_decide (choice ∈ steamid <$> accounts) then ret (Some choice)
              else
                match Py.int choice with
                | Some idx =>
                    if (idx <=? Z.of_nat (length accounts))%Z then
                      bind (or_raise Py.IndexError (Py.list_getitem accounts (idx - 1)))
                           (fun account => ret (Some (steamid account)))
                    else ret None
                | None =>
                    bind (print (String.append
                            "Error: Expected number (1 for the first user) and not: '"
                            (String.append choice "'")))
                         (fun _ => ret None)
                end) (log evs w)) as (evs & Hc & ->).
  { unfold prompt_for_steam_account. subst accounts. cbv iota. set (accounts := a :: a' :: l) in *.
    unfold bind at 1. rewrite print_run. unfold bind at 1. rewrite print_run.
    unfold bind at 1. rewrite print_run. rewrite !log_log.
    unfold bind at 1.
    match goal with
    | |- context [print_accounts_rows 1 accounts (log ?l w)] =>
        destruct (print_accounts_rows_run 1 accounts (log l w)) as (evs & -> & Hc)
    end.
    rewrite log_log. unfold bind at 1. rewrite Hg. cbn [or_raise]. unfold ret at 1.
    unfold bind at 1. rewrite print_run, log_log.
    eexists. split; [|reflexivity]. by rewrite !forallb_app, Hc. }
  pose proof (input_run ": " (log evs w)) as Hi.
  change (stdin (log evs w)) with (stdin w) in Hi.
  assert (after_reading [] w (log evs w)) as Hpre by (by apply after_reading_log).
  unfold bind at 1.
  destruct (stdin w) as [|line rest].
  - rewrite Hi. eexists. split; [done|]. rewrite log_log. apply after_reading_log.
    by rewrite forallb_app, Hc.
  - unfold bind at 1. destruct Hi as (w1 & -> & Hr). exists w1. split.
    { change [line] with ([] ++ [line]). by eapply after_reading_trans. }
    cbv zeta. destruct (String.eqb (Py.strip line) EmptyString); [done|].
    destruct (bool_decide _); [done|].
    destruct (Py.int (Py.strip line)) as [idx|]; [|by unfold bind; rewrite print_run].
    destruct (idx <=? _)%Z; [|done].
    unfold bind. destruct (Py.list_getitem accounts (idx - 1)); done.
Qed.


(** Every way the prompt can go. *)
Lemma prompt_run accounts w r w' :
  prompt_for_steam_account accounts w = (r, w') ->
  match r with
  | Ret (Some id) =>
      id ∈ steamid <$> accounts
      /\ ((length accounts = 1%nat /\ w' = w)
          \/ (length accounts <> 1%nat /\ exists line, after_reading [line] w w'))
  | Ret None => length accounts <> 1%nat /\ exists line, after_reading [line] w w'
  | Raise e =>
      (e = Py.EOFError \/ e = Py.IndexError)
      /\ exists lines, after_reading lines w w'
  | Spin => False
  end.
Proof.
  intros Hrun.
  destruct (decide (length accounts = 1%nat)) as [Hone|Hlen].
  { destruct accounts as [|a [|a' l]]; [done| |done].
    simpl in Hrun. unfold ret in Hrun. injection Hrun as <- <-.
    split; [|by left]. apply elem_of_cons. by left. }
  destruct (accounts !! 0%nat) as [first|] eqn:Hfirst.
  - pose proof (prompt_step accounts first w Hlen Hfirst) as Hp.
    destruct (stdin w) as [|line rest].
    + destruct Hp as (w1 & Hp & Hr). rewrite Hp in Hrun. injection Hrun as <- <-.
      split; [by left|]. by exists [].
    + destruct Hp as (w1 & Hr & Hp). rewrite Hp in Hrun. cbv zeta in Hrun.
      assert (forall id, id ∈ steamid <$> accounts ->
                id ∈ steamid <$> accounts
                /\ (length accounts = 1%nat /\ w1 = w
                    \/ length accounts <> 1%nat
                       /\ exists line, after_reading [line] w w1)) as Hok.
      { intros id Hid. split; [done|]. right. split; [done|]. by exists line. }
      destruct (String.eqb (Py.strip line) EmptyString).
      { injection Hrun as <- <-. apply Hok. apply list_elem_of_fmap.
        exists first. split; [done|]. apply list_elem_of_lookup. by exists 0%nat. }
      destruct (bool_decide (Py.strip line ∈ steamid <$> accounts)) eqn:Eb.
      { injection Hrun as <- <-. apply Hok. by apply bool_decide_eq_true in Eb. }
      destruct (Py.int (Py.strip line)) as [idx|].
      * destruct (idx <=? _)%Z.
        -- destruct (Py.list_getitem accounts (idx - 1)) as [a|] eqn:Eg.
           ++ injection Hrun as <- <-. apply Hok. apply list_elem_of_fmap.
              exists a. split; [done|]. by eapply getitem_elem.
           ++ injection Hrun as <- <-. split; [by right|]. by exists [line].
        -- injection Hrun as <- <-. split; [done|]. by exists line.
      * injection Hrun as <- <-. split; [done|]. exists line.
        rewrite <- (app_nil_r [line]). eapply after_reading_trans; [exact Hr|].
        by apply after_reading_log.
  - (* no account at all: the table is printed, then [accounts[0]] fails *)
    destruct accounts as [|a l]; [|done].
    unfold prompt_for_steam_account, bind in Hrun. rewrite !print_run in Hrun.
    cbn [print_accounts_rows Py.list_getitem or_raise] in Hrun.
    unfold ret, raise in Hrun. simpl in Hrun. injection Hrun as <- <-.
    split; [by right|]. exists []. rewrite !log_log. by apply after_reading_log.
Qed.

Lemma pick_account_run fuel accounts w :
  match pick_account fuel accounts w with
  | (Ret id, w') =>
      id <> EmptyString /\ id ∈ steamid <$> accounts
      /\ exists lines, after_reading lines w w'
  | (Raise e, w') =>
      (e = Py.EOFError \/ e = Py.IndexError)
      /\ exists lines, after_reading lines w w'
  | (Spin, _) =>
      (fuel <= length (stdin w))%nat
      \/ exists a, accounts = [a] /\ steamid a = EmptyString
  end.
Proof.
  revert w. induction fuel as [|fuel IH]; intros w; [simpl; left; lia|].
  cbn [pick_account]. unfold bind.
  destruct (prompt_for_steam_account accounts w) as [r w1] eqn:Hp.
  apply prompt_run in Hp.
  assert (forall lines, after_reading lines w w1 ->
            (length accounts <> 1%nat -> exists line, lines = [line]) ->
            (length accounts = 1%nat ->
             exists a, accounts = [a] /\ steamid a = EmptyString) ->
    match pick_account fuel accounts w1 with
    | (Ret id, w') =>
        id <> EmptyString /\ id ∈ steamid <$> accounts
        /\ exists lines, after_reading lines w w'
    | (Raise e, w') =>
        (e = Py.EOFError \/ e = Py.IndexError)
        /\ exists lines, after_reading lines w w'
    | (Spin, _) =>
        (S fuel <= length (stdin w))%nat
        \/ exists a, accounts = [a] /\ steamid a = EmptyString
    end) as Hnext.
  { intros lines Hr Hline Hone. specialize (IH w1).
    destruct (pick_account fuel accounts w1) as [[id|e|] w2].
    - destruct IH as (? & ? & lines2 & Hr2). do 2 (split; [done|]).
      exists (lines ++ lines2). by eapply after_reading_trans.
    - destruct IH as (? & lines2 & Hr2). split; [done|].
      exists (lines ++ lines2). by eapply after_reading_trans.
    - destruct IH as [IH|IH]; [|by right].
      destruct (decide (length accounts = 1%nat)) as [E|E]; [right; by apply Hone|].
      left. destruct (Hline E) as [line ->]. destruct Hr as (-> & _). simpl. lia. }
  destruct r as [[id|]|e|]; [| | |done].
  - destruct Hp as (Hid & Hw).
    destruct (String.eqb_spec id EmptyString) as [->|Hne].
    + destruct Hw as [(Hone & ->)|(Hlen & line & Hr)].
      * apply (Hnext []); [apply after_reading_refl|done|].
        intros _. destruct accounts as [|a [|a' l]]; [done| |done].
        exists a. split; [done|].
        apply list_elem_of_fmap in Hid as (a0 & Ha0 & Hin).
        apply list_elem_of_singleton in Hin as ->. done.
      * apply (Hnext [line]); [done|by eauto|done].
    + unfold ret. split; [done|]. split; [done|].
      destruct Hw as [(_ & ->)|(_ & line & Hr)].
      * exists []. apply after_reading_refl.
      * by exists [line].
  - destruct Hp as (Hlen & line & Hr). apply (Hnext [line]); [done|by eauto|done].
  - done.
Qed.

(** X17. The account loop of [main]: an id it returns is not empty and is
    the id of an enumerated account; it ends in [EOFError] or
    [IndexError] otherwise; it is still running only when the rounds
    allowed are no more than the lines to read, or when the only account
    has an empty id (then no round ever ends it); and it never touches
    the disk. *)
Theorem pick_account_ends fuel accounts w :
  match pick_account fuel accounts w with
  | (Ret id, w') =>
      id <> EmptyString /\ id ∈ steamid <$> accounts
      /\ exists lines, after_reading lines w w'
  | (Raise e, w') =>
      (e = Py.EOFError \/ e = Py.IndexError)
      /\ exists lines, after_reading lines w w'
  | (Spin, _) =>
      (fuel <= length (stdin w))%nat
      \/ exists a, accounts = [a] /\ steamid a = EmptyString
  end.
Proof. apply pick_account_run. Qed.

Lemma steamid_of_username_cases name accounts :
  steamid_of_username name accounts = name
  \/ steamid_of_username name accounts ∈ steamid <$> accounts.
Proof.
  unfold steamid_of_username.
  assert (forall acc,
    (acc = name \/ acc ∈ steamid <$> accounts) ->
    forall l, (forall a, a ∈ l -> a ∈ accounts) ->
    fold_left (fun id account =>
                 if String.eqb name (username account) then steamid account else id)
              l acc = name
    \/ fold_left (fun id account =>
                    if String.eqb name (username account) then steamid account else id)
                 l acc ∈ steamid <$> accounts) as Hgen.
  { intros acc Hacc l. revert acc Hacc. induction l as [|a l IH]; intros acc Hacc Hl.
    - done.
    - simpl. apply IH.
      + destruct (String.eqb name (username a)); [|done].
        right. apply list_elem_of_fmap. exists a. split; [done|].
        apply Hl. apply elem_of_cons. by left.
      + intros a' Ha'. apply Hl. apply elem_of_cons. by right. }
  apply Hgen; [by left|done].
Qed.

Lemma find_steamid_Some accounts id :
  id ∈ steamid <$> accounts ->
  exists user, List.find (fun user => String.eqb (steamid user) id) accounts = Some user.
Proof.
  intros (a & -> & Hin)%list_elem_of_fmap.
  induction accounts as [|a0 accounts IH]; [inversion Hin|].
  simpl. destruct (String.eqb_spec (steamid a0) (steamid a)); [by eexists|].
  apply IH. apply elem_of_cons in Hin as [->|]; done.
Qed.

Lemma isdigit_nonempty s : Py.isdigit s = true -> s <> EmptyString.
Proof. by destruct s. Qed.

(** X18. Account resolution in [main] for a [--steamid] of ASCII text:
    an account it returns is one of the enumerated accounts; for a
    numeric id it is the account with that id and nothing is read from
    the console; [StopIteration] ends it only for a numeric id no
    enumerated account has (a blank, a user name or an unknown name
    never do); and the disk is left alone. *)
Theorem resolve_account_outcomes fuel id accounts w :
  Py.isascii id = true ->
  match resolve_account fuel id accounts w with
  | (Ret user, w') =>
      user ∈ accounts
      /\ (Py.isdigit id = true -> steamid user = id /\ stdin w' = stdin w)
      /\ exists lines, after_reading lines w w'
  | (Raise e, w') =>
      ((e = Py.StopIteration /\ Py.isdigit id = true /\ id ∉ steamid <$> accounts)
       \/ e = Py.EOFError \/ e = Py.IndexError)
      /\ exists lines, after_reading lines w w'
  | (Spin, _) => True
  end.
Proof.
  intros _. unfold resolve_account.
  set (fyi := if (length accounts =? 1)%nat && negb (String.eqb id EmptyString)
              then [Printed "FYI: There is only one Steam account found on your computer, so you don't need to provide --steamid"]
              else []).
  assert ((if (length accounts =? 1)%nat && negb (String.eqb id EmptyString)
           then print "FYI: There is only one Steam account found on your computer, so you don't need to provide --steamid"
           else ret ()) w = (Ret tt, log fyi w)) as E0.
  { unfold fyi. destruct (_ && _)%bool; [done|].
    unfold ret, log. rewrite app_nil_r. by destruct w. }
  assert (forallb console_event fyi = true) as C0.
  { unfold fyi. by destruct (_ && _)%bool. }
  rewrite (bind_Ret _ _ _ _ _ E0).
  (* the id after the user-name lookup *)
  assert (exists id1 evs w1,
    (if negb (Py.isdigit id) && negb (String.eqb id EmptyString)
     then
       let username0 := id in
       let id' := steamid_of_username username0 accounts in
       if String.eqb username0 id'
       then
         print "⚠ ⚠ WARNING: ⚠ ⚠";;;
         print (String.append "SteamID for `" (String.append id' "` not found!"));;;
         print "The SteamID you provided could not be found on your local machine.";;;
         print "If you are providing the human readable name and not a numeric SteamID, make sure you spell it correctly";;;
         ret EmptyString
       else ret id'
     else ret id) (log fyi w) = (Ret id1, w1)
    /\ w1 = log evs w /\ forallb console_event evs = true
    /\ (id1 = EmptyString
        \/ id1 ∈ steamid <$> accounts
        \/ (id1 = id /\ Py.isdigit id = true))) as (id1 & evs & w1 & E1 & -> & C1 & Hid1).
  { destruct (Py.isdigit id) eqn:Ed; cbn [negb andb].
    - exists id, fyi, (log fyi w). split; [done|]. split; [done|]. split; [done|].
      right. right. done.
    - destruct (String.eqb_spec id EmptyString) as [->|Hne]; cbn [negb].
      + exists EmptyString, fyi, (log fyi w). split; [done|]. split; [done|].
        split; [done|]. by left.
      + cbv zeta.
        destruct (String.eqb_spec id (steamid_of_username id accounts)) as [Eq|Hneq].
        * unfold bind. rewrite !print_run, !log_log. eexists EmptyString, _, _.
          split; [reflexivity|]. split; [reflexivity|].
          split; [by rewrite !forallb_app, C0|]. by left.
        * exists (steamid_of_username id accounts), fyi, (log fyi w).
          split; [done|]. split; [done|]. split; [done|].
          destruct (steamid_of_username_cases id accounts) as [E|E]; [congruence|].
          right. by left. }
  rewrite (bind_Ret _ _ _ _ _ E1).
  assert (after_reading [] w (log evs w)) as Hr1 by (by apply after_reading_log).
  (* the id after the prompt, when there is one *)
  unfold bind at 1.
  destruct (String.eqb_spec id1 EmptyString) as [->|Hne1].
  - pose proof (pick_account_run fuel accounts (log evs w)) as Hp.
    destruct (pick_account fuel accounts (log evs w)) as [[id2|e|] w2]; [| |done].
    + destruct Hp as (Hne2 & Hin2 & lines & Hr2).
      destruct (find_steamid_Some accounts id2 Hin2) as [user Hu].
      rewrite Hu. cbn [or_raise]. unfold ret.
      split; [apply list_elem_of_In; by apply find_some in Hu as [? _]|].
      split.
      * intros Hd.
        destruct Hid1 as [_|[Hin|[<- _]]].
        -- destruct (Py.isdigit id) eqn:Ed; [|done]. exfalso.
           (* a numeric id is kept as it is, so it was not blanked *)
           clear -E1 Ed Hd. cbn [negb andb] in E1. unfold ret in E1.
           injection E1 as E _. by apply isdigit_nonempty in Ed.
        -- exfalso. clear -E1 Hd. rewrite Hd in E1. cbn [negb andb] in E1.
           unfold ret in E1. injection E1 as E _. by apply isdigit_nonempty in Hd.
        -- by apply isdigit_nonempty in Hd.
      * exists ([] ++ lines). by eapply after_reading_trans.
    + destruct Hp as (He & lines & Hr2). split; [tauto|].
      exists ([] ++ lines). by eapply after_reading_trans.
  - unfold ret at 1.
    destruct Hid1 as [?|[Hin|(-> & Hd)]]; [done| |].
    + destruct (find_steamid_Some accounts id1 Hin) as [user Hu].
      rewrite Hu. cbn [or_raise]. unfold ret.
      split; [apply list_elem_of_In; by apply find_some in Hu as [? _]|].
      split; [|by exists []].
      intros Hd. rewrite Hd in E1. cbn [negb andb] in E1. unfold ret in E1.
      injection E1 as -> _. split; [|done].
      apply find_some in Hu as [_ Hu]. by apply String.eqb_eq in Hu.
    + destruct (List.find (fun user => String.eqb (steamid user) id) accounts)
        as [user|] eqn:Hu; cbn [or_raise].
      * unfold ret. split; [apply list_elem_of_In; by apply find_some in Hu as [? _]|].
        split; [|by exists []]. intros _. split; [|done].
        apply find_some in Hu as [_ Hu]. by apply String.eqb_eq in Hu.
      * unfold raise. split; [|by exists []]. left. split; [done|]. split; [done|].
        intros Hin. destruct (find_steamid_Some accounts id Hin) as [user Hu'].
        congruence.
Qed.


(** X19. When the Steam installation cannot be enumerated, [main] with
    [--all] prints the table and the complaint and returns -1 without
    reading from the console or touching the disk; since the script
    drops what [main] returns, its exit status is 0 all the same. *)
Theorem steam_path_missing_returns fuel args games w e :
  all args = true ->
  enumerate_steam_accounts (steam_path args) = inl e ->
  exists w',
    main fuel args games w = (Ret (-1), w')
    /\ after_reading [] w w'
    /\ exit_status (fst (main fuel args games w)) = Some 0.
Proof.
  intros Hall He.
  assert (exists evs, forallb console_event evs = true
                      /\ main fuel args games w = (Ret (-1), log evs w))
    as (evs & Hc & ->).
  { unfold main. rewrite Hall, He. cbn [negb].
    unfold bind at 1. rewrite print_run. unfold bind at 1.
    destruct (print_games_run games (log [Printed EmptyString] w)) as (evs & -> & Hc).
    rewrite log_log. unfold bind at 1. unfold ret at 1.
    unfold bind. rewrite print_run, log_log. unfold ret.
    eexists. split; [|reflexivity]. by rewrite !forallb_app, Hc. }
  eexists. split; [reflexivity|]. split; [|done].
  by apply after_reading_log.
Qed.

End AccountFacts.

Section MainFacts.
Context `{Collaborators}.

(** A numeric [--steamid] is looked up as it is. *)
Lemma resolve_account_numeric fuel id accounts w :
  Py.isdigit id = true ->
  exists evs,
    forallb console_event evs = true
    /\ resolve_account fuel id accounts w
       = (match List.find (fun user => String.eqb (steamid user) id) accounts with
          | Some user => Ret user
          | None => Raise Py.StopIteration
          end, log evs w).
Proof.
  intros Hd. unfold resolve_account. rewrite Hd. cbn [negb andb].
  assert (String.eqb id EmptyString = false) as Hne.
  { apply String.eqb_neq. by apply isdigit_nonempty. }
  rewrite Hne. cbn [negb].
  destruct (length accounts =? 1)%nat; cbn [andb].
  - unfold bind. rewrite print_run. unfold ret. rewrite Hne.
    eexists. split; [|destruct (List.find _ accounts); reflexivity]. done.
  - unfold bind, ret. rewrite Hne. exists []. split; [done|].
    replace (log [] w) with w by (unfold log; rewrite app_nil_r; by destruct w).
    destruct (List.find _ accounts); reflexivity.
Qed.

(** X20. An unattended run ([--all], a numeric [--steamid], no art
    download) reads nothing from the console. When no enumerated account
    has the id it ends in [StopIteration] with the disk as it was.
    Otherwise it is the update of the store of the first account with
    that id, with every detected game: an exception of the update is the
    exception of [main], and after the update [main] prints the closing
    line and returns 0. *)
Theorem unattended_run fuel args games accounts w :
  all args = true ->
  enumerate_steam_accounts (steam_path args) = inr accounts ->
  Py.isdigit (arg_steamid args) = true ->
  download_art args = false ->
  match List.find (fun user => String.eqb (steamid user) (arg_steamid args)) accounts with
  | None =>
      exists w', main fuel args games w = (Raise Py.StopIteration, w')
                 /\ after_reading [] w w'
  | Some user =>
      exists w0,
        after_reading [] w w0
        /\ main fuel args games w
           = match add_games_to_shortcut_file (mkSteamDatabase (steam_path args))
                     user games (live_dangerously args) (use_uri args)
                     (replace_existing args) (download_art_all_shortcuts args) w0 with
             | (Ret _, w1) => (Ret 0, log [Printed (String.append nl "Done.")] w1)
             | (Raise e, w1) => (Raise e, w1)
             | (Spin, w1) => (Spin, w1)
             end
  end.
Proof.
  intros Hall He Hd Hart.
  assert (exists evs,
    forallb console_event evs = true
    /\ main fuel args games w
       = match List.find (fun user => String.eqb (steamid user) (arg_steamid args))
                 accounts with
         | Some user =>
             bind (add_games_to_shortcut_file (mkSteamDatabase (steam_path args))
                     user games (live_dangerously args) (use_uri args)
                     (replace_existing args) (download_art_all_shortcuts args))
                  (fun _ => bind (print (String.append nl "Done.")) (fun _ => ret 0))
                  (log evs w)
         | None => (Raise Py.StopIteration, log evs w)
         end) as (evs & Hc & ->).
  { unfold main. rewrite Hall, He, Hart. cbn [negb].
    unfold bind at 1. rewrite print_run. unfold bind at 1.
    destruct (print_games_run games (log [Printed EmptyString] w)) as (evs & -> & Hc).
    rewrite log_log. unfold bind at 1. unfold ret at 1. cbv zeta.
    unfold bind at 1.
    match goal with
    | |- context [resolve_account fuel _ accounts (log ?l w)] =>
        destruct (resolve_account_numeric fuel (arg_steamid args) accounts (log l w) Hd)
          as (evs2 & Hc2 & ->)
    end.
    rewrite log_log.
    destruct (List.find _ accounts) as [user|].
    - unfold bind at 1. unfold ret at 1. unfold bind at 1. rewrite print_run, log_log.
      eexists. split; [|reflexivity]. by rewrite !forallb_app, Hc, Hc2.
    - eexists. split; [|reflexivity]. by rewrite !forallb_app, Hc, Hc2. }
  destruct (List.find _ accounts) as [user|].
  - exists (log evs w). split; [by apply after_reading_log|].
    unfold bind at 1.
    destruct (add_games_to_shortcut_file _ _ _ _ _ _ _ _) as [[[]|e|] w1];
      [|reflexivity|reflexivity].
    unfold bind. rewrite print_run. reflexivity.
  - eexists. split; [reflexivity|]. by apply after_reading_log.
Qed.

End MainFacts.

Section OutsideRows.
Context `{Collaborators}.

(** The loop after fields that name rows. *)
Lemma filter_games_loop_pre games pre fields acc sel w :
  Forall2 (names_row games) pre sel ->
  filter_games_loop games (pre ++ fields) acc w
  = filter_games_loop games fields (acc ++ sel) w.
Proof.
  intros Hall. revert acc. induction Hall as [|f g pre sel Hf Hall IH]; intros acc.
  - by rewrite app_nil_r.
  - cbn [app filter_games_loop].
    destruct (names_row_getitem _ _ _ Hf) as (n & -> & Hg).
    unfold bind at 1. rewrite Hg. cbn [or_raise]. unfold ret at 1.
    rewrite IH. by rewrite <- app_assoc.
Qed.

(** X21. A number outside 1..len in an answer of plain text (ASCII,
    within the digit cap) to [filter_games], after fields that name rows: from 1-len to 0 it is taken as a position
    counted back from the end of the table (0 is the last row) and the
    selection goes on; above len or below 1-len it ends the call in
    [IndexError]. In both cases one line is read and the disk is left
    alone. *)
Theorem field_outside_rows games w line rest pre field post selected n :
  stdin w = line :: rest ->
  plain_text line ->
  Py.strip line <> EmptyString ->
  Py.split_on "," (Py.strip line) = (pre ++ field :: post)%list ->
  Forall2 (names_row games) pre selected ->
  Py.int (Py.strip field) = Some n ->
  let len := Z.of_nat (length games) in
  (forall g,
     1 - len <= n <= 0 ->
     games !! Z.to_nat (len + n - 1) = Some g ->
     exists w1,
       after_reading [line] w w1
       /\ filter_games games w
          = filter_games_loop games post (selected ++ [g]) w1)
  /\ (n < 1 - len \/ len < n ->
      exists w', filter_games games w = (Raise Py.IndexError, w')
                 /\ after_reading [line] w w').
Proof.
  intros Hin _ Hne Hsplit Hall Hn len.
  destruct (filter_games_step games w line rest Hin) as (w1 & Hr & Hrun).
  destruct (String.eqb_spec (Py.strip line) EmptyString); [done|].
  rewrite Hsplit, (filter_games_loop_pre _ _ _ [] selected w1 Hall) in Hrun.
  cbn [filter_games_loop app] in Hrun. rewrite Hn in Hrun.
  unfold bind at 1 in Hrun. unfold Py.list_getitem in Hrun. fold len in Hrun.
  split.
  - intros g Hrange Hg. exists w1. split; [done|].
    replace ((0 <=? n - 1) && (n - 1 <? len))%bool with false in Hrun
      by (symmetry; apply andb_false_iff; left; apply Z.leb_gt; lia).
    replace ((- len <=? n - 1) && (n - 1 <? 0))%bool with true in Hrun
      by (symmetry; apply andb_true_iff; split; [apply Z.leb_le|apply Z.ltb_lt]; lia).
    replace (len + (n - 1)) with (len + n - 1) in Hrun by lia.
    rewrite Hg in Hrun. exact Hrun.
  - intros Hout. exists w1. split; [|done].
    replace ((0 <=? n - 1) && (n - 1 <? len))%bool with false in Hrun
      by (symmetry; apply andb_false_iff; destruct Hout;
          [left; apply Z.leb_gt|right; apply Z.ltb_ge]; lia).
    replace ((- len <=? n - 1) && (n - 1 <? 0))%bool with false in Hrun
      by (symmetry; apply andb_false_iff; destruct Hout;
          [left; apply Z.leb_gt|right; apply Z.ltb_ge]; lia).
    exact Hrun.
Qed.

End OutsideRows.

Module MoreScenarios.
Import RefEnv MoreEnv.
Local Open Scope string_scope.

(** X1, at a disk without a store. *)
Lemma store_missing_reports_witness :
  let w := empty_world [] in
  exists w',
    add_games_to_shortcut_file steamdb bob [game_a] false false false false w
    = (Ret (None, Some (not_found_message (shortcut_file_path_of steamdb bob))), w')
    /\ files w' = files w
    /\ forallb console_event (new_events w w') = true
    /\ Printed (not_found_message (shortcut_file_path_of steamdb bob))
       ∈ new_events w w'.
Proof.
  intros w.
  apply (store_missing_reports steamdb bob [game_a] false false false false w).
  vm_compute. reflexivity.
Defined.

(** X2, at an empty store and one record. *)
Lemma backup_keeps_original_witness :
  let w := world_with [] [] in
  let run := add_games_to_shortcut_file steamdb bob [game_a]
               false false false false w in
  let p := shortcut_file_path_of steamdb bob in
  exists raw doc entries last b,
    usable_store steamdb bob w raw doc entries last
    /\ binary_dumps
         (with_shortcuts doc (merged_entries false false entries last [game_a]))
       = Some b
    /\ files (snd run)
       = <[p := b]> (<[backup_path p (clock w) := raw]> (delete p (files w)))
    /\ files (snd run) !! backup_path p (clock w) = Some raw
    /\ files (snd run) !! p = Some b.
Proof.
  intros w run.
  apply (backup_keeps_original steamdb bob [game_a] false false false w [] 1 (snd run)).
  vm_compute. reflexivity.
Defined.

(** X3, at the same run without a backup. *)
Lemma no_backup_writes_in_place_witness :
  let w := world_with [] [] in
  let run := add_games_to_shortcut_file steamdb bob [game_a]
               true false false false w in
  exists raw doc entries last b,
    usable_store steamdb bob w raw doc entries last
    /\ binary_dumps
         (with_shortcuts doc (merged_entries false false entries last [game_a]))
       = Some b
    /\ files (snd run) = <[shortcut_file_path_of steamdb bob := b]> (files w).
Proof.
  intros w run.
  apply (no_backup_writes_in_place steamdb bob [game_a] false false false w [] 1
           (snd run)).
  vm_compute. reflexivity.
Defined.



(** X6, at a document with keys before and after ["shortcuts"]. *)
Lemma other_document_keys_kept_witness :
  let w := wide_world [] in
  let run := add_games_to_shortcut_file steamdb bob [game_a]
               false false false false w in
  exists top top' b,
    read_document steamdb bob w = Some (VDict top)
    /\ files (snd run) !! shortcut_file_path_of steamdb bob = Some b
    /\ binary_dumps (VDict top') = Some b
    /\ Py.dict_keys top' = Py.dict_keys top
    /\ (forall k, k <> "shortcuts" -> Py.dict_get k top' = Py.dict_get k top)
    /\ forall i k v, top !! i = Some (k, v) -> k <> "shortcuts" ->
         top' !! i = Some (k, v).
Proof.
  intros w run.
  apply (other_document_keys_kept steamdb bob [game_a] false false false false w [] 1
           (snd run)).
  vm_compute. reflexivity.
Defined.

(** X7, at a store with an entry of another game. *)
Lemma unmatched_entries_kept_witness :
  let w := world_with [("5", entry_x)] [] in
  let run := add_games_to_shortcut_file steamdb bob [game_a]
               false false true false w in
  exists entries m,
    read_store steamdb bob w = Some entries
    /\ written_store steamdb bob (snd run) m
    /\ forall i k v,
         entries !! i = Some (k, v) ->
         (true = false
          \/ forall g, g ∈ [game_a] ->
               indexed (build_index entries []) false g <> Some k) ->
         m !! i = Some (k, v).
Proof.
  intros w run.
  apply (unmatched_entries_kept steamdb bob [game_a] false false true false w [] 1
           (snd run)).
  vm_compute. reflexivity.
Defined.

(** X8, at a store that has one of two selected records. *)
Lemma merge_accounting_witness :
  let w := world_with [("5", entry_a)] [] in
  let run := add_games_to_shortcut_file steamdb bob [game_a; game_b]
               false false false false w in
  exists results n,
    fst run = Ret (Some (results, n), None)
    /\ (1 <= n <= 2)%Z
    /\ (Z.of_nat (length results) + n = 2)%Z.
Proof.
  intros w run.
  exists [skip_message game_a], 1%Z.
  split; [vm_compute; reflexivity|].
  apply (merge_accounting steamdb bob [game_a; game_b] false false false false w
           [skip_message game_a] 1 (snd run)).
  vm_compute. reflexivity.
Defined.

(** X9, at a store with an index that is not a number. *)
Lemma unusable_store_raises_witness :
  let w := world_with [("x", entry_a)] [] in
  exists e w',
    add_games_to_shortcut_file steamdb bob [game_a] false false false false w
    = (Raise e, w')
    /\ files w' = files w
    /\ forallb console_event (new_events w w') = true.
Proof.
  intros w.
  apply (unusable_store_raises steamdb bob [game_a] false false false false w
           (doc [("x", entry_a)])).
  - vm_compute. reflexivity.
  - right. right. exists (doc [("x", entry_a)]), [("x", entry_a)], "x".
    split; [reflexivity|]. split; [reflexivity|].
    split; [apply elem_of_cons; by left|]. split; reflexivity.
Defined.

(** X10, at a store with two entries for one target. *)
Lemma index_answers_last_entry_witness :
  let entries := [("1", entry_a); ("2", entry_a); ("3", entry_x)] in
  path_to_index_get "/g/a.exe" (build_index entries []) = Some "2".
Proof.
  intros entries.
  apply (index_answers_last_entry bob [] false [("1", entry_a)] "2" entry_a
           [("3", entry_x)] "/g/a.exe" (build_index entries []) 0
           (empty_world []) (empty_world [])).
  - vm_compute. reflexivity.
  - reflexivity.
  - intros k' v' Hin. apply list_elem_of_singleton in Hin. injection Hin as -> ->.
    discriminate.
Defined.

(** X11, at an entry built for a record and put after another. *)
Lemma built_shortcut_is_found_witness :
  let entries := [("0", entry_x); ("7", to_shortcut game_a false)] in
  indexed (build_index entries []) false game_a = Some "7".
Proof.
  intros entries.
  apply (built_shortcut_is_found bob [] false [("0", entry_x)] "7" game_a false
           (build_index entries []) 0 (empty_world []) (empty_world [])).
  - discriminate.
  - discriminate.
  - vm_compute. reflexivity.
Defined.

Lemma names_row_here {A : Type} (table : list A) field n x :
  Py.int (Py.strip field) = Some n ->
  (1 <=? n)%Z && (n <=? Z.of_nat (length table))%Z = true ->
  table !! Z.to_nat (n - 1) = Some x ->
  names_row table field x.
Proof.
  intros Hn Hr Hx. exists n. split; [done|]. split; [|done].
  apply andb_true_iff in Hr as [?%Z.leb_le ?%Z.leb_le]. lia.
Qed.


(** X13, at an answer whose second field is a letter. *)
Lemma filter_games_bad_token_witness :
  let w := empty_world ["1,x"] in
  exists w',
    filter_games [game_a; game_b] w = (Ret None, w')
    /\ after_reading ["1,x"] w w'
    /\ Printed (expected_number_message (Py.strip "x")) ∈ new_events w w'.
Proof.
  intros w.
  apply (filter_games_bad_token [game_a; game_b] w "1,x" [] ["1"] "x" [] [game_a]).
  - reflexivity.
  - split; [reflexivity|]. apply Nat.leb_le. reflexivity.
  - vm_compute. discriminate.
  - vm_compute. reflexivity.
  - constructor; [|constructor]. by apply (names_row_here _ _ 1).
  - vm_compute. reflexivity.
Defined.

(** X15, at a console with one blank line. *)
Lemma pick_games_without_games_witness :
  let w := empty_world [EmptyString] in
  exists e w',
    pick_games 2 [] w = (Raise e, w')
    /\ (e = Py.EOFError \/ e = Py.IndexError)
    /\ files w' = files w.
Proof.
  intros w. apply (pick_games_without_games 2 w). simpl. lia.
Defined.


(** X18, at the id of the account on the disk. *)
Lemma resolve_account_outcomes_witness :
  let w := empty_world [] in
  match resolve_account 1 "123" [bob] w with
  | (Ret user, w') =>
      user ∈ [bob]
      /\ (Py.isdigit "123" = true -> steamid user = "123" /\ stdin w' = stdin w)
      /\ exists lines, after_reading lines w w'
  | (Raise e, w') =>
      ((e = Py.StopIteration /\ Py.isdigit "123" = true
        /\ "123" ∉ steamid <$> [bob])
       \/ e = Py.EOFError \/ e = Py.IndexError)
      /\ exists lines, after_reading lines w w'
  | (Spin, _) => True
  end.
Proof.
  intros w. apply (resolve_account_outcomes 1 "123" [bob] w). reflexivity.
Defined.

(** X19, where Steam is not installed. *)
Lemma steam_path_missing_returns_witness :
  exists w',
    @main no_steam_env 1 (all_args EmptyString) [game_a] no_steam_world = (Ret (-1)%Z, w')
    /\ @after_reading no_steam_env [] no_steam_world w'
    /\ exit_status (fst (@main no_steam_env 1 (all_args EmptyString) [game_a]
                           no_steam_world)) = Some 0%Z.
Proof.
  apply (@steam_path_missing_returns no_steam_env 1 (all_args EmptyString) [game_a]
           no_steam_world "No such file or directory").
  - reflexivity.
  - reflexivity.
Defined.

(** X20, at the account on the disk and an empty store. *)
Lemma unattended_run_witness :
  let w := world_with [] [] in
  exists w0,
    after_reading [] w w0
    /\ main 1 (all_args "123") [game_a] w
       = match add_games_to_shortcut_file steamdb bob [game_a]
                 false false false false w0 with
         | (Ret _, w1) => (Ret 0%Z, log [Printed (nl ++ "Done.")] w1)
         | (Raise e, w1) => (Raise e, w1)
         | (Spin, w1) => (Spin, w1)
         end.
Proof.
  intros w.
  apply (unattended_run 1 (all_args "123") [game_a] accounts_on_disk w).
  - reflexivity.
  - reflexivity.
  - vm_compute. reflexivity.
  - reflexivity.
Defined.

(** X21, at an answer whose second field is 0. *)
Lemma field_outside_rows_witness :
  let w := empty_world ["1,0"] in
  exists w1,
    after_reading ["1,0"] w w1
    /\ filter_games [game_a; game_b] w
       = filter_games_loop [game_a; game_b] [] ([game_a] ++ [game_b]) w1.
Proof.
  intros w.
  apply (field_outside_rows [game_a; game_b] w "1,0" [] ["1"] "0" [] [game_a] 0).
  - reflexivity.
  - split; [reflexivity|]. apply Nat.leb_le. reflexivity.
  - vm_compute. discriminate.
  - vm_compute. reflexivity.
  - constructor; [|constructor]. by apply (names_row_here _ _ 1).
  - vm_compute. reflexivity.
  - simpl. lia.
  - reflexivity.
Defined.

End MoreScenarios.
